(** * HardwareHouse: a shallow embedding of [hardwarehouse.py]

    The development follows the layout of the Python module: Python values
    and the pieces of the runtime the module relies on, the hardware
    collectors, the benchmark probes, the two exporters, and the two
    application classes with their category dispatch.  Definitions come
    first, the statements about them after. *)

From Stdlib Require Import ZArith List String Ascii Bool Lia.
From Stdlib Require Import DecimalString DecimalZ DecimalPos DecimalFacts.
From Stdlib Require PrimFloat SpecFloat FloatOps.
From stdpp Require Import gmap strings.
Import ListNotations.

Set Warnings "-register-all".

Open Scope string_scope.
Open Scope Z_scope.

(** ** Python values *)

(** The values that reach a record of this program.  Text is a [string] of
    code points below 256.  A float that the platform hands over for a
    record is carried as the text [repr] gives for it: the program does no
    arithmetic on those.  The floats it computes with, the readings of the
    clock and the boot time, are binary64 numbers, see [float] below.  Dict
    keys are always [str] in this program; a dict is the ordered list of
    its items, in insertion order. *)
Inductive value : Type :=
| VNone
| VBool (b : bool)
| VInt (n : Z)
| VFloat (repr : string)
| VStr (s : string)
| VList (items : list value)
| VTuple (items : list value)
| VDict (fields : list (string * value)).

Abbreviation pydict := (list (string * value)).

(** A Python [float] the program computes with: an IEEE 754 binary64
    number, with the arithmetic of the processor. *)
Abbreviation float := PrimFloat.float.

(** Induction on values: the items of a list and the values of a dict
    satisfy the property. *)

Section ValueInd.
Variable P : value -> Prop.
Hypothesis HNone : P VNone.
Hypothesis HBool : forall b, P (VBool b).
Hypothesis HInt : forall n, P (VInt n).
Hypothesis HFloat : forall r, P (VFloat r).
Hypothesis HStr : forall s, P (VStr s).
Hypothesis HList : forall l, Forall P l -> P (VList l).
Hypothesis HTuple : forall l, Forall P l -> P (VTuple l).
Hypothesis HDict : forall d, Forall (fun kv => P (snd kv)) d -> P (VDict d).

Fixpoint value_rect' (v : value) : P v :=
  let fix all (l : list value) : Forall P l :=
    match l with
    | [] => @List.Forall_nil _ P
    | x :: rest => @List.Forall_cons _ P x rest (value_rect' x) (all rest)
    end in
  match v with
  | VNone => HNone
  | VBool b => HBool b
  | VInt n => HInt n
  | VFloat r => HFloat r
  | VStr s => HStr s
  | VList l => HList l (all l)
  | VTuple l => HTuple l (all l)
  | VDict d =>
      HDict d ((fix fields (d : pydict) : Forall (fun kv => P (snd kv)) d :=
                  match d with
                  | [] => @List.Forall_nil _ _
                  | kv :: rest =>
                      @List.Forall_cons _ (fun kv => P (snd kv)) kv rest
                        (value_rect' (snd kv)) (fields rest)
                  end) d)
  end.
End ValueInd.

(** [d[k] = v]: an existing key keeps its position, a new key goes last. *)
Fixpoint dict_set (d : pydict) (k : string) (v : value) : pydict :=
  match d with
  | [] => [(k, v)]
  | (k', v') :: rest =>
      if String.eqb k' k then (k', v) :: rest else (k', v') :: dict_set rest k v
  end.

(** [d.update(other)]. *)
Definition dict_update (d other : pydict) : pydict :=
  fold_left (fun acc kv => dict_set acc (fst kv) (snd kv)) other d.

Fixpoint dict_get (d : pydict) (k : string) : option value :=
  match d with
  | [] => None
  | (k', v) :: rest => if String.eqb k' k then Some v else dict_get rest k
  end.

Definition dict_keys (d : pydict) : list string := map fst d.

(** [type(v).__name__]. *)
Definition type_name (v : value) : string :=
  match v with
  | VNone => "NoneType"
  | VBool _ => "bool"
  | VInt _ => "int"
  | VFloat _ => "float"
  | VStr _ => "str"
  | VList _ => "list"
  | VTuple _ => "tuple"
  | VDict _ => "dict"
  end.

(** Truth value of an object, as [if v] tests it. *)
Definition truthy (v : value) : bool :=
  match v with
  | VNone => false
  | VBool b => b
  | VInt n => negb (n =? 0)
  | VFloat r => negb (String.eqb r "0.0" || String.eqb r "-0.0")
  | VStr s => negb (String.eqb s EmptyString)
  | VList l | VTuple l => match l with [] => false | _ => true end
  | VDict d => match d with [] => false | _ => true end
  end.

(** *** Text of a value: [str] and [repr] *)

Definition string_of_Z (z : Z) : string := NilZero.string_of_int (Z.to_int z).

(** The double quote character. *)
Definition dquote : ascii := "034"%char.

Definition hex_digit (n : nat) : ascii :=
  match n with
  | 0 => "0" | 1 => "1" | 2 => "2" | 3 => "3" | 4 => "4" | 5 => "5" | 6 => "6"
  | 7 => "7" | 8 => "8" | 9 => "9" | 10 => "a" | 11 => "b" | 12 => "c"
  | 13 => "d" | 14 => "e" | _ => "f"
  end%char%nat.

(** The two lower-case hexadecimal digits of a code point below 256. *)
Definition hex2 (c : ascii) : string :=
  let n := nat_of_ascii c in
  String (hex_digit (n / 16)%nat) (String (hex_digit (n mod 16)%nat) EmptyString).

Fixpoint contains_char (c : ascii) (s : string) : bool :=
  match s with
  | EmptyString => false
  | String c' rest => Ascii.eqb c c' || contains_char c rest
  end.

(** [str.isprintable] on one code point below 256: the C0 and C1 controls,
    DEL, the no-break space and the soft hyphen are not printable. *)
Definition is_printable (c : ascii) : bool :=
  let n := nat_of_ascii c in
  ((32 <=? n) && (n <? 127) || (161 <=? n) && negb (n =? 173))%nat.

Definition repr_char (quote c : ascii) : string :=
  if Ascii.eqb c quote || Ascii.eqb c "\" then String "\" (String c EmptyString)
  else if Ascii.eqb c "009" then "\t"
  else if Ascii.eqb c "010" then "\n"
  else if Ascii.eqb c "013" then "\r"
  else if is_printable c then String c EmptyString
  else "\x" ++ hex2 c.

Fixpoint repr_chars (quote : ascii) (s : string) : string :=
  match s with
  | EmptyString => EmptyString
  | String c rest => repr_char quote c ++ repr_chars quote rest
  end.

(** [repr] of a [str]: single quotes, unless the text has a single quote
    and no double quote. *)
Definition repr_str (s : string) : string :=
  let quote : ascii :=
    if contains_char "'" s && negb (contains_char dquote s) then dquote else "'"%char in
  String quote (repr_chars quote s ++ String quote EmptyString).

Fixpoint join (sep : string) (l : list string) : string :=
  match l with
  | [] => EmptyString
  | [x] => x
  | x :: rest => x ++ sep ++ join sep rest
  end.

Fixpoint py_repr (v : value) : string :=
  match v with
  | VNone => "None"
  | VBool true => "True"
  | VBool false => "False"
  | VInt n => string_of_Z n
  | VFloat r => r
  | VStr s => repr_str s
  | VList l => "[" ++ join ", " (map py_repr l) ++ "]"
  | VTuple l =>
      match l with
      | [x] => "(" ++ py_repr x ++ ",)"
      | _ => "(" ++ join ", " (map py_repr l) ++ ")"
      end
  | VDict d =>
      "{" ++ join ", " (map (fun kv => repr_str (fst kv) ++ ": " ++ py_repr (snd kv)) d) ++ "}"
  end.

Definition py_str (v : value) : string :=
  match v with
  | VStr s => s
  | _ => py_repr v
  end.

(** ** Exceptions and the state of a run *)

(** A raised exception: its class and the text [str(e)] gives.  Every
    exception modelled here derives from [Exception]. *)
Record exn : Type := Exn { exn_class : string; exn_msg : string }.

(** Result of a call that touches no state: a value or a raised exception. *)
Inductive res (A : Type) : Type :=
| Ok (a : A)
| Err (e : exn).
Arguments Ok {A} a.
Arguments Err {A} e.

(** What a file holds: the chunks written to it since it was last
    truncated.  [Fill c n] stands for [n] copies of the byte [c]. *)
Inductive chunk : Type :=
| Chars (s : string)
| Fill (c : ascii) (n : N).

Definition chunk_text (c : chunk) : string :=
  match c with
  | Chars s => s
  | Fill c n => N.iter n (String c) EmptyString
  end.

Definition file_text (chunks : list chunk) : string :=
  fold_right (fun c acc => chunk_text c ++ acc) EmptyString chunks.

(** A worker started with [threading.Thread(target=...).start()]. *)
Inductive task : Type :=
| RunBenchmarks
| RunExtendedBenchmarks.

(** Observable steps of a run, in the order they happen. *)
Inductive event : Type :=
| EvEnter (f : string)            (* a probe is entered *)
| EvLeave (f : string)            (* a probe returned its dict *)
| EvClock (t : float)             (* [time.time()] returned [t] *)
| EvFile (op name : string)       (* a file operation succeeded *)
| EvSetInfo (v : value)           (* [self.current_info = v] *)
| EvAfter (v : value)             (* [textbox.after(0, display_info(v))] queued *)
| EvStart (t : task).             (* a worker thread was started *)

(** The state a run reads and writes.  [clock] lists the readings the next
    calls of [time.time()] return, in seconds; [faults] the outcome of
    the next file operations ([Some msg]: the operation raises [OSError]);
    [tmp_names] the names [tempfile] tries next. *)
Record State : Type := mkState {
  clock : list float;
  faults : list (option string);
  tmp_names : list string;
  files : gmap string (list chunk);
  current_info : value;
  combo : string;
  textbox : string;
  log : list event;
}.

Definition set_clock (c : list float) (s : State) : State :=
  mkState c (faults s) (tmp_names s) (files s) (current_info s) (combo s) (textbox s) (log s).
Definition set_faults (f : list (option string)) (s : State) : State :=
  mkState (clock s) f (tmp_names s) (files s) (current_info s) (combo s) (textbox s) (log s).
Definition set_tmp_names (t : list string) (s : State) : State :=
  mkState (clock s) (faults s) t (files s) (current_info s) (combo s) (textbox s) (log s).
Definition set_files (f : gmap string (list chunk)) (s : State) : State :=
  mkState (clock s) (faults s) (tmp_names s) f (current_info s) (combo s) (textbox s) (log s).
Definition set_current_info (v : value) (s : State) : State :=
  mkState (clock s) (faults s) (tmp_names s) (files s) v (combo s) (textbox s) (log s).
Definition set_combo (c : string) (s : State) : State :=
  mkState (clock s) (faults s) (tmp_names s) (files s) (current_info s) c (textbox s) (log s).
Definition set_textbox (t : string) (s : State) : State :=
  mkState (clock s) (faults s) (tmp_names s) (files s) (current_info s) (combo s) t (log s).
Definition add_event (e : event) (s : State) : State :=
  mkState (clock s) (faults s) (tmp_names s) (files s) (current_info s) (combo s) (textbox s)
          (log s ++ [e])%list.

(** Outcome of a stateful call.  [Stalled] is not a Python outcome: the
    scripted clock has no reading left, so the model cannot tell what the
    call does next. *)
Inductive outcome (A : Type) : Type :=
| Ret (a : A) (s : State)
| Raise (e : exn) (s : State)
| Stalled.
Arguments Ret {A} a s.
Arguments Raise {A} e s.
Arguments Stalled {A}.

Definition M (A : Type) : Type := State -> outcome A.

Definition ret {A} (a : A) : M A := fun s => Ret a s.
Definition raise {A} (e : exn) : M A := fun s => Raise e s.
Definition bind {A B} (m : M A) (k : A -> M B) : M B :=
  fun s => match m s with
           | Ret a s' => k a s'
           | Raise e s' => Raise e s'
           | Stalled => Stalled
           end.
(** [try: m  except Exception as e: h e]. *)
Definition try_except {A} (m : M A) (h : exn -> M A) : M A :=
  fun s => match m s with
           | Ret a s' => Ret a s'
           | Raise e s' => h e s'
           | Stalled => Stalled
           end.
Definition lift {A} (r : res A) : M A :=
  fun s => match r with Ok a => Ret a s | Err e => Raise e s end.
Definition get_state : M State := fun s => Ret s s.
Definition modify (f : State -> State) : M unit := fun s => Ret tt (f s).
Definition emit (e : event) : M unit := modify (add_event e).

#[global] Instance M_ret : MRet M := @ret.
#[global] Instance M_bind : MBind M := fun A B k m => bind m k.

(** The same for calls without state. *)
Definition res_bind {A B} (r : res A) (k : A -> res B) : res B :=
  match r with Ok a => k a | Err e => Err e end.
Definition res_catch {A} (r : res A) (h : exn -> A) : A :=
  match r with Ok a => a | Err e => h e end.

#[global] Instance res_ret : MRet res := @Ok.
#[global] Instance res_mbind : MBind res := fun A B k r => res_bind r k.

(** *** The clock *)

(** [time.time()]. *)
Definition time_time : M float :=
  fun s => match clock s with
           | [] => Stalled
           | t :: rest => Ret t (add_event (EvClock t) (set_clock rest s))
           end.

(** *** Files *)

(** Every file operation first takes the next scripted outcome. *)
Definition fault_point : M unit :=
  fun s => match faults s with
           | [] => Ret tt s
           | None :: rest => Ret tt (set_faults rest s)
           | Some msg :: rest => Raise (Exn "OSError" msg) (set_faults rest s)
           end.

Definition file_exists (name : string) (s : State) : bool :=
  match files s !! name with Some _ => true | None => false end.

Definition no_such_file (name : string) : exn :=
  Exn "FileNotFoundError" ("[Errno 2] No such file or directory: " ++ repr_str name).

(** [open(name, "w")] and [open(name, "wb")]: create or truncate. *)
Definition open_write (name : string) : M unit :=
  fault_point ;;
  modify (fun s => set_files (<[name := []]> (files s)) s) ;;
  emit (EvFile "open-write" name).

(** [f.write(data)] on a file opened for writing.  A write that fails leaves
    nothing of [data] in the file, and one that returns has written it all:
    the buffers of Python's file objects, with which a failure can surface
    at a later write or when the file is closed and can leave the file cut
    at any byte, are not modelled. *)
Definition file_write (name : string) (data : chunk) : M unit :=
  fault_point ;;
  modify (fun s => set_files (<[name := (default [] (files s !! name) ++ [data])%list]> (files s)) s) ;;
  emit (EvFile "write" name).

(** [open(name, "rb")]. *)
Definition open_read (name : string) : M unit :=
  fault_point ;;
  s ← get_state;
  if file_exists name s then emit (EvFile "open-read" name) else raise (no_such_file name).

(** [f.read()]. *)
Definition file_read (name : string) : M (list chunk) :=
  fault_point ;;
  s ← get_state;
  emit (EvFile "read" name) ;;
  ret (default [] (files s !! name)).

(** [os.remove(name)]. *)
Definition os_remove (name : string) : M unit :=
  fault_point ;;
  s ← get_state;
  if file_exists name s
  then modify (fun s => set_files (delete name (files s)) s) ;; emit (EvFile "remove" name)
  else raise (no_such_file name).

Definition no_temp_name : exn :=
  Exn "FileExistsError" "[Errno 17] No usable temporary file name found".

(** The first candidate name that no file has yet; the candidates tried are
    used up. *)
Fixpoint pick_name (candidates : list string) (s : State) : option (string * list string) :=
  match candidates with
  | [] => None
  | n :: rest => if file_exists n s then pick_name rest s else Some (n, rest)
  end.

(** [tempfile.mktemp()]: a name that does not exist yet; no file is made. *)
Definition tempfile_mktemp : M string :=
  s ← get_state;
  match pick_name (tmp_names s) s with
  | None => modify (set_tmp_names []) ;; raise no_temp_name
  | Some (n, rest) => modify (set_tmp_names rest) ;; ret n
  end.

(** [tempfile.NamedTemporaryFile(delete=False)] followed by [.name] and
    [.close()]: a new, empty file that stays after it is closed. *)
Definition named_temporary_file : M string :=
  fault_point ;;
  n ← tempfile_mktemp;
  modify (fun s => set_files (<[n := []]> (files s)) s) ;;
  emit (EvFile "create" n) ;;
  ret n.

(** *** Text helpers of the runtime *)

Definition string_rev (s : string) : string :=
  string_of_list_ascii (rev (list_ascii_of_string s)).

Fixpoint lstrip_with (p : ascii -> bool) (s : string) : string :=
  match s with
  | EmptyString => EmptyString
  | String c rest => if p c then lstrip_with p rest else s
  end.

Definition strip_with (p : ascii -> bool) (s : string) : string :=
  string_rev (lstrip_with p (string_rev (lstrip_with p s))).

(** [str.isspace] on one code point below 256. *)
Definition is_space (c : ascii) : bool :=
  let n := nat_of_ascii c in
  ((9 <=? n) && (n <=? 13) || (28 <=? n) && (n <=? 32) || (n =? 133) || (n =? 160))%nat.

(** [s.strip()], and [s.strip] of the double quote character. *)
Definition str_strip (s : string) : string := strip_with is_space s.
Definition str_strip_quotes (s : string) : string := strip_with (Ascii.eqb dquote) s.

(** [s.split(sep)] for a one-character separator. *)
Fixpoint str_split (sep : ascii) (s : string) : list string :=
  match s with
  | EmptyString => [EmptyString]
  | String c rest =>
      if Ascii.eqb c sep then EmptyString :: str_split sep rest
      else match str_split sep rest with
           | [] => [String c EmptyString]
           | w :: ws => String c w :: ws
           end
  end.

(** [l[i]] on a list. *)
Definition list_index {A} (l : list A) (i : nat) : res A :=
  match nth_error l i with
  | Some x => Ok x
  | None => Err (Exn "IndexError" "list index out of range")
  end.

(** The decimal digits of [n], padded with zeros on the left to [width]. *)
Definition zero_pad (width : nat) (n : Z) : string :=
  let d := string_of_Z n in
  string_of_list_ascii (repeat "0"%char (width - String.length d)) ++ d.

(** Quotient of [a] by [b > 0] rounded to the nearest integer, ties to even. *)
Definition div_half_even (a b : Z) : Z :=
  let q := a / b in
  let r := a mod b in
  if 2 * r <? b then q
  else if b <? 2 * r then q + 1
  else if Z.even q then q else q + 1.

(** [repr(round(num / den, 2))] for integers [num] and [den > 0]: the
    quotient rounded to hundredths, printed with at least one digit after
    the point.  Exact while [num] is below [2^53] and [den] a power of two,
    as for the byte counts divided by [1024 ** 3] below. *)
Definition round2_repr (num den : Z) : string :=
  let c := div_half_even (100 * Z.abs num) den in
  let frac := c mod 100 in
  (if num <? 0 then "-" else EmptyString) ++ string_of_Z (c / 100) ++ "." ++
  (if frac mod 10 =? 0 then string_of_Z (frac / 10) else zero_pad 2 frac).

Definition GiB : Z := 1024 ^ 3.

(** [round(n / (1024 ** 3), 2)]. *)
Definition round_gib (n : Z) : value := VFloat (round2_repr n GiB).

(** *** Floats *)

(** The float nearest to [m * 2 ^ e], ties to even; an infinity when that is
    out of range. *)
Definition float_of_scaled (m e : Z) : float :=
  FloatOps.SF2Prim (SpecFloat.binary_normalize FloatOps.prec FloatOps.emax m e false).

(** The float Python reads from a decimal literal with [places] digits
    after the point: [decimal 6 742523] is [0.742523]. *)
Definition decimal (places : nat) (n : Z) : float :=
  PrimFloat.div (float_of_scaled n 0) (float_of_scaled (10 ^ Z.of_nat places) 0).

(** An [int] where a float is expected, as in [x + 3]. *)
Definition float_of_int (n : Z) : res float :=
  let x := float_of_scaled n 0 in
  if PrimFloat.is_infinity x
  then Err (Exn "OverflowError" "int too large to convert to float")
  else Ok x.

(** [int(x)]: the integer part, towards zero. *)
Definition int_of_float (x : float) : res Z :=
  match FloatOps.Prim2SF x with
  | SpecFloat.S754_nan => Err (Exn "ValueError" "cannot convert float NaN to integer")
  | SpecFloat.S754_infinity _ =>
      Err (Exn "OverflowError" "cannot convert float infinity to integer")
  | SpecFloat.S754_zero _ => Ok 0
  | SpecFloat.S754_finite s m e =>
      let n := if 0 <=? e then Z.pos m * 2 ^ e else Z.pos m / 2 ^ (- e) in
      Ok (if s then - n else n)
  end.

(** C's [floor]. *)
Definition float_floor (x : float) : float :=
  match FloatOps.Prim2SF x with
  | SpecFloat.S754_finite s m e =>
      if 0 <=? e then x
      else
        let q := Z.pos m / 2 ^ (- e) in
        let whole := Z.pos m mod 2 ^ (- e) =? 0 in
        if s then float_of_scaled (- (if whole then q else q + 1)) 0
        else float_of_scaled q 0
  | _ => x
  end.

(** C's [fmod]: what is left of [x] when [y] is taken off as many whole
    times as fit; the result is exact and has the sign of [x]. *)
Definition float_fmod (x y : float) : float :=
  match FloatOps.Prim2SF x, FloatOps.Prim2SF y with
  | SpecFloat.S754_nan, _ | _, SpecFloat.S754_nan => PrimFloat.nan
  | SpecFloat.S754_infinity _, _ | _, SpecFloat.S754_zero _ => PrimFloat.nan
  | _, SpecFloat.S754_infinity _ | SpecFloat.S754_zero _, _ => x
  | SpecFloat.S754_finite sx mx ex, SpecFloat.S754_finite _ my ey =>
      let e := Z.min ex ey in
      let r := (Z.pos mx * 2 ^ (ex - e)) mod (Z.pos my * 2 ^ (ey - e)) in
      FloatOps.SF2Prim (SpecFloat.binary_normalize FloatOps.prec FloatOps.emax
                          (if sx then - r else r) e sx)
  end.

(** [copysign(0.0, x)]. *)
Definition zero_with_sign_of (x : float) : float :=
  if PrimFloat.get_sign x then PrimFloat.neg_zero else PrimFloat.zero.

(** A float as a condition: false for both zeros. *)
Definition float_bool (x : float) : bool := negb (PrimFloat.eqb x PrimFloat.zero).

(** [_float_div_mod] of CPython's [floatobject.c], which both [x // y] and
    [divmod] go through once [y] is known not to be zero: the floor
    quotient and the remainder. *)
Definition float_div_mod (vx wx : float) : float * float :=
  let mod_ := float_fmod vx wx in
  let div := PrimFloat.div (PrimFloat.sub vx mod_) wx in
  let '(mod_, div) :=
    if float_bool mod_ then
      if negb (Bool.eqb (PrimFloat.ltb wx PrimFloat.zero) (PrimFloat.ltb mod_ PrimFloat.zero))
      then (PrimFloat.add mod_ wx, PrimFloat.sub div PrimFloat.one)
      else (mod_, div)
    else (zero_with_sign_of wx, div) in
  let floordiv :=
    if float_bool div then
      let floordiv := float_floor div in
      if PrimFloat.ltb (float_of_scaled 1 (-1)) (PrimFloat.sub div floordiv)
      then PrimFloat.add floordiv PrimFloat.one else floordiv
    else zero_with_sign_of (PrimFloat.div vx wx) in
  (floordiv, mod_).

(** [x // y] for [y] other than 0. *)
Definition float_floordiv (x y : float) : float := fst (float_div_mod x y).

(** [x % y] for [y] other than 0: [float_rem] of [floatobject.c]. *)
Definition float_mod (x y : float) : float :=
  let mod_ := float_fmod x y in
  if float_bool mod_ then
    if negb (Bool.eqb (PrimFloat.ltb y PrimFloat.zero) (PrimFloat.ltb mod_ PrimFloat.zero))
    then PrimFloat.add mod_ y else mod_
  else zero_with_sign_of y.

(** [f"{x:.4f}"]: the exact value of the float, rounded to four digits
    after the point, ties to even. *)
Definition format_4f (x : float) : string :=
  match FloatOps.Prim2SF x with
  | SpecFloat.S754_nan => "nan"
  | SpecFloat.S754_infinity s => if s then "-inf" else "inf"
  | SpecFloat.S754_zero s => (if s then "-" else EmptyString) ++ "0.0000"
  | SpecFloat.S754_finite s m e =>
      let c := if 0 <=? e then Z.pos m * 10000 * 2 ^ e
               else div_half_even (Z.pos m * 10000) (2 ^ (- e)) in
      (if s then "-" else EmptyString) ++ string_of_Z (c / 10000) ++ "." ++
      zero_pad 4 (c mod 10000)
  end.

(** ** The platform *)

(** What the platform libraries ([platform], [wmi], [psutil], [locale],
    [subprocess], [numpy]) answer during a run.  Every call can raise; a
    property of a WMI object is whatever Python value WMI delivers. *)

Record uname_result : Type := {
  u_system : string; u_node : string; u_release : string;
  u_version : string; u_machine : string; u_processor : string }.

Record Win32_Processor : Type := {
  cpu_Name : option string;
  cpu_Manufacturer : value; cpu_NumberOfCores : value;
  cpu_NumberOfLogicalProcessors : value; cpu_MaxClockSpeed : value;
  cpu_CurrentClockSpeed : value; cpu_Architecture : value;
  cpu_ProcessorId : value; cpu_L2CacheSize : value; cpu_L3CacheSize : value }.

Record Win32_VideoController : Type := {
  gpu_Name : value; gpu_DriverVersion : value; gpu_VideoProcessor : value;
  gpu_AdapterRAM : option Z;
  gpu_VideoModeDescription : value; gpu_Status : value }.

Record Win32_BIOS : Type := {
  bios_Manufacturer : value; bios_SMBIOSBIOSVersion : value;
  bios_ReleaseDate : value; bios_SerialNumber : value;
  bios_BIOSLanguage : option value (* [None]: no such attribute *) }.

Record Win32_BaseBoard : Type := {
  board_Manufacturer : value; board_Product : value;
  board_SerialNumber : value; board_Version : value;
  board_Model : option value (* [None]: no such attribute *) }.

Record Win32_SoundDevice : Type := {
  sound_Name : value; sound_Status : value; sound_Manufacturer : value }.

Record Win32_USBControllerDevice : Type := { usb_Dependent : option string }.

Record Win32_DesktopMonitor : Type := {
  monitor_Name : value; monitor_ScreenHeight : value;
  monitor_ScreenWidth : value; monitor_Status : value }.

Record Win32_Printer : Type := {
  printer_Name : value; printer_Status : value; printer_Default : value;
  printer_Network : value; printer_Shared : value }.

Record Win32_Product : Type := {
  software_Name : value; software_Version : value;
  software_Vendor : value; software_InstallDate : value }.

Record svmem : Type := {
  vm_total : Z; vm_available : Z; vm_used : Z; vm_percent : value }.
Record sswap : Type := { swap_total : Z; swap_used : Z; swap_percent : value }.
Record sdiskpart : Type := { p_device : string; p_mountpoint : string; p_fstype : string }.
Record sdiskusage : Type := {
  usage_total : Z; usage_used : Z; usage_free : Z; usage_percent : value }.

Inductive address_family : Type := AF_INET | AF_INET6 | AF_LINK | AF_other.
Record snicaddr : Type := { addr_family : address_family; addr_address : string }.
Record sbattery : Type := {
  bat_percent : value; bat_secsleft : value; bat_power_plugged : value }.

Record Platform : Type := {
  platform_uname : res uname_result;
  platform_python_version : res string;
  wmi_Win32_Processor : res (list Win32_Processor);
  wmi_Win32_VideoController : res (list Win32_VideoController);
  wmi_Win32_BIOS : res (list Win32_BIOS);
  wmi_Win32_BaseBoard : res (list Win32_BaseBoard);
  wmi_Win32_SoundDevice : res (list Win32_SoundDevice);
  wmi_Win32_USBControllerDevice : res (list Win32_USBControllerDevice);
  wmi_Win32_DesktopMonitor : res (list Win32_DesktopMonitor);
  wmi_Win32_Printer : res (list Win32_Printer);
  wmi_Win32_Product : res (list Win32_Product);
  psutil_virtual_memory : res svmem;
  psutil_swap_memory : res sswap;
  psutil_disk_partitions : res (list sdiskpart);
  psutil_disk_usage : string -> res sdiskusage;
  psutil_net_if_addrs : res (list (string * list snicaddr));
  psutil_net_if_stats : res (gmap string bool);     (* [isup] of each interface *)
  (* the lookup [psutil.AF_INET]: psutil names [AF_LINK] and no other family,
     so with psutil as released the lookup raises [AttributeError] *)
  psutil_AF_INET : res address_family;
  psutil_sensors_battery : res (option sbattery);
  psutil_pids : res (list Z);
  psutil_boot_time : res float;                      (* seconds since the epoch *)
  (* [datetime.fromtimestamp(t).strftime("%Y-%m-%d %H:%M:%S")], in local time *)
  datetime_strftime : float -> res string;
  subprocess_powercfg : res string;                  (* [powercfg /getactivescheme] *)
  locale_getdefaultlocale : res (value * value);
  time_tzname : string * string;
  bytearray_alloc : res unit;                        (* [bytearray(100_000_000)] *)
  import_numpy : res unit;
  numpy_random_rand : res unit;                      (* [np.random.rand(10**7)] *)
}.

(** ** Hardware info collectors *)

Definition no_attribute (v : value) (attr : string) : exn :=
  Exn "AttributeError" ("'" ++ type_name v ++ "' object has no attribute '" ++ attr ++ "'").

(** [acc.append(f x)] for each [x], until [f] raises: the items appended so
    far and the exception that stopped the loop, if any.  [f x = Ok None]
    appends nothing. *)
Fixpoint for_append {A} (f : A -> res (option value)) (xs : list A) (acc : list value)
  : list value * option exn :=
  match xs with
  | [] => (acc, None)
  | x :: rest =>
      match f x with
      | Ok (Some v) => for_append f rest (acc ++ [v])%list
      | Ok None => for_append f rest acc
      | Err e => (acc, Some e)
      end
  end.

(** The shape shared by the list collectors:
    [acc = []; try: for x in query(): acc.append(f x)
     except Exception as e: acc.append({"Error": what + str(e)}); return acc]. *)
Definition collect_list {A} (query : res (list A)) (f : A -> res (option value))
    (what : string) : value :=
  let on_error acc e := (acc ++ [VDict [("Error", VStr (what ++ exn_msg e))]])%list in
  match query with
  | Err e => VList (on_error [] e)
  | Ok xs =>
      match for_append f xs [] with
      | (acc, None) => VList acc
      | (acc, Some e) => VList (on_error acc e)
      end
  end.

(** The shape shared by the collectors that return a dict from inside
    [try] and [{"Error": what + str(e)}] from [except]. *)
Definition collect_dict (body : res pydict) (what : string) : value :=
  VDict (res_catch body (fun e => [("Error", VStr (what ++ exn_msg e))])).

(** The shape shared by the collectors that keep the first object of a WMI
    query: [data = {}; try: for x in query(): data = {...}; break
    except Exception as e: data["Error"] = what + str(e); return data]. *)
Definition collect_first {A} (query : res (list A)) (f : A -> res pydict)
    (what : string) : value :=
  let body := xs ← query; match xs with [] => mret [] | x :: _ => f x end in
  VDict (res_catch body (fun e => dict_set [] "Error" (VStr (what ++ exn_msg e)))).

Section Collectors.

Variable pf : Platform.

Definition get_system_info : res value :=
  uname ← platform_uname pf;
  python_version ← platform_python_version pf;
  mret (VDict [
    ("System", VStr (u_system uname));
    ("Node Name", VStr (u_node uname));
    ("Release", VStr (u_release uname));
    ("Version", VStr (u_version uname));
    ("Machine", VStr (u_machine uname));
    ("Processor", VStr (u_processor uname));
    ("Python Version", VStr python_version)]).

Definition get_cpu_info : res value :=
  mret (collect_first (wmi_Win32_Processor pf) (fun cpu =>
    name ← match cpu_Name cpu with
           | Some s => Ok (str_strip s)
           | None => Err (no_attribute VNone "strip")
           end;
    mret [
      ("Name", VStr name);
      ("Manufacturer", cpu_Manufacturer cpu);
      ("Cores (Physical)", cpu_NumberOfCores cpu);
      ("Threads (Logical)", cpu_NumberOfLogicalProcessors cpu);
      ("Max Clock Speed (MHz)", cpu_MaxClockSpeed cpu);
      ("Current Clock Speed (MHz)", cpu_CurrentClockSpeed cpu);
      ("Architecture", cpu_Architecture cpu);
      ("Processor ID", cpu_ProcessorId cpu);
      ("L2 Cache Size (KB)", cpu_L2CacheSize cpu);
      ("L3 Cache Size (KB)", cpu_L3CacheSize cpu)])
    "Failed to get CPU info: ").

Definition get_gpu_info : res value :=
  mret (collect_list (wmi_Win32_VideoController pf) (fun gpu =>
    mret (Some (VDict [
      ("Name", gpu_Name gpu);
      ("Driver Version", gpu_DriverVersion gpu);
      ("Video Processor", gpu_VideoProcessor gpu);
      ("RAM (MB)", match gpu_AdapterRAM gpu with
                   | Some n => if n =? 0 then VStr "Unknown" else VInt (n / (1024 * 1024))
                   | None => VStr "Unknown"
                   end);
      ("Video Mode", gpu_VideoModeDescription gpu);
      ("Status", gpu_Status gpu)])))
    "Failed to get GPU info: ").

Definition get_ram_info : res value :=
  mret (collect_dict (
    vm ← psutil_virtual_memory pf;
    swap ← psutil_swap_memory pf;
    mret [
      ("Total RAM (GB)", round_gib (vm_total vm));
      ("Available RAM (GB)", round_gib (vm_available vm));
      ("Used RAM (GB)", round_gib (vm_used vm));
      ("RAM Usage (%)", vm_percent vm);
      ("Total Swap (GB)", round_gib (swap_total swap));
      ("Used Swap (GB)", round_gib (swap_used swap));
      ("Swap Usage (%)", swap_percent swap)])
    "Failed to get RAM info: ").

Definition get_disk_info : res value :=
  mret (collect_list (psutil_disk_partitions pf) (fun p =>
    usage ← psutil_disk_usage pf (p_mountpoint p);
    mret (Some (VDict [
      ("Device", VStr (p_device p));
      ("Mountpoint", VStr (p_mountpoint p));
      ("File System", VStr (p_fstype p));
      ("Total Size (GB)", round_gib (usage_total usage));
      ("Used (GB)", round_gib (usage_used usage));
      ("Free (GB)", round_gib (usage_free usage));
      ("Usage (%)", usage_percent usage)])))
    "Failed to get disk info: ").

Definition same_family (a b : address_family) : bool :=
  match a, b with
  | AF_INET, AF_INET | AF_INET6, AF_INET6 | AF_LINK, AF_LINK | AF_other, AF_other => true
  | _, _ => false
  end.

(** [[addr.address for addr in addrs if addr.family == psutil.AF_...]]: the
    attribute of the module is looked up at each address, so with no
    address it is not looked up at all. *)
Fixpoint addresses_where (family : res address_family) (addrs : list snicaddr)
  : res (list value) :=
  match addrs with
  | [] => mret []
  | addr :: rest =>
      wanted ← family;
      found ← addresses_where family rest;
      mret (if same_family (addr_family addr) wanted
            then VStr (addr_address addr) :: found else found)
  end.

(** [found if found else ["None"]]. *)
Definition or_none (found : list value) : value :=
  match found with
  | [] => VList [VStr "None"]
  | _ => VList found
  end.

Definition get_network_info : res value :=
  mret (collect_list
    (addrs ← psutil_net_if_addrs pf;
     stats ← psutil_net_if_stats pf;
     mret (map (pair stats) addrs))
    (fun '(stats, (iface_name, iface_addrs)) =>
      let is_up := default false (stats !! iface_name) in
      ips ← addresses_where (psutil_AF_INET pf) iface_addrs;
      macs ← addresses_where (Ok AF_LINK) iface_addrs;
      mret (Some (VDict [
        ("Interface", VStr iface_name);
        ("Status", VStr (if is_up then "Up" else "Down"));
        ("IPv4 Addresses", or_none ips);
        ("MAC Addresses", or_none macs)])))
    "Failed to get network info: ").

Definition get_bios_info : res value :=
  mret (collect_first (wmi_Win32_BIOS pf) (fun bios =>
    mret [
      ("Manufacturer", bios_Manufacturer bios);
      ("Version", bios_SMBIOSBIOSVersion bios);
      ("Release Date", bios_ReleaseDate bios);
      ("Serial Number", bios_SerialNumber bios);
      ("BIOS Language", default (VStr "N/A") (bios_BIOSLanguage bios))])
    "Failed to get BIOS info: ").

Definition get_motherboard_info : res value :=
  mret (collect_first (wmi_Win32_BaseBoard pf) (fun board =>
    mret [
      ("Manufacturer", board_Manufacturer board);
      ("Product", board_Product board);
      ("Serial Number", board_SerialNumber board);
      ("Version", board_Version board);
      ("Model", default (VStr "N/A") (board_Model board))])
    "Failed to get Motherboard info: ").

Definition get_sound_devices : res value :=
  mret (collect_list (wmi_Win32_SoundDevice pf) (fun sound =>
    mret (Some (VDict [
      ("Name", sound_Name sound);
      ("Status", sound_Status sound);
      ("Manufacturer", sound_Manufacturer sound)])))
    "Failed to get Sound Devices info: ").

Definition get_battery_info : res value :=
  mret (collect_dict (
    battery ← psutil_sensors_battery pf;
    match battery with
    | Some b => mret [
        ("Percent", VStr (py_str (bat_percent b) ++ "%"));
        ("Plugged In", bat_power_plugged b);
        ("Secs Left", bat_secsleft b)]
    | None => mret [("Info", VStr "No battery detected")]
    end)
    "Failed to get battery info: ").

Definition get_process_count : res value :=
  mret (collect_dict (
    pids ← psutil_pids pf;
    mret [("Running Processes", VInt (Z.of_nat (length pids)))])
    "Failed to get process count: ").

Definition get_boot_time : res value :=
  mret (collect_dict (
    boot_timestamp ← psutil_boot_time pf;
    boot_time ← datetime_strftime pf boot_timestamp;
    mret [("Boot Time", VStr boot_time)])
    "Failed to get boot time: ").

(** *** Extended hardware info *)

Definition get_usb_devices : res value :=
  mret (collect_list (wmi_Win32_USBControllerDevice pf) (fun usb =>
    match usb_Dependent usb with
    | None => mret None
    | Some dependent =>
        if String.eqb dependent EmptyString then mret None
        else
          part ← list_index (str_split "=" dependent) 1;
          mret (Some (VStr (str_strip_quotes part)))
    end)
    "Failed to get USB devices: ").

Definition get_display_monitors : res value :=
  mret (collect_list (wmi_Win32_DesktopMonitor pf) (fun monitor =>
    mret (Some (VDict [
      ("Name", monitor_Name monitor);
      ("Screen Height", monitor_ScreenHeight monitor);
      ("Screen Width", monitor_ScreenWidth monitor);
      ("Status", monitor_Status monitor)])))
    "Failed to get monitor info: ").

Definition get_printers : res value :=
  mret (collect_list (wmi_Win32_Printer pf) (fun printer =>
    mret (Some (VDict [
      ("Name", printer_Name printer);
      ("Status", printer_Status printer);
      ("Default", printer_Default printer);
      ("Network", printer_Network printer);
      ("Shared", printer_Shared printer)])))
    "Failed to get printers info: ").

Definition get_installed_software : res value :=
  mret (collect_list (wmi_Win32_Product pf) (fun software =>
    mret (Some (VDict [
      ("Name", software_Name software);
      ("Version", software_Version software);
      ("Vendor", software_Vendor software);
      ("Install Date", software_InstallDate software)])))
    "Failed to get software list: ").

Definition get_power_plan : res value :=
  mret (collect_dict (
    output ← subprocess_powercfg pf;
    mret [("Power Plan", VStr (str_strip output))])
    "Failed to get power plan: ").

Definition get_system_locale : res value :=
  mret (collect_dict (
    loc ← locale_getdefaultlocale pf;
    mret [
      ("Locale", VTuple [fst loc; snd loc]);
      ("Timezone", VTuple [VStr (fst (time_tzname pf)); VStr (snd (time_tzname pf))])])
    "Failed to get locale info: ").

(** [get_system_uptime] reads the clock, so it runs in the state monad.
    The divisors 86400, 3600 and 60 are [int] literals, which become the
    floats of the same value. *)
Definition get_system_uptime : M value :=
  try_except
    (now ← time_time;
     boot ← lift (psutil_boot_time pf);
     let uptime_seconds := PrimFloat.sub now boot in
     let f86400 := float_of_scaled 86400 0 in
     let f3600 := float_of_scaled 3600 0 in
     let f60 := float_of_scaled 60 0 in
     days ← lift (int_of_float (float_floordiv uptime_seconds f86400));
     hours ← lift (int_of_float (float_floordiv (float_mod uptime_seconds f86400) f3600));
     minutes ← lift (int_of_float (float_floordiv (float_mod uptime_seconds f3600) f60));
     seconds ← lift (int_of_float (float_mod uptime_seconds f60));
     mret (VDict [("Uptime", VStr (string_of_Z days ++ "d " ++ string_of_Z hours ++ "h " ++
                                    string_of_Z minutes ++ "m " ++ string_of_Z seconds ++ "s"))]))
    (fun e => mret (VDict [("Error", VStr ("Failed to get uptime: " ++ exn_msg e))])).

End Collectors.

(** ** Benchmark functions *)

(** A probe logs when it is entered and when it returns. *)
Definition probe (name : string) (body : M pydict) : M pydict :=
  emit (EvEnter name) ;;
  r ← body;
  emit (EvLeave name) ;;
  mret r.

(** [while time.time() < end: count += 1]: the count when the loop exits.
    Each turn reads the clock once, so [fuel] above the number of scripted
    readings is never used up. *)
Fixpoint busy_loop (fuel : nat) (deadline : float) (count : Z) : M Z :=
  match fuel with
  | O => fun _ => Stalled
  | S fuel' =>
      now ← time_time;
      if PrimFloat.ltb now deadline then busy_loop fuel' deadline (count + 1) else mret count
  end.

Definition busy_until (deadline : float) : M Z :=
  s ← get_state;
  busy_loop (S (length (clock s))) deadline 0.

Definition cpu_benchmark (duration : Z) : M pydict :=
  probe "cpu_benchmark" (
    now ← time_time;
    duration_float ← lift (float_of_int duration);
    count ← busy_until (PrimFloat.add now duration_float);
    mret [("CPU Benchmark (loops in " ++ string_of_Z duration ++ "s)", VInt count)]).

Definition extended_cpu_benchmark (duration : Z) : M pydict :=
  probe "extended_cpu_benchmark" (
    now ← time_time;
    duration_float ← lift (float_of_int duration);
    count ← busy_until (PrimFloat.add now duration_float);
    mret [("Extended CPU Benchmark loops", VInt count)]).

Definition disk_payload : chunk := Fill "x" (10 ^ 7).
Definition extended_disk_payload : chunk := Fill "x" (5 * 10 ^ 7).

Section Benchmarks.

Variable pf : Platform.

Definition memory_benchmark : M pydict :=
  probe "memory_benchmark" (
    lift (bytearray_alloc pf) ;;
    start ← time_time;
    now ← time_time;
    mret [("Memory Benchmark (sum bytes)",
           VStr (format_4f (PrimFloat.sub now start) ++ " seconds"))]).

Definition extended_memory_benchmark : M pydict :=
  probe "extended_memory_benchmark" (
    lift (import_numpy pf) ;;
    try_except
      (lift (numpy_random_rand pf) ;;
       start ← time_time;
       now ← time_time;
       mret [("Extended Memory Benchmark (sum 10M floats)",
              VStr (format_4f (PrimFloat.sub now start) ++ " seconds"))])
      (fun e => mret [("Error", VStr ("Failed extended memory benchmark: " ++ exn_msg e))])).

End Benchmarks.

(** One write and read back of the probe's file. *)
Definition write_read (filename : string) (data : chunk) : M unit :=
  open_write filename ;;
  file_write filename data ;;
  open_read filename ;;
  file_read filename ;;
  mret tt.

Definition disk_benchmark : M pydict :=
  probe "disk_benchmark" (
    try_except
      (filename ← named_temporary_file;
       start ← time_time;
       write_read filename disk_payload ;;
       now ← time_time;
       os_remove filename ;;
       mret [("Disk Benchmark (write/read 10MB)",
              VStr (format_4f (PrimFloat.sub now start) ++ " seconds"))])
      (fun e => mret [("Disk Benchmark Error", VStr (exn_msg e))])).

Definition extended_disk_benchmark : M pydict :=
  probe "extended_disk_benchmark" (
    try_except
      (filename ← tempfile_mktemp;
       start ← time_time;
       write_read filename extended_disk_payload ;;
       write_read filename extended_disk_payload ;;
       write_read filename extended_disk_payload ;;
       now ← time_time;
       os_remove filename ;;
       mret [("Extended Disk Benchmark (3x 50MB write/read)",
              VStr (format_4f (PrimFloat.sub now start) ++ " seconds"))])
      (fun e => mret [("Error", VStr ("Failed extended disk benchmark: " ++ exn_msg e))])).

(** ** Export functions *)

(** The outcome of an export: [True], or the text of the exception. *)
Inductive export_result : Type :=
| ExportTrue
| ExportFailed (message : string).

(** *** [json.dump(data, f, indent=4)] *)

Definition json_escape_char (c : ascii) : string :=
  let n := nat_of_ascii c in
  if Ascii.eqb c "\" then "\\"
  else if Ascii.eqb c dquote then String "\" (String dquote EmptyString)
  else if ((32 <=? n) && (n <=? 126))%nat then String c EmptyString
  else if Ascii.eqb c "008" then "\b"
  else if Ascii.eqb c "012" then "\f"
  else if Ascii.eqb c "010" then "\n"
  else if Ascii.eqb c "013" then "\r"
  else if Ascii.eqb c "009" then "\t"
  else "\u00" ++ hex2 c.

Fixpoint json_escape (s : string) : string :=
  match s with
  | EmptyString => EmptyString
  | String c rest => json_escape_char c ++ json_escape rest
  end.

(** [encode_basestring_ascii]. *)
Definition json_string (s : string) : string :=
  String dquote (json_escape s ++ String dquote EmptyString).

(** [floatstr]. *)
Definition json_float (r : string) : string :=
  if String.eqb r "nan" then "NaN"
  else if String.eqb r "inf" then "Infinity"
  else if String.eqb r "-inf" then "-Infinity"
  else r.

Definition spaces (n : nat) : string := string_of_list_ascii (repeat " "%char n).

(** A line break followed by the indentation of nesting level [level]. *)
Definition newline_indent (level : nat) : string := String "010" (spaces (4 * level)).

(** The items of a non-empty list or dict: [sep] between two items,
    [closing] after the last one. *)
Definition json_items {A} (encode : A -> string) (sep closing : string) : list A -> string :=
  fix go l :=
    match l with
    | [] => closing
    | [x] => encode x ++ closing
    | x :: rest => encode x ++ sep ++ go rest
    end.

Fixpoint json_encode (level : nat) (v : value) : string :=
  let inner := newline_indent (S level) in
  let items {A} (encode : A -> string) (l : list A) :=
    inner ++ json_items encode ("," ++ inner) (newline_indent level) l in
  match v with
  | VNone => "null"
  | VBool true => "true"
  | VBool false => "false"
  | VInt n => string_of_Z n
  | VFloat r => json_float r
  | VStr s => json_string s
  | VList [] | VTuple [] => "[]"
  | VList l | VTuple l => "[" ++ items (json_encode (S level)) l ++ "]"
  | VDict [] => "{}"
  | VDict d =>
      "{" ++ items (fun kv => json_string (fst kv) ++ ": " ++ json_encode (S level) (snd kv)) d
      ++ "}"
  end.

Definition json_dumps (v : value) : string := json_encode 0 v.

(** [for x in l: f x]. *)
Definition for_each {A} (f : A -> M unit) : list A -> M unit :=
  fix go l :=
    match l with
    | [] => mret tt
    | x :: rest => f x ;; go rest
    end.

(** [for i, x in enumerate(l, start): f i x]. *)
Definition for_enumerate {A} (f : Z -> A -> M unit) : Z -> list A -> M unit :=
  fix go i l :=
    match l with
    | [] => mret tt
    | x :: rest => f i x ;; go (i + 1) rest
    end.

(** The [try] block of [export_json]. *)
Definition export_json_try (data : value) (filename : string) : M export_result :=
  open_write filename ;;
  file_write filename (Chars (json_dumps data)) ;;
  mret ExportTrue.

Definition export_json (data : value) (filename : string) : M export_result :=
  try_except (export_json_try data filename) (fun e => mret (ExportFailed (exn_msg e))).

(** *** [csv.writer(f)], with the default dialect *)

(** The text of a cell: [None] is written as the empty text, every other
    object as [str] gives it. *)
Definition csv_text (cell : value) : string :=
  match cell with
  | VNone => EmptyString
  | _ => py_str cell
  end.

Fixpoint csv_double_quotes (s : string) : string :=
  match s with
  | EmptyString => EmptyString
  | String c rest =>
      if Ascii.eqb c dquote then String dquote (String dquote (csv_double_quotes rest))
      else String c (csv_double_quotes rest)
  end.

Definition csv_needs_quotes (s : string) : bool :=
  contains_char "," s || contains_char dquote s || contains_char "013" s || contains_char "010" s.

Definition csv_field (cell : value) : string :=
  let t := csv_text cell in
  if csv_needs_quotes t then String dquote (csv_double_quotes t ++ String dquote EmptyString)
  else t.

Definition crlf : string := String "013" (String "010" EmptyString).

(** The line [writer.writerow(row)] writes.  A row made of one empty cell
    is written as a pair of quotes. *)
Definition csv_line (row : list value) : string :=
  let body := join "," (map csv_field row) in
  match row with
  | [] => crlf
  | _ => (if String.eqb body EmptyString then String dquote (String dquote EmptyString) else body)
         ++ crlf
  end.

Definition writerow (filename : string) (row : list value) : M unit :=
  file_write filename (Chars (csv_line row)).

(** The nested [write_dict(d, prefix)] of [export_csv]. *)
Fixpoint write_dict (filename : string) (d : value) (prefix : string) {struct d} : M unit :=
  match d with
  | VDict fields =>
      for_each (fun kv =>
        let k := fst kv in
        match snd kv with
        | VList items =>
            writerow filename [VStr (prefix ++ k)] ;;
            for_enumerate (fun i item =>
              match item with
              | VDict _ =>
                  writerow filename [VStr ("  Item " ++ string_of_Z i)] ;;
                  write_dict filename item (prefix ++ "    ")
              | _ =>
                  writerow filename [VStr ("  Item " ++ string_of_Z i ++ ": " ++ py_str item)]
              end) 1 items
        | v => writerow filename [VStr (prefix ++ k); v]
        end) fields
  | _ => raise (no_attribute d "items")
  end.

(** The [try] block of [export_csv]. *)
Definition export_csv_try (data : value) (filename : string) : M export_result :=
  open_write filename ;;
  write_dict filename data EmptyString ;;
  mret ExportTrue.

Definition export_csv (data : value) (filename : string) : M export_result :=
  try_except (export_csv_try data filename) (fun e => mret (ExportFailed (exn_msg e))).

(** ** The application classes *)

Definition base_categories : list string := [
  "System Info"; "CPU Info"; "GPU Info"; "RAM Info"; "Disk Info"; "Network Info";
  "BIOS Info"; "Motherboard Info"; "Sound Devices"; "Battery Info"; "Process Count";
  "Boot Time"; "Benchmarks"].

Definition extended_categories : list string := [
  "USB Devices"; "Display Monitors"; "Printers"; "Installed Software"; "Power Plan";
  "Locale & Timezone"; "System Uptime"; "Extended Benchmarks"].

(** [self.category_options] of [ExtendedHardwareHouseApp]. *)
Definition category_options : list string := (base_categories ++ extended_categories)%list.

Definition textbox_insert (text : string) : M unit :=
  modify (fun s => set_textbox (textbox s ++ text) s).
Definition textbox_delete_all : M unit := modify (set_textbox EmptyString).

(** [self.current_info = v]. *)
Definition assign_current_info (v : value) : M unit :=
  modify (set_current_info v) ;; emit (EvSetInfo v).

Definition newline : string := String "010" EmptyString.

(** The nested [recursive_display(data, indent)] of [display_info]. *)
Fixpoint recursive_display (data : value) (indent : nat) {struct data} : M unit :=
  let indent_str := spaces (indent * 4) in
  match data with
  | VDict fields =>
      for_each (fun kv =>
        match snd kv with
        | VDict _ | VList _ =>
            textbox_insert (indent_str ++ fst kv ++ ":" ++ newline) ;;
            recursive_display (snd kv) (indent + 1)
        | v => textbox_insert (indent_str ++ fst kv ++ ": " ++ py_str v ++ newline)
        end) fields
  | VList items =>
      for_enumerate (fun i item =>
        textbox_insert (indent_str ++ "- Item " ++ string_of_Z i ++ ":" ++ newline) ;;
        recursive_display item (indent + 1)) 1 items
  | _ => textbox_insert (indent_str ++ py_str data ++ newline)
  end.

Definition display_info (info : value) : M unit :=
  textbox_delete_all ;; recursive_display info 0.

(** [threading.Thread(target=t).start()]: the worker body runs apart from
    the caller, see [run_task]. *)
Definition start_thread (t : task) : M unit := emit (EvStart t).

Section App.

Variable pf : Platform.

(** The worker of the "Benchmarks" category. *)
Definition run_benchmarks : M unit :=
  let results := [] in
  r ← cpu_benchmark 3;
  let results := dict_update results r in
  r ← memory_benchmark pf;
  let results := dict_update results r in
  r ← disk_benchmark;
  let results := dict_update results r in
  assign_current_info (VDict results) ;;
  emit (EvAfter (VDict results)).

(** The worker of the "Extended Benchmarks" category. *)
Definition run_extended_benchmarks : M unit :=
  let results := [] in
  r ← extended_cpu_benchmark 5;
  let results := dict_update results r in
  r ← extended_memory_benchmark pf;
  let results := dict_update results r in
  r ← extended_disk_benchmark;
  let results := dict_update results r in
  assign_current_info (VDict results) ;;
  emit (EvAfter (VDict results)).

Definition run_task (t : task) : M unit :=
  match t with
  | RunBenchmarks => run_benchmarks
  | RunExtendedBenchmarks => run_extended_benchmarks
  end.

(** The common end of [show_info]:
    [self.current_info = info; self.display_info(info)]. *)
Definition show (info : value) : M unit :=
  assign_current_info info ;; display_info info.

(** [HardwareHouseApp.show_info]. *)
Definition show_info : M unit :=
  s ← get_state;
  let cat := combo s in
  textbox_delete_all ;;
  if String.eqb cat "System Info" then info ← lift (get_system_info pf); show info
  else if String.eqb cat "CPU Info" then info ← lift (get_cpu_info pf); show info
  else if String.eqb cat "GPU Info" then
    gpus ← lift (get_gpu_info pf); show (VDict [("GPUs", gpus)])
  else if String.eqb cat "RAM Info" then info ← lift (get_ram_info pf); show info
  else if String.eqb cat "Disk Info" then
    disks ← lift (get_disk_info pf); show (VDict [("Disks", disks)])
  else if String.eqb cat "Network Info" then
    adapters ← lift (get_network_info pf); show (VDict [("Network Adapters", adapters)])
  else if String.eqb cat "BIOS Info" then info ← lift (get_bios_info pf); show info
  else if String.eqb cat "Motherboard Info" then
    info ← lift (get_motherboard_info pf); show info
  else if String.eqb cat "Sound Devices" then
    devices ← lift (get_sound_devices pf); show (VDict [("Sound Devices", devices)])
  else if String.eqb cat "Battery Info" then info ← lift (get_battery_info pf); show info
  else if String.eqb cat "Process Count" then info ← lift (get_process_count pf); show info
  else if String.eqb cat "Boot Time" then info ← lift (get_boot_time pf); show info
  else if String.eqb cat "Benchmarks" then
    textbox_insert ("Running CPU benchmark..." ++ newline) ;;
    start_thread RunBenchmarks
  else show (VDict [("Error", VStr "Unknown category")]).

(** [ExtendedHardwareHouseApp.show_info]. *)
Definition extended_show_info : M unit :=
  s ← get_state;
  let cat := combo s in
  textbox_delete_all ;;
  if String.eqb cat "USB Devices" then
    devices ← lift (get_usb_devices pf); show (VDict [("USB Devices", devices)])
  else if String.eqb cat "Display Monitors" then
    monitors ← lift (get_display_monitors pf); show (VDict [("Display Monitors", monitors)])
  else if String.eqb cat "Printers" then
    printers ← lift (get_printers pf); show (VDict [("Printers", printers)])
  else if String.eqb cat "Installed Software" then
    software ← lift (get_installed_software pf); show (VDict [("Installed Software", software)])
  else if String.eqb cat "Power Plan" then info ← lift (get_power_plan pf); show info
  else if String.eqb cat "Locale & Timezone" then info ← lift (get_system_locale pf); show info
  else if String.eqb cat "System Uptime" then info ← get_system_uptime pf; show info
  else if String.eqb cat "Extended Benchmarks" then
    textbox_insert ("Running extended benchmarks..." ++ newline) ;;
    start_thread RunExtendedBenchmarks
  else show_info.

(** [fetch(category)] of the specification: the category is selected in the
    option menu, [show_info] runs, and the record is what it left in
    [self.current_info]. *)
Definition fetch (show_info_method : M unit) (category : string) : M value :=
  modify (set_combo category) ;;
  show_info_method ;;
  s ← get_state;
  mret (current_info s).

(** [HardwareHouseApp.export_json] and [export_csv]: the buttons. *)
Definition app_export (export : value -> string -> M export_result) (filename what : string)
  : M unit :=
  s ← get_state;
  if truthy (current_info s) then
    r ← export (current_info s) filename;
    match r with
    | ExportTrue => textbox_insert (newline ++ "Exported data to " ++ filename ++ newline)
    | ExportFailed msg =>
        textbox_insert (newline ++ "Error exporting " ++ what ++ ": " ++ msg ++ newline)
    end
  else textbox_insert (newline ++ "No data to export!" ++ newline).

Definition app_export_json : M unit := app_export export_json "hardware_report.json" "JSON".
Definition app_export_csv : M unit := app_export export_csv "hardware_report.csv" "CSV".

End App.

(** ** A run of the application *)

(** [HardwareHouseApp.__init__], as far as the state goes: the option menu
    shows its first category, the text box is new, and the stored record is
    the empty dict. *)
Definition app_init : M unit :=
  modify (set_combo "System Info") ;;
  modify (set_textbox EmptyString) ;;
  assign_current_info (VDict []).

(** *** The event loop

    What [mainloop] can make of the application built by
    [ExtendedHardwareHouseApp()]: the operator picks a category of the option
    menu or presses one of the three buttons, a worker thread that was
    started runs its body, a callback that was queued with [after] runs.
    The buttons are bound to the methods of the instance, so "Show Info"
    calls [ExtendedHardwareHouseApp.show_info]. *)
Inductive gui_event : Type :=
| Select (category : string)
| PressShow
| PressExportJSON
| PressExportCSV
| WorkerRuns (t : task)
| CallbackRuns (results : value).

Definition enabled (ev : gui_event) (s : State) : Prop :=
  match ev with
  | Select category => In category category_options
  | WorkerRuns t => In (EvStart t) (log s)
  | CallbackRuns results => In (EvAfter results) (log s)
  | PressShow | PressExportJSON | PressExportCSV => True
  end.

Section EventLoop.

Variable pf : Platform.

Definition handle (ev : gui_event) : M unit :=
  match ev with
  | Select category => modify (set_combo category)
  | PressShow => extended_show_info pf
  | PressExportJSON => app_export_json
  | PressExportCSV => app_export_csv
  | WorkerRuns t => run_task pf t
  | CallbackRuns results => display_info results
  end.

(** The states of a run.  An exception that leaves a handler or a worker
    is reported by the toolkit or ends the thread; the application goes on
    from the state the exception left.  A worker runs its body as one
    step: how a worker interleaves with the handlers is not modelled. *)
Inductive reachable : State -> Prop :=
| reach_init s0 s :
    log s0 = [] -> app_init s0 = Ret tt s -> reachable s
| reach_step s ev s' :
    reachable s -> enabled ev s ->
    (handle ev s = Ret tt s' \/ exists e, handle ev s = Raise e s') ->
    reachable s'.

End EventLoop.

(** ** The flat export as the specification words it

    The rows of the flat tabular export, read off the specification: one
    row [(label, value)] for a field that is not a list; for a list-valued
    field a header row with the label alone, then for each element either a
    row ["  Item N"] followed by the element's own fields under a label
    prefix four spaces longer (a dict element), or one row
    ["  Item N: <value>"] (any other element). *)

Definition item_rows (rows_of : string -> value -> list (list value)) (prefix : string)
  : Z -> list value -> list (list value) :=
  fix go i items :=
    match items with
    | [] => []
    | item :: rest =>
        let block :=
          match item with
          | VDict _ =>
              [VStr ("  Item " ++ string_of_Z i)] :: rows_of (prefix ++ "    ") item
          | _ => [[VStr ("  Item " ++ string_of_Z i ++ ": " ++ py_str item)]]
          end in
        app block (go (i + 1) rest)
    end.

Fixpoint flat_rows (prefix : string) (d : value) {struct d} : list (list value) :=
  match d with
  | VDict fields =>
      flat_map (fun kv =>
        match snd kv with
        | VList items => [VStr (prefix ++ fst kv)] :: item_rows flat_rows prefix 1 items
        | v => [[VStr (prefix ++ fst kv); v]]
        end) fields
  | _ => []
  end.

(** The state after [writer.writerow(row)] went through. *)
Definition row_written (filename : string) (s : State) (row : list value) : State :=
  add_event (EvFile "write" filename)
    (set_files (<[filename := (default [] (files s !! filename)
                               ++ [Chars (csv_line row)])%list]> (files s)) s).

Definition rows_written (filename : string) (rows : list (list value)) (s : State) : State :=
  fold_left (row_written filename) rows s.

(** ** [json.load]

    The decoder of the [json] module, on text of code points below 256: an
    escape [\uXXXX] above that range is outside this model and makes the
    decoder fail.  A number with a fraction or an exponent is a float and
    is carried as its text (Python converts it to the nearest float, whose
    [repr] is that text again when the text is the [repr] of a float). *)

Definition is_ws (c : ascii) : bool :=
  Ascii.eqb c " " || Ascii.eqb c "009" || Ascii.eqb c "010" || Ascii.eqb c "013".

Fixpoint skip_ws (s : string) : string :=
  match s with
  | String c rest => if is_ws c then skip_ws rest else s
  | EmptyString => s
  end.

Definition is_digit (c : ascii) : bool :=
  let n := nat_of_ascii c in ((48 <=? n) && (n <=? 57))%nat.

Definition hex_value (c : ascii) : option nat :=
  let n := nat_of_ascii c in
  if ((48 <=? n) && (n <=? 57))%nat then Some (n - 48)%nat
  else if ((97 <=? n) && (n <=? 102))%nat then Some (n - 87)%nat
  else if ((65 <=? n) && (n <=? 70))%nat then Some (n - 55)%nat
  else None.

(** The character a backslash escape other than [\u] stands for. *)
Definition unescape (c : ascii) : option ascii :=
  if Ascii.eqb c dquote then Some dquote
  else if Ascii.eqb c "\" then Some "\"%char
  else if Ascii.eqb c "/" then Some "/"%char
  else if Ascii.eqb c "b" then Some "008"%char
  else if Ascii.eqb c "f" then Some "012"%char
  else if Ascii.eqb c "n" then Some "010"%char
  else if Ascii.eqb c "r" then Some "013"%char
  else if Ascii.eqb c "t" then Some "009"%char
  else None.

(** [scanstring]: the text up to the closing quote, and what follows it. *)
Fixpoint scan_string (s : string) : option (string * string) :=
  match s with
  | EmptyString => None
  | String c rest =>
      if Ascii.eqb c dquote then Some (EmptyString, rest)
      else if Ascii.eqb c "\" then
        match rest with
        | String "u" (String h1 (String h2 (String h3 (String h4 rest')))) =>
            match hex_value h1, hex_value h2, hex_value h3, hex_value h4 with
            | Some 0%nat, Some 0%nat, Some a, Some b =>
                match scan_string rest' with
                | Some (t, after) => Some (String (ascii_of_nat (16 * a + b)) t, after)
                | None => None
                end
            | _, _, _, _ => None
            end
        | String e rest' =>
            match unescape e, scan_string rest' with
            | Some c', Some (t, after) => Some (String c' t, after)
            | _, _ => None
            end
        | EmptyString => None
        end
      else if (nat_of_ascii c <? 32)%nat then None
      else
        match scan_string rest with
        | Some (t, after) => Some (String c t, after)
        | None => None
        end
  end.

(** The longest run of digits at the head of [s], and what follows it. *)
Fixpoint take_digits (s : string) : string * string :=
  match s with
  | String c rest =>
      if is_digit c then let '(ds, after) := take_digits rest in (String c ds, after)
      else (EmptyString, s)
  | EmptyString => (EmptyString, EmptyString)
  end.

(** [int(text)] for the text of a JSON integer. *)
Definition int_of_text (text : string) : option Z :=
  option_map Z.of_int (NilZero.int_of_string text).

(** [NUMBER_RE]: an optional minus sign, an integer part (a single zero,
    or digits that start with a non-zero one), then a fraction (a point and
    digits) and an exponent (e or E, an optional sign, digits), each taken
    only when it has digits.  Every stage returns what it matched and what
    is left. *)
Definition scan_sign (s : string) : string * string :=
  match s with
  | String c rest => if Ascii.eqb c "-" then ("-", rest) else (EmptyString, s)
  | EmptyString => (EmptyString, s)
  end.

Definition scan_int_part (s : string) : option (string * string) :=
  match s with
  | String c rest =>
      if Ascii.eqb c "0" then Some ("0", rest)
      else if is_digit c then
        let '(ds, after) := take_digits rest in Some (String c ds, after)
      else None
  | EmptyString => None
  end.

Definition scan_fraction (s : string) : string * string :=
  match s with
  | String c rest =>
      if Ascii.eqb c "." then
        match take_digits rest with
        | (EmptyString, _) => (EmptyString, s)
        | (ds, after) => (String "." ds, after)
        end
      else (EmptyString, s)
  | EmptyString => (EmptyString, s)
  end.

Definition scan_exponent (s : string) : string * string :=
  match s with
  | String e rest =>
      if Ascii.eqb e "e" || Ascii.eqb e "E" then
        let '(esign, rest') :=
          match rest with
          | String c r =>
              if Ascii.eqb c "-" || Ascii.eqb c "+" then (String c EmptyString, r)
              else (EmptyString, rest)
          | EmptyString => (EmptyString, rest)
          end in
        match take_digits rest' with
        | (EmptyString, _) => (EmptyString, s)
        | (ds, after) => (String e (esign ++ ds), after)
        end
      else (EmptyString, s)
  | EmptyString => (EmptyString, s)
  end.

(** A match without fraction and exponent is an [int], any other a
    [float]. *)
Definition scan_number (s : string) : option (value * string) :=
  let '(sign, s1) := scan_sign s in
  match scan_int_part s1 with
  | Some (int_part, s2) =>
      let '(frac, s3) := scan_fraction s2 in
      let '(exponent, s4) := scan_exponent s3 in
      if String.eqb frac EmptyString && String.eqb exponent EmptyString then
        match int_of_text (sign ++ int_part) with
        | Some n => Some (VInt n, s4)
        | None => None
        end
      else Some (VFloat (sign ++ int_part ++ frac ++ exponent), s4)
  | None => None
  end.

(** [s] without the prefix [p], when it starts with it. *)
Fixpoint strip_prefix (p s : string) : option string :=
  match p, s with
  | EmptyString, _ => Some s
  | String a p', String b s' => if Ascii.eqb a b then strip_prefix p' s' else None
  | String _ _, EmptyString => None
  end.

(** The constants, tried in the order of the scanner. *)
Definition scan_constant (s : string) : option (value * string) :=
  match strip_prefix "null" s with
  | Some rest => Some (VNone, rest)
  | None =>
  match strip_prefix "true" s with
  | Some rest => Some (VBool true, rest)
  | None =>
  match strip_prefix "false" s with
  | Some rest => Some (VBool false, rest)
  | None =>
  match scan_number s with
  | Some r => Some r
  | None =>
  match strip_prefix "NaN" s with
  | Some rest => Some (VFloat "nan", rest)
  | None =>
  match strip_prefix "Infinity" s with
  | Some rest => Some (VFloat "inf", rest)
  | None =>
  match strip_prefix "-Infinity" s with
  | Some rest => Some (VFloat "-inf", rest)
  | None => None
  end end end end end end end.

(** [scan_once], [JSONObject] and [JSONArray].  [fuel] bounds the nesting
    and the number of items; the length of the text is always enough. *)
Fixpoint scan_once (fuel : nat) (s : string) {struct fuel} : option (value * string) :=
  match fuel with
  | O => None
  | S fuel' =>
      match s with
      | String c rest =>
          if Ascii.eqb c dquote then
            match scan_string rest with
            | Some (t, after) => Some (VStr t, after)
            | None => None
            end
          else if Ascii.eqb c "{" then
            match skip_ws rest with
            | String c' rest' =>
                if Ascii.eqb c' "}" then Some (VDict [], rest')
                else if Ascii.eqb c' dquote then scan_members fuel' rest' []
                else None
            | EmptyString => None
            end
          else if Ascii.eqb c "[" then
            match skip_ws rest with
            | String c' rest' =>
                if Ascii.eqb c' "]" then Some (VList [], rest')
                else scan_elements fuel' (String c' rest') []
            | EmptyString => None
            end
          else scan_constant s
      | EmptyString => None
      end
  end

(** The members of an object, from just after the opening quote of a key. *)
with scan_members (fuel : nat) (s : string) (pairs : pydict) {struct fuel}
  : option (value * string) :=
  match fuel with
  | O => None
  | S fuel' =>
      match scan_string s with
      | Some (key, after_key) =>
          match skip_ws after_key with
          | String ":" after_colon =>
              match scan_once fuel' (skip_ws after_colon) with
              | Some (v, after_value) =>
                  let pairs := dict_set pairs key v in
                  match skip_ws after_value with
                  | String c rest =>
                      if Ascii.eqb c "}" then Some (VDict pairs, rest)
                      else if Ascii.eqb c "," then
                        match skip_ws rest with
                        | String c' rest' =>
                            if Ascii.eqb c' dquote then scan_members fuel' rest' pairs else None
                        | EmptyString => None
                        end
                      else None
                  | EmptyString => None
                  end
              | None => None
              end
          | _ => None
          end
      | None => None
      end
  end

(** The elements of an array, from the first character of an element. *)
with scan_elements (fuel : nat) (s : string) (acc : list value) {struct fuel}
  : option (value * string) :=
  match fuel with
  | O => None
  | S fuel' =>
      match scan_once fuel' s with
      | Some (v, after_value) =>
          let acc := (acc ++ [v])%list in
          match skip_ws after_value with
          | String c rest =>
              if Ascii.eqb c "]" then Some (VList acc, rest)
              else if Ascii.eqb c "," then scan_elements fuel' (skip_ws rest) acc
              else None
          | EmptyString => None
          end
      | None => None
      end
  end.

(** [json.loads(text)]: one value, with nothing but white space around it. *)
Definition json_loads (text : string) : option value :=
  match scan_once (S (String.length text)) (skip_ws text) with
  | Some (v, rest) =>
      match skip_ws rest with
      | EmptyString => Some v
      | String _ _ => None
      end
  | None => None
  end.

(** *** Fact Records *)

(** The text [repr] gives for a float that JSON can carry as a number: a
    number with a fraction or an exponent, or one of the two infinities.
    (A NaN is left out: it is not equal to itself.) *)
Definition float_repr (r : string) : bool :=
  match scan_number r with
  | Some (VFloat r', EmptyString) => String.eqb r' r
  | _ => String.eqb r "inf" || String.eqb r "-inf"
  end.

Fixpoint distinct (keys : list string) : bool :=
  match keys with
  | [] => true
  | k :: rest => negb (existsb (String.eqb k) rest) && distinct rest
  end.

(** A Fact Record: nested Objects, Lists and scalars, the field names of an
    Object unique within it. *)
Fixpoint fact_record (v : value) : bool :=
  match v with
  | VNone | VBool _ | VInt _ | VStr _ => true
  | VFloat r => float_repr r
  | VList items => forallb fact_record items
  | VTuple _ => false
  | VDict fields =>
      distinct (map fst fields) && forallb (fun kv => fact_record (snd kv)) fields
  end.

(** ** Vocabulary of the statements *)

(** [m] returns, and changes nothing but the text box. *)
Definition only_textbox (m : M unit) : Prop :=
  forall s, exists t, m s = Ret tt (set_textbox t s).

(** The events of the clock and of the files. *)
Definition io_event (e : event) : Prop :=
  match e with
  | EvClock _ | EvFile _ _ => True
  | _ => False
  end.

(** From [s] to [s'] only the clock and the files were used: the log grew
    by clock and file events, and the application state is the same. *)
Definition io_step (s s' : State) : Prop :=
  exists evs, log s' = (log s ++ evs)%list /\ Forall io_event evs /\
              current_info s' = current_info s /\ combo s' = combo s /\
              textbox s' = textbox s.

(** [m] only makes such steps, whether it returns or raises. *)
Definition io_only {A} (m : M A) : Prop :=
  forall s, match m s with
            | Ret _ s' | Raise _ s' => io_step s s'
            | Stalled => True
            end.

(** The assignments to [self.current_info] among the events. *)
Definition is_set_info (e : event) : bool :=
  match e with
  | EvSetInfo _ => true
  | _ => false
  end.

(** The application state is the same in [s] and [s']. *)
Definition gui_same (s s' : State) : Prop :=
  current_info s' = current_info s /\ combo s' = combo s /\ textbox s' = textbox s.

(** Events of a probe that returned, and of a probe left by an exception. *)
Definition probe_returned (name : string) (s s' : State) : Prop :=
  exists evs, log s' = (log s ++ EvEnter name :: evs ++ [EvLeave name])%list /\
              Forall io_event evs /\ gui_same s s'.

Definition probe_raised (name : string) (s s' : State) : Prop :=
  exists evs, log s' = (log s ++ EvEnter name :: evs)%list /\
              Forall io_event evs /\ gui_same s s'.

(** The events of one tier that ran to its end: the three probes one after
    the other, then the one assignment and the one queued display. *)
Definition tier_trace (cpu mem disk : string) (merged : value) (evs : list event) : Prop :=
  exists e1 e2 e3,
    evs = (EvEnter cpu :: e1 ++ EvLeave cpu :: EvEnter mem :: e2 ++ EvLeave mem ::
           EvEnter disk :: e3 ++ [EvLeave disk; EvSetInfo merged; EvAfter merged])%list /\
    Forall io_event e1 /\ Forall io_event e2 /\ Forall io_event e3.

(** The shape shared by [run_benchmarks] and [run_extended_benchmarks]. *)
Definition tier (cpu mem disk : M pydict) : M unit :=
  r1 ← cpu; r2 ← mem; r3 ← disk;
  let merged := VDict (dict_update (dict_update (dict_update [] r1) r2) r3) in
  assign_current_info merged ;; emit (EvAfter merged).

(** [m] behaves as a probe called [name]. *)
Definition traced (name : string) (m : M pydict) : Prop :=
  forall s, match m s with
            | Ret _ s' => probe_returned name s s'
            | Raise _ s' => probe_raised name s s'
            | Stalled => True
            end.

(** [m] leaves every file other than [n] as it was. *)
Definition keeps_other_files {A} (n : string) (m : M A) : Prop :=
  forall s, match m s with
            | Ret _ s' | Raise _ s' => forall k, k <> n -> files s' !! k = files s !! k
            | Stalled => True
            end.

(** [m] does not take the file [n] away: if it exists before, it exists
    after, whether [m] returns or raises. *)
Definition keeps_file {A} (n : string) (m : M A) : Prop :=
  forall s, is_Some (files s !! n) ->
            match m s with
            | Ret _ s' | Raise _ s' => is_Some (files s' !! n)
            | Stalled => True
            end.

(** When [m] raises, the file [n] is still there if it was. *)
Definition leaves_file_when_raising {A} (n : string) (m : M A) : Prop :=
  forall s e s', is_Some (files s !! n) -> m s = Raise e s' -> is_Some (files s' !! n).

(** [m] always comes back: it never waits for the clock. *)
Definition no_stall {A} (m : M A) : Prop := forall s, m s <> Stalled.

(** The two loop bodies of [write_dict], by name. *)
Definition write_item (filename prefix : string) (i : Z) (item : value) : M unit :=
  match item with
  | VDict _ =>
      writerow filename [VStr ("  Item " ++ string_of_Z i)] ;;
      write_dict filename item (prefix ++ "    ")
  | _ => writerow filename [VStr ("  Item " ++ string_of_Z i ++ ": " ++ py_str item)]
  end.

Definition write_field (filename prefix : string) (kv : string * value) : M unit :=
  match snd kv with
  | VList items =>
      writerow filename [VStr (prefix ++ fst kv)] ;;
      for_enumerate (write_item filename prefix) 1 items
  | v => writerow filename [VStr (prefix ++ fst kv); v]
  end.

(** How an export ends, given how its [try] block ends. *)
Definition reported (r : export_result) (s' : State) (tried : outcome export_result) : Prop :=
  match r with
  | ExportTrue => tried = Ret ExportTrue s'
  | ExportFailed message => exists e, tried = Raise e s' /\ message = exn_msg e
  end.

(** The rows of one field, as [flat_rows] has them. *)
Definition field_rows (prefix : string) (kv : string * value) : list (list value) :=
  match snd kv with
  | VList items => [VStr (prefix ++ fst kv)] :: item_rows flat_rows prefix 1 items
  | v => [[VStr (prefix ++ fst kv); v]]
  end.

(** The record of the specification's example:
    [{"A": 1, "B": [{"C": 2}, {"C": 3}]}]. *)
Definition flat_example : value :=
  VDict [("A", VInt 1); ("B", VList [VDict [("C", VInt 2)]; VDict [("C", VInt 3)]])].

(** What follows a value in the text [json.dump] writes: the end, a comma,
    or a line break. *)
Definition delimiter_next (rest : string) : bool :=
  match rest with
  | EmptyString => true
  | String c _ => Ascii.eqb c "," || Ascii.eqb c "010"
  end.

(** Fuel that [scan_once] needs for the text of a value. *)
Fixpoint weight (v : value) : nat :=
  match v with
  | VList l | VTuple l => S (fold_right (fun x n => S (weight x + n)) O l)
  | VDict d => S (fold_right (fun kv n => S (weight (snd kv) + n)) O d)
  | _ => 1
  end.

(** The separator between two items of a list or dict nested at [level],
    and the text of one member of a dict. *)
Definition list_sep (level : nat) : string := "," ++ newline_indent (S level).

Definition member_text (level : nat) (kv : string * value) : string :=
  json_string (fst kv) ++ ": " ++ json_encode (S level) (snd kv).

(** What follows the first item in the text of the items [x :: l]. *)
Definition items_tail {A} (encode : A -> string) (sep closing : string) (l : list A) : string :=
  match l with
  | [] => closing
  | _ => sep ++ json_items encode sep closing l
  end.

(** The text of a value is read back as the value. *)
Definition round_trips (v : value) : Prop :=
  forall level fuel rest,
    fact_record v = true -> (weight v <= fuel)%nat -> delimiter_next rest = true ->
    scan_once fuel (json_encode level v ++ rest) = Some (v, rest).

(** Fuel for the elements of a list and for the members of a dict. *)
Definition elements_weight (l : list value) : nat :=
  fold_right (fun x n => S (weight x + n)) O l.

Definition members_weight (d : pydict) : nat :=
  fold_right (fun kv n => S (weight (snd kv) + n)) O d.

(** *** Vocabulary of the properties beyond the specification *)

(** [isinstance(v, dict)]. *)
Definition is_dict (v : value) : bool :=
  match v with
  | VDict _ => true
  | _ => false
  end.

(** [isinstance(v, list)]. *)
Definition is_list (v : value) : bool :=
  match v with
  | VList _ => true
  | _ => false
  end.

(** [m] returns, and appends a text of its own to the text box. *)
Definition appends (m : M unit) : Prop :=
  exists text, forall s, m s = Ret tt (set_textbox (textbox s ++ text) s).

(** What an export button may append to the text box. *)
Definition export_messages (filename what : string) (s : State) (text : string) : Prop :=
  (truthy (current_info s) = false /\ text = "No data to export!") \/
  (truthy (current_info s) = true /\ text = "Exported data to " ++ filename) \/
  (truthy (current_info s) = true /\
   exists msg, text = "Error exporting " ++ what ++ ": " ++ msg).

(** The state in which a benchmark category leaves the caller: the text box
    announces the run and one worker was started. *)
Definition worker_started (t : task) (announce : string) (s : State) : State :=
  add_event (EvStart t) (set_textbox (announce ++ newline) s).

(** The text that announces a tier. *)
Definition announcement (t : task) : string :=
  match t with
  | RunBenchmarks => "Running CPU benchmark..."
  | RunExtendedBenchmarks => "Running extended benchmarks..."
  end.

(** The category that starts a tier. *)
Definition category_of (t : task) : string :=
  match t with
  | RunBenchmarks => "Benchmarks"
  | RunExtendedBenchmarks => "Extended Benchmarks"
  end.

(** The three probes of a tier. *)
Definition cpu_probe_of (t : task) : M pydict :=
  match t with
  | RunBenchmarks => cpu_benchmark 3
  | RunExtendedBenchmarks => extended_cpu_benchmark 5
  end.

Definition memory_probe_of (pf : Platform) (t : task) : M pydict :=
  match t with
  | RunBenchmarks => memory_benchmark pf
  | RunExtendedBenchmarks => extended_memory_benchmark pf
  end.

Definition disk_probe_of (t : task) : M pydict :=
  match t with
  | RunBenchmarks => disk_benchmark
  | RunExtendedBenchmarks => extended_disk_benchmark
  end.

(** [results = {}] updated with three results in turn. *)
Definition merge_results (r1 r2 r3 : pydict) : value :=
  VDict (dict_update (dict_update (dict_update [] r1) r2) r3).

(** The entry of one partition in the record of [get_disk_info]. *)
Definition disk_entry (p : sdiskpart) (usage : sdiskusage) : value :=
  VDict [
    ("Device", VStr (p_device p));
    ("Mountpoint", VStr (p_mountpoint p));
    ("File System", VStr (p_fstype p));
    ("Total Size (GB)", round_gib (usage_total usage));
    ("Used (GB)", round_gib (usage_used usage));
    ("Free (GB)", round_gib (usage_free usage));
    ("Usage (%)", usage_percent usage)].

(** The text of [usb.Dependent] for a device: a WMI path that ends in the
    quoted device identifier. *)
Definition usb_dependent (path device_id : string) : Win32_USBControllerDevice :=
  {| usb_Dependent :=
       Some (path ++ "=" ++ String dquote (device_id ++ String dquote EmptyString)) |}.

(** A device whose path and identifier have no equals sign and whose
    identifier has no double quote. *)
Definition plain_device (d : string * string) : Prop :=
  contains_char "=" (fst d) = false /\ contains_char "=" (snd d) = false /\
  contains_char dquote (snd d) = false.

(** What [get_network_info] appends for an interface, once the addresses
    to show are known. *)
Definition adapter_entry (stats : gmap string bool) (iface_name : string) (ips macs : value)
  : value :=
  VDict [("Interface", VStr iface_name);
         ("Status", VStr (if default false (stats !! iface_name) then "Up" else "Down"));
         ("IPv4 Addresses", ips);
         ("MAC Addresses", macs)].

(** The addresses of one family in a list, or the text ["None"]. *)
Definition addresses_of (family : address_family) (addrs : list snicaddr) : value :=
  or_none (map (fun a => VStr (addr_address a))
               (List.filter (fun a => same_family (addr_family a) family) addrs)).

(** What [json.load] makes of a record written by [json.dump]: a tuple is
    written as an array, and an array is read as a list. *)
Fixpoint tuples_as_lists (v : value) : value :=
  match v with
  | VList l | VTuple l => VList (map tuples_as_lists l)
  | VDict d => VDict (map (fun kv => (fst kv, tuples_as_lists (snd kv))) d)
  | _ => v
  end.

(** Text of code points below 128. *)
Definition is_ascii (c : ascii) : bool := (nat_of_ascii c <? 128)%nat.

Fixpoint ascii_text (s : string) : bool :=
  match s with
  | EmptyString => true
  | String c rest => is_ascii c && ascii_text rest
  end.

(** The floats of a record are carried as ASCII text, as [repr] gives it. *)
Fixpoint ascii_floats (v : value) : bool :=
  match v with
  | VFloat r => ascii_text r
  | VList l | VTuple l => forallb ascii_floats l
  | VDict d => forallb (fun kv => ascii_floats (snd kv)) d
  | _ => true
  end.

(** [m] uses nothing but the clock: when it returns, the faults to come,
    the temporary names and the files are as before. *)
Definition clock_only {A} (m : M A) : Prop :=
  forall s a s', m s = Ret a s' ->
    faults s' = faults s /\ tmp_names s' = tmp_names s /\ files s' = files s.

(** [m] leaves every file that exists as it is, whether it returns or
    raises. *)
Definition keeps_existing_files {A} (m : M A) : Prop :=
  forall s, match m s with
            | Ret _ s' | Raise _ s' =>
                forall k content, files s !! k = Some content -> files s' !! k = Some content
            | Stalled => True
            end.

(** ** Sample runs *)

(** A platform on which every query answers, with little hardware. *)
Definition healthy_platform : Platform := {|
  platform_uname := Ok {| u_system := "Windows"; u_node := "DESKTOP-7"; u_release := "10";
                          u_version := "10.0.19045"; u_machine := "AMD64";
                          u_processor := "Intel64 Family 6" |};
  platform_python_version := Ok "3.11.4";
  wmi_Win32_Processor := Ok [];
  wmi_Win32_VideoController := Ok [];
  wmi_Win32_BIOS := Ok [];
  wmi_Win32_BaseBoard := Ok [];
  wmi_Win32_SoundDevice := Ok [];
  wmi_Win32_USBControllerDevice := Ok [];
  wmi_Win32_DesktopMonitor := Ok [];
  wmi_Win32_Printer := Ok [];
  wmi_Win32_Product := Ok [];
  psutil_virtual_memory := Ok {| vm_total := 17179869184; vm_available := 8589934592;
                                 vm_used := 8589934592; vm_percent := VFloat "50.0" |};
  psutil_swap_memory := Ok {| swap_total := 0; swap_used := 0; swap_percent := VFloat "0.0" |};
  psutil_disk_partitions := Ok [];
  psutil_disk_usage := fun _ => Err (Exn "PermissionError" "[WinError 21] The device is not ready");
  psutil_net_if_addrs := Ok [];
  psutil_net_if_stats := Ok ∅;
  psutil_AF_INET := Err (Exn "AttributeError" "module 'psutil' has no attribute 'AF_INET'");
  psutil_sensors_battery := Ok None;
  psutil_pids := Ok [0; 4; 128];
  psutil_boot_time := Ok (decimal 0 1700000000);
  datetime_strftime := fun _ => Ok "2023-11-14 22:13:20";
  subprocess_powercfg := Ok "Power Scheme GUID: 381b4222-f694-41f0-9685-ff5bb260df2e  (Balanced)";
  locale_getdefaultlocale := Ok (VStr "en_US", VStr "cp1252");
  time_tzname := ("GMT Standard Time", "GMT Daylight Time");
  bytearray_alloc := Ok tt;
  import_numpy := Ok tt;
  numpy_random_rand := Ok tt;
|}.

(** The same platform, where [platform.python_version()] cannot parse
    [sys.version] and the two memory probes cannot allocate their buffers. *)
Definition failing_platform : Platform := {|
  platform_uname := platform_uname healthy_platform;
  platform_python_version :=
    Err (Exn "ValueError" "failed to parse CPython sys.version: '3.11.4 (custom)'");
  wmi_Win32_Processor := wmi_Win32_Processor healthy_platform;
  wmi_Win32_VideoController := wmi_Win32_VideoController healthy_platform;
  wmi_Win32_BIOS := wmi_Win32_BIOS healthy_platform;
  wmi_Win32_BaseBoard := wmi_Win32_BaseBoard healthy_platform;
  wmi_Win32_SoundDevice := wmi_Win32_SoundDevice healthy_platform;
  wmi_Win32_USBControllerDevice := wmi_Win32_USBControllerDevice healthy_platform;
  wmi_Win32_DesktopMonitor := wmi_Win32_DesktopMonitor healthy_platform;
  wmi_Win32_Printer := wmi_Win32_Printer healthy_platform;
  wmi_Win32_Product := wmi_Win32_Product healthy_platform;
  psutil_virtual_memory := psutil_virtual_memory healthy_platform;
  psutil_swap_memory := psutil_swap_memory healthy_platform;
  psutil_disk_partitions := psutil_disk_partitions healthy_platform;
  psutil_disk_usage := psutil_disk_usage healthy_platform;
  psutil_net_if_addrs := psutil_net_if_addrs healthy_platform;
  psutil_net_if_stats := psutil_net_if_stats healthy_platform;
  psutil_AF_INET := psutil_AF_INET healthy_platform;
  psutil_sensors_battery := psutil_sensors_battery healthy_platform;
  psutil_pids := psutil_pids healthy_platform;
  psutil_boot_time := psutil_boot_time healthy_platform;
  datetime_strftime := datetime_strftime healthy_platform;
  subprocess_powercfg := subprocess_powercfg healthy_platform;
  locale_getdefaultlocale := locale_getdefaultlocale healthy_platform;
  time_tzname := time_tzname healthy_platform;
  bytearray_alloc := Err (Exn "MemoryError" EmptyString);
  import_numpy := Ok tt;
  numpy_random_rand :=
    Err (Exn "MemoryError" "Unable to allocate 76.3 MiB for an array with shape (10000000,)");
|}.

(** Clock readings, written in microseconds: each is the float of that
    many millionths of a second. *)
Definition microseconds (readings : list Z) : list float := map (decimal 6) readings.

(** A fresh application, with a clock script, in microseconds, and file
    faults to come. *)
Definition start_state (readings : list Z) (io : list (option string)) : State :=
  mkState (microseconds readings) io ["tmpk3v9x"; "tmp1a2b3c"] ∅ (VDict []) "System Info"
          EmptyString [].

(** Readings for one baseline tier: the CPU loop sees 1 s and 2 s before
    the 3 s deadline. *)
Definition baseline_clock : list Z :=
  [0; 1000000; 2000000; 3000000; 3000100; 3031350; 3031400; 3045400].

(** Readings for one extended tier: the CPU loop sees 2 s and 4 s before
    the 5 s deadline. *)
Definition extended_clock : list Z :=
  [0; 2000000; 4000000; 5000000; 5000100; 5020100; 5020200; 5920200].

Definition disk_full : option string := Some "[Errno 28] No space left on device".

(** The state a run ends in, or [s] when it does not return. *)
Definition final_state {A} (o : outcome A) (s : State) : State :=
  match o with
  | Ret _ s' | Raise _ s' => s'
  | Stalled => s
  end.

(** A record with every kind of value a Fact Record can hold. *)
Definition sample_record : value :=
  VDict [("Path", VStr "C:\Users\Public");
         ("Empty Object", VDict []);
         ("Empty List", VList []);
         ("Disks", VList [VDict [("Total Size (GB)", VFloat "465.76"); ("Usage (%)", VInt 71)];
                          VDict [("Removable", VBool true); ("Label", VNone)]]);
         ("Addresses", VList [VStr "192.168.1.20"; VInt (-1); VFloat "1e+16"])].

(** The baseline tier after its CPU probe, on [baseline_clock]. *)
Definition baseline_after_cpu : State :=
  Eval vm_compute in
    final_state (cpu_benchmark 3 (start_state baseline_clock [])) (start_state baseline_clock []).

(** An extended tier whose disk is full: after the CPU probe, and after the
    disk probe that follows the failed memory probe. *)
Definition extended_after_cpu : State :=
  Eval vm_compute in
    final_state (extended_cpu_benchmark 5 (start_state [0; 5000000; 5000100] [disk_full]))
      (start_state [0; 5000000; 5000100] [disk_full]).

Definition extended_after_disk : State :=
  Eval vm_compute in
    final_state
      (extended_disk_benchmark
         (add_event (EvLeave "extended_memory_benchmark")
            (add_event (EvEnter "extended_memory_benchmark") extended_after_cpu)))
      extended_after_cpu.

(** Where the sample runs of the disk probes and of the tiers end. *)
Definition leak_final : State :=
  Eval vm_compute in
    final_state (disk_benchmark (start_state [10] [None; None; disk_full]))
      (start_state [10] [None; None; disk_full]).

(** The same run once [NamedTemporaryFile] has returned. *)
Definition leak_created : State :=
  Eval vm_compute in
    final_state
      (named_temporary_file
         (add_event (EvEnter "disk_benchmark") (start_state [10] [None; None; disk_full])))
      (start_state [10] [None; None; disk_full]).

(** The extended disk probe on a full disk: the name is picked, the clock
    read, the file opened, and the first write fails. *)
Definition extended_leak_named : State :=
  Eval vm_compute in
    final_state
      (tempfile_mktemp
         (add_event (EvEnter "extended_disk_benchmark") (start_state [10] [None; disk_full])))
      (start_state [10] [None; disk_full]).

Definition extended_leak_timed : State :=
  Eval vm_compute in final_state (time_time extended_leak_named) extended_leak_named.

Definition extended_leak_opened : State :=
  Eval vm_compute in
    final_state (open_write "tmpk3v9x" extended_leak_timed) extended_leak_timed.

Definition extended_leak_final : State :=
  Eval vm_compute in
    final_state (extended_disk_benchmark (start_state [10] [None; disk_full]))
      (start_state [10] [None; disk_full]).

Definition disk_final : State :=
  Eval vm_compute in
    final_state (disk_benchmark (start_state [10; 31260] [])) (start_state [10; 31260] []).

Definition extended_disk_final : State :=
  Eval vm_compute in
    final_state (extended_disk_benchmark (start_state [10; 900010] []))
      (start_state [10; 900010] []).

Definition baseline_final : State :=
  Eval vm_compute in
    final_state (run_benchmarks healthy_platform (start_state baseline_clock []))
      (start_state baseline_clock []).

Definition extended_final : State :=
  Eval vm_compute in
    final_state (run_extended_benchmarks healthy_platform (start_state extended_clock []))
      (start_state extended_clock []).

Definition export_final : State :=
  Eval vm_compute in
    final_state (export_json sample_record "hardware_report.json" (start_state [] []))
      (start_state [] []).

(** *** More sample runs *)

(** A workstation with two processors, a drive without a medium between
    two disks, one network card beside the loopback interface, two USB
    devices, and no [numpy]. *)
Definition xeon (socket : string) : Win32_Processor := {|
  cpu_Name := Some ("Intel(R) Xeon(R) Gold 6226R CPU @ 2.90GHz  ");
  cpu_Manufacturer := VStr "GenuineIntel"; cpu_NumberOfCores := VInt 16;
  cpu_NumberOfLogicalProcessors := VInt 32; cpu_MaxClockSpeed := VInt 2893;
  cpu_CurrentClockSpeed := VInt 2893; cpu_Architecture := VInt 9;
  cpu_ProcessorId := VStr socket; cpu_L2CacheSize := VInt 16384;
  cpu_L3CacheSize := VInt 22528 |}.

Definition workstation_partitions : list sdiskpart := [
  {| p_device := "C:\"; p_mountpoint := "C:\"; p_fstype := "NTFS" |};
  {| p_device := "D:\"; p_mountpoint := "D:\"; p_fstype := EmptyString |};
  {| p_device := "E:\"; p_mountpoint := "E:\"; p_fstype := "NTFS" |}].

Definition workstation_usage (p : sdiskpart) : sdiskusage :=
  {| usage_total := 512105377792; usage_used := 256052688896;
     usage_free := 256052688896; usage_percent := VFloat "50.0" |}.

Definition no_medium : exn :=
  Exn "PermissionError" "[WinError 21] The device is not ready: 'D:\\'".

Definition workstation_usb : list (string * string) := [
  ("\\WS01\root\cimv2:Win32_PnPEntity.DeviceID", "USB\\ROOT_HUB30\\4&2C8A1F5&0&0");
  ("\\WS01\root\cimv2:Win32_PnPEntity.DeviceID", "USB\\VID_046D&PID_C52B\\5&1A2B3C4D&0&2")].

Definition workstation_interfaces : list (string * list snicaddr) := [
  ("Ethernet", [{| addr_family := AF_LINK; addr_address := "00-1B-21-3A-4F-5C" |};
                {| addr_family := AF_INET; addr_address := "192.168.1.20" |}]);
  ("Loopback Pseudo-Interface 1",
   [{| addr_family := AF_INET; addr_address := "127.0.0.1" |};
    {| addr_family := AF_INET6; addr_address := "::1" |}])].

Definition workstation : Platform := {|
  platform_uname := platform_uname healthy_platform;
  platform_python_version := platform_python_version healthy_platform;
  wmi_Win32_Processor := Ok [xeon "BFEBFBFF00050657"; xeon "BFEBFBFF00050657"];
  wmi_Win32_VideoController := wmi_Win32_VideoController healthy_platform;
  wmi_Win32_BIOS := wmi_Win32_BIOS healthy_platform;
  wmi_Win32_BaseBoard := wmi_Win32_BaseBoard healthy_platform;
  wmi_Win32_SoundDevice := wmi_Win32_SoundDevice healthy_platform;
  wmi_Win32_USBControllerDevice :=
    Ok (map (fun d => usb_dependent (fst d) (snd d)) workstation_usb);
  wmi_Win32_DesktopMonitor := wmi_Win32_DesktopMonitor healthy_platform;
  wmi_Win32_Printer := wmi_Win32_Printer healthy_platform;
  wmi_Win32_Product := wmi_Win32_Product healthy_platform;
  psutil_virtual_memory := psutil_virtual_memory healthy_platform;
  psutil_swap_memory := psutil_swap_memory healthy_platform;
  psutil_disk_partitions := Ok workstation_partitions;
  psutil_disk_usage := fun mountpoint =>
    if String.eqb mountpoint "D:\" then Err no_medium
    else Ok (workstation_usage {| p_device := mountpoint; p_mountpoint := mountpoint;
                                  p_fstype := "NTFS" |});
  psutil_net_if_addrs := Ok workstation_interfaces;
  psutil_net_if_stats := Ok {["Ethernet" := true]};
  psutil_AF_INET := psutil_AF_INET healthy_platform;
  psutil_sensors_battery := psutil_sensors_battery healthy_platform;
  psutil_pids := psutil_pids healthy_platform;
  psutil_boot_time := psutil_boot_time healthy_platform;
  datetime_strftime := datetime_strftime healthy_platform;
  subprocess_powercfg := subprocess_powercfg healthy_platform;
  locale_getdefaultlocale := locale_getdefaultlocale healthy_platform;
  time_tzname := time_tzname healthy_platform;
  bytearray_alloc := Ok tt;
  import_numpy := Err (Exn "ModuleNotFoundError" "No module named 'numpy'");
  numpy_random_rand := Ok tt;
|}.

(** A new application, once [__init__] has run. *)
Definition new_app : State :=
  Eval vm_compute in final_state (app_init (start_state [] [])) (start_state [] []).

(** The new application after "Show Info" on its first category. *)
Definition system_info_shown : State :=
  Eval vm_compute in final_state (show_info healthy_platform new_app) new_app.

(** A run of the baseline tier from the menu: the category is picked,
    "Show Info" starts the worker, the worker runs to its end. *)
Definition benchmarks_picked : State :=
  Eval vm_compute in set_combo "Benchmarks" (start_state baseline_clock []).

Definition benchmarks_started : State :=
  Eval vm_compute in
    final_state (handle healthy_platform PressShow benchmarks_picked) benchmarks_picked.

Definition benchmarks_done : State :=
  Eval vm_compute in
    final_state (handle healthy_platform (WorkerRuns RunBenchmarks) benchmarks_started)
      benchmarks_started.

(** A record with a name outside ASCII, and the state after its export. *)
Definition accented_record : value :=
  VDict [("Name", VStr ("Imprimante de l'" ++ String "233" "tage"));
         ("Usage (%)", VFloat "12.5")].

Definition accented_final : State :=
  Eval vm_compute in
    final_state (export_json accented_record "hardware_report.json" (start_state [] []))
      (start_state [] []).

Definition permission_denied : string :=
  "[Errno 13] Permission denied: 'hardware_report.json'".

(** The state after [open] went through, with the disk full. *)
Definition opened_for_list : State :=
  Eval vm_compute in
    final_state (open_write "hardware_report.csv" (start_state [] []))
      (start_state [] []).

(** The record of "Locale & Timezone" on the sample platform. *)
Definition locale_record : value :=
  VDict [("Locale", VTuple [VStr "en_US"; VStr "cp1252"]);
         ("Timezone", VTuple [VStr "GMT Standard Time"; VStr "GMT Daylight Time"])].

(** The extended tier without [numpy]: after the CPU probe. *)
Definition no_numpy_after_cpu : State :=
  Eval vm_compute in
    final_state (extended_cpu_benchmark 5 (start_state extended_clock []))
      (start_state extended_clock []).

(** The fields of the record of "System Info" on the sample platform. *)
Definition system_info_fields : pydict :=
  Eval vm_compute in
    match current_info system_info_shown with
    | VDict fields => fields
    | _ => []
    end.

(** * Statements *)

(** ** The runtime on small inputs *)

Example py_repr_dict :
  py_repr (VDict [("C", VInt 2); ("k", VList [VStr "a\b"; VNone; VTuple [VBool true]])])
  = "{'C': 2, 'k': ['a\\b', None, (True,)]}".
Proof. reflexivity. Qed.

Example round_gib_16 : round_gib 17179869184 = VFloat "16.0".
Proof. reflexivity. Qed.

Example round_gib_15_87 : round_gib 17040000000 = VFloat "15.87".
Proof. reflexivity. Qed.

Example format_4f_ex : format_4f (decimal 6 31250) = "0.0312".
Proof. reflexivity. Qed.

(** The float nearest to 0.00005 is above it and the one nearest to 0.00015
    below: both print as 0.0001, and so does the difference of two
    readings of these times 50 microseconds apart. *)
Example format_4f_near_ties :
  format_4f (decimal 6 50) = "0.0001" /\ format_4f (decimal 6 150) = "0.0001" /\
  format_4f (PrimFloat.sub (decimal 6 1700000000000150) (decimal 6 1700000000000100))
  = "0.0001" /\
  format_4f (PrimFloat.opp (decimal 9 1)) = "-0.0000".
Proof. repeat split; reflexivity. Qed.

(** [0.742523 + 3] is the float above 3.742523. *)
Example deadline_above_reading :
  PrimFloat.ltb (decimal 6 3742523) (PrimFloat.add (decimal 6 742523) (float_of_scaled 3 0))
  = true.
Proof. reflexivity. Qed.

(** [528.228138 - 99.228138] is the float below 429: 7 minutes and 8
    seconds, not 9. *)
Example uptime_below_whole_second :
  let u := PrimFloat.sub (decimal 6 528228138) (decimal 6 99228138) in
  int_of_float (float_floordiv (float_mod u (float_of_scaled 3600 0)) (float_of_scaled 60 0))
  = Ok 7 /\
  int_of_float (float_mod u (float_of_scaled 60 0)) = Ok 8.
Proof. split; reflexivity. Qed.

(** [-1.5 // 60] is [-1.0] and [-1.5 % 60] is [58.5]. *)
Example float_floordiv_mod_negative :
  int_of_float (float_floordiv (decimal 1 (-15)) (float_of_scaled 60 0)) = Ok (-1) /\
  format_4f (float_mod (decimal 1 (-15)) (float_of_scaled 60 0)) = "58.5000".
Proof. split; reflexivity. Qed.

(** A day, two hours, three minutes and four and a half seconds after the
    boot. *)
Example get_system_uptime_ex :
  match get_system_uptime healthy_platform (start_state [1700093784500000] []) with
  | Ret v _ => v = VDict [("Uptime", VStr "1d 2h 3m 4s")]
  | _ => False
  end.
Proof. vm_compute. reflexivity. Qed.

(** What is not a number has no integer part: [int] raises, inside the
    [try] of [get_system_uptime]. *)
Example int_of_float_nan :
  int_of_float (float_floordiv PrimFloat.nan (float_of_scaled 86400 0))
  = Err (Exn "ValueError" "cannot convert float NaN to integer") /\
  int_of_float (float_floordiv PrimFloat.infinity (float_of_scaled 86400 0))
  = Err (Exn "ValueError" "cannot convert float NaN to integer") /\
  int_of_float PrimFloat.infinity
  = Err (Exn "OverflowError" "cannot convert float infinity to integer").
Proof. repeat split; reflexivity. Qed.

Example str_strip_ex : str_strip "  Intel(R) Core  " = "Intel(R) Core".
Proof. reflexivity. Qed.

Example str_split_ex : str_split "=" "a=b=c" = ["a"; "b"; "c"].
Proof. reflexivity. Qed.

Ltac not_listed H :=
  match goal with
  | |- context [String.eqb ?c ?lit] =>
      let Heq := fresh "Heq" in
      destruct (String.eqb_spec c lit) as [Heq | _];
      [ exfalso; apply H; rewrite Heq; simpl; tauto | ]
  end.

(** ** The display only writes to the text box *)

Lemma only_textbox_insert text : only_textbox (textbox_insert text).
Proof. intros s. eexists. reflexivity. Qed.

Lemma only_textbox_bind (m k : M unit) :
  only_textbox m -> only_textbox k -> only_textbox (m ;; k).
Proof.
  intros Hm Hk s. destruct (Hm s) as [t Ht].
  destruct (Hk (set_textbox t s)) as [t' Ht'].
  exists t'. unfold mbind, M_bind, bind. rewrite Ht, Ht'. reflexivity.
Qed.

Lemma only_textbox_ret s : exists t, Ret tt s = Ret tt (set_textbox t s).
Proof. exists (textbox s). destruct s; reflexivity. Qed.

Lemma only_textbox_for_each {A} (f : A -> M unit) l :
  Forall (fun x => only_textbox (f x)) l -> only_textbox (for_each f l).
Proof.
  induction 1 as [|x l Hx _ IH]; intros s.
  - apply only_textbox_ret.
  - apply (only_textbox_bind (f x) (for_each f l) Hx IH).
Qed.

Lemma only_textbox_for_enumerate {A} (f : Z -> A -> M unit) l :
  Forall (fun x => forall i, only_textbox (f i x)) l ->
  forall i, only_textbox (for_enumerate f i l).
Proof.
  induction 1 as [|x l Hx _ IH]; intros i s.
  - apply only_textbox_ret.
  - apply (only_textbox_bind (f i x) (for_enumerate f (i + 1) l) (Hx i) (IH (i + 1))).
Qed.

Lemma recursive_display_only_textbox v : forall indent, only_textbox (recursive_display v indent).
Proof.
  induction v as [| b | n | r | t | l IH | l IH | d IH] using value_rect'; intros indent;
    try (apply only_textbox_insert).
  - simpl. apply only_textbox_for_enumerate.
    eapply Forall_impl; [exact IH |]. intros item Hitem i.
    apply only_textbox_bind; [apply only_textbox_insert | apply Hitem].
  - simpl. apply only_textbox_for_each.
    eapply Forall_impl; [exact IH |]. intros [k v] Hv. simpl in *.
    destruct v; try apply only_textbox_insert;
      (apply only_textbox_bind; [apply only_textbox_insert | apply Hv]).
Qed.

Lemma display_info_only_textbox info : only_textbox (display_info info).
Proof.
  apply only_textbox_bind.
  - intros s. eexists. reflexivity.
  - apply recursive_display_only_textbox.
Qed.

(** [show info] stores the record and returns. *)
Lemma show_returns info s :
  exists s', show info s = Ret tt s' /\ current_info s' = info /\
             log s' = (log s ++ [EvSetInfo info])%list /\ files s' = files s /\
             clock s' = clock s.
Proof.
  unfold show, assign_current_info.
  destruct (display_info_only_textbox info
              (add_event (EvSetInfo info) (set_current_info info s))) as [t Ht].
  eexists. split.
  - unfold mbind, M_bind, bind. cbn [modify emit]. rewrite Ht. reflexivity.
  - repeat split; reflexivity.
Qed.

(** ** The category dispatch *)

Lemma fetch_show info (m : M unit) cat s :
  (forall s0, combo s0 = cat -> m s0 = show info (set_textbox EmptyString s0)) ->
  exists s', fetch m cat s = Ret info s'.
Proof.
  intros Hm. unfold fetch, mbind, M_bind, bind. cbn [modify].
  rewrite (Hm (set_combo cat s) eq_refl).
  destruct (show_returns info (set_textbox EmptyString (set_combo cat s)))
    as (s' & Hs' & Hinfo & _).
  rewrite Hs'. cbn [get_state mret M_ret ret]. rewrite Hinfo. eexists; reflexivity.
Qed.

Lemma show_info_unknown' pf s :
  ~ In (combo s) base_categories ->
  show_info pf s = show (VDict [("Error", VStr "Unknown category")]) (set_textbox EmptyString s).
Proof.
  intros H. unfold show_info.
  unfold mbind at 1, M_bind at 1, bind at 1, get_state.
  unfold mbind at 1, M_bind at 1, bind at 1.
  cbn [textbox_delete_all modify].
  repeat not_listed H.
  reflexivity.
Qed.

Lemma extended_show_info_unknown pf s :
  ~ In (combo s) category_options ->
  extended_show_info pf s
  = show (VDict [("Error", VStr "Unknown category")]) (set_textbox EmptyString s).
Proof.
  intros H. unfold extended_show_info.
  unfold mbind at 1, M_bind at 1, bind at 1, get_state.
  unfold mbind at 1, M_bind at 1, bind at 1.
  cbn [textbox_delete_all modify].
  repeat not_listed H.
  rewrite show_info_unknown'.
  - reflexivity.
  - intros Hin. apply H. unfold category_options. apply in_or_app. left. exact Hin.
Qed.

(** C7.  A category name outside the catalog is answered with the record
    [{"Error": "Unknown category"}], returned as data: by the dispatch of
    the base class for a name outside its thirteen categories, and by the
    dispatch of the extended class, which falls back on the base one, for
    a name outside the whole catalog. *)
Theorem unknown_category_is_data (pf : Platform) (cat : string) (s : State) :
  (~ In cat base_categories ->
   exists s', fetch (show_info pf) cat s
              = Ret (VDict [("Error", VStr "Unknown category")]) s')
  /\
  (~ In cat category_options ->
   exists s', fetch (extended_show_info pf) cat s
              = Ret (VDict [("Error", VStr "Unknown category")]) s').
Proof.
  split; intros H; apply fetch_show; intros s0 Hs0.
  - apply show_info_unknown'. rewrite Hs0. exact H.
  - apply extended_show_info_unknown. rewrite Hs0. exact H.
Qed.

(** C1.  [get_system_info] has no handler around its platform calls: when
    one of them raises, the exception leaves [show_info] of either class,
    and no record is stored. *)
Theorem system_info_failure_propagates (pf : Platform) (s : State) (e : exn) :
  get_system_info pf = Err e ->
  fetch (show_info pf) "System Info" s
  = Raise e (set_textbox EmptyString (set_combo "System Info" s))
  /\
  fetch (extended_show_info pf) "System Info" s
  = Raise e (set_textbox EmptyString (set_combo "System Info" s)).
Proof.
  intros H. unfold fetch, extended_show_info, show_info, mbind, M_bind, bind, get_state.
  cbn beta iota delta [textbox_delete_all modify combo set_textbox set_combo
                       String.eqb Ascii.eqb Bool.eqb].
  unfold lift. rewrite H. split; reflexivity.
Qed.

(** The exception of either platform call of [get_system_info] is the
    exception of [get_system_info]. *)
Lemma get_system_info_raises (pf : Platform) (e : exn) :
  platform_uname pf = Err e \/
  (exists uname, platform_uname pf = Ok uname /\ platform_python_version pf = Err e) ->
  get_system_info pf = Err e.
Proof.
  unfold get_system_info, mbind, res_mbind, res_bind.
  intros [-> | (uname & -> & ->)]; reflexivity.
Qed.

(** The guarded collectors turn a failed query into an ["Error"] field:
    a dict collector and a list collector. *)
Lemma get_cpu_info_embeds_error (pf : Platform) (e : exn) :
  wmi_Win32_Processor pf = Err e ->
  get_cpu_info pf = Ok (VDict [("Error", VStr ("Failed to get CPU info: " ++ exn_msg e))]).
Proof. intros H. unfold get_cpu_info, collect_first. rewrite H. reflexivity. Qed.

Lemma get_gpu_info_embeds_error (pf : Platform) (e : exn) :
  wmi_Win32_VideoController pf = Err e ->
  get_gpu_info pf
  = Ok (VList [VDict [("Error", VStr ("Failed to get GPU info: " ++ exn_msg e))]]).
Proof. intros H. unfold get_gpu_info, collect_list. rewrite H. reflexivity. Qed.

Ltac collector_returns :=
  apply fetch_show; intros s0 Hs0;
  unfold extended_show_info, show_info, mbind, M_bind, bind, get_state;
  cbn beta iota delta [textbox_delete_all modify combo set_textbox];
  rewrite Hs0; cbn [String.eqb Ascii.eqb Bool.eqb];
  cbn beta iota delta [textbox_delete_all modify combo set_textbox];
  rewrite ?Hs0; cbn [String.eqb Ascii.eqb Bool.eqb];
  reflexivity.

(** X1.  Every other collector catches what its platform calls raise: for
    the categories below a fetch never raises, and ends with an Object
    stored as the record. *)
Lemma guarded_categories_return_objects (pf : Platform) (s : State) (cat : string) :
  In cat ["CPU Info"; "GPU Info"; "RAM Info"; "Disk Info"; "Network Info"; "BIOS Info";
          "Motherboard Info"; "Sound Devices"; "Battery Info"; "Process Count"; "Boot Time";
          "USB Devices"; "Display Monitors"; "Printers"; "Installed Software"; "Power Plan";
          "Locale & Timezone"] ->
  exists fields s', fetch (extended_show_info pf) cat s = Ret (VDict fields) s'.
Proof.
  intros Hin. simpl in Hin.
  repeat (destruct Hin as [<- | Hin]; [eexists; collector_returns |]).
  contradiction.
Qed.

(** [get_system_uptime] answers a dict, or waits for the clock. *)
Lemma get_system_uptime_cases pf s :
  (clock s = [] /\ get_system_uptime pf s = Stalled) \/
  (exists t rest fields,
     clock s = t :: rest /\
     get_system_uptime pf s
     = Ret (VDict fields) (add_event (EvClock t) (set_clock rest s))).
Proof.
  unfold get_system_uptime, try_except, mbind, M_bind, bind, time_time.
  destruct (clock s) as [|t rest]; [left; auto |].
  right. exists t, rest. unfold lift.
  destruct (psutil_boot_time pf) as [boot | e]; [| eexists; split; reflexivity].
  cbv zeta.
  repeat match goal with
         | |- context [int_of_float ?x] =>
             destruct (int_of_float x); [| eexists; split; reflexivity]
         end.
  eexists; split; reflexivity.
Qed.

(** X2.  [get_system_uptime] handles what the platform raises: a fetch of
    "System Uptime" never raises and answers an Object; it needs one
    reading of the clock. *)
Lemma system_uptime_never_raises (pf : Platform) (s : State) :
  match fetch (extended_show_info pf) "System Uptime" s with
  | Ret v _ => exists fields, v = VDict fields
  | Raise _ _ => False
  | Stalled => clock s = []
  end.
Proof.
  unfold fetch, extended_show_info, mbind, M_bind, bind, get_state.
  cbn beta iota delta [textbox_delete_all modify combo set_textbox set_combo
                       String.eqb Ascii.eqb Bool.eqb].
  match goal with
  | |- context [get_system_uptime pf ?st] =>
      destruct (get_system_uptime_cases pf st)
        as [(Hclock & ->) | (t & rest & fields & Hclock & ->)]
  end.
  - exact Hclock.
  - match goal with
    | |- context [show ?info ?st] =>
        destruct (show_returns info st) as (s' & -> & Hinfo & _)
    end.
    cbn. rewrite Hinfo. eexists; reflexivity.
Qed.

(** ** Steps of the monad *)

Lemma bind_ret_inv {A B} (m : M A) (k : A -> M B) s b s' :
  (m ≫= k) s = Ret b s' -> exists a s1, m s = Ret a s1 /\ k a s1 = Ret b s'.
Proof.
  unfold mbind, M_bind, bind. destruct (m s) as [a s1 | e s1 |]; try discriminate.
  intros H. exists a, s1. auto.
Qed.

Lemma bind_raise_inv {A B} (m : M A) (k : A -> M B) s e s' :
  (m ≫= k) s = Raise e s' ->
  m s = Raise e s' \/ exists a s1, m s = Ret a s1 /\ k a s1 = Raise e s'.
Proof.
  unfold mbind, M_bind, bind. destruct (m s) as [a s1 | e1 s1 |]; try discriminate.
  - intros H. right. exists a, s1. auto.
  - intros H. left. inversion H. reflexivity.
Qed.

Lemma bind_ret {A B} (m : M A) (k : A -> M B) s a s1 :
  m s = Ret a s1 -> (m ≫= k) s = k a s1.
Proof. unfold mbind, M_bind, bind. intros ->. reflexivity. Qed.

Lemma bind_raise {A B} (m : M A) (k : A -> M B) s e s1 :
  m s = Raise e s1 -> (m ≫= k) s = Raise e s1.
Proof. unfold mbind, M_bind, bind. intros ->. reflexivity. Qed.

(** ** What the probes touch *)

Lemma io_step_refl s : io_step s s.
Proof. exists []. rewrite app_nil_r. repeat split; auto. Qed.

Lemma io_step_trans s1 s2 s3 : io_step s1 s2 -> io_step s2 s3 -> io_step s1 s3.
Proof.
  intros (e1 & L1 & F1 & C1 & B1 & T1) (e2 & L2 & F2 & C2 & B2 & T2).
  exists (e1 ++ e2)%list. rewrite L2, L1, <- app_assoc. repeat split; try congruence.
  apply Forall_app; auto.
Qed.

Lemma io_step_event s ev : io_event ev -> io_step s (add_event ev s).
Proof. intros H. exists [ev]. repeat split; auto. Qed.

Lemma io_only_ret {A} (a : A) : io_only (mret a).
Proof. intros s. apply io_step_refl. Qed.

Lemma io_only_raise {A} e : io_only (@raise A e).
Proof. intros s. apply io_step_refl. Qed.

Lemma io_only_lift {A} (r : res A) : io_only (lift r).
Proof. intros s. unfold lift. destruct r; apply io_step_refl. Qed.

Lemma io_only_get_state : io_only get_state.
Proof. intros s. apply io_step_refl. Qed.

Lemma io_only_bind {A B} (m : M A) (k : A -> M B) :
  io_only m -> (forall a, io_only (k a)) -> io_only (m ≫= k).
Proof.
  intros Hm Hk s. specialize (Hm s). unfold mbind, M_bind, bind.
  destruct (m s) as [a s1 | e s1 |]; auto.
  specialize (Hk a s1). destruct (k a s1); auto; eapply io_step_trans; eauto.
Qed.

Lemma io_only_try_except {A} (m : M A) (h : exn -> M A) :
  io_only m -> (forall e, io_only (h e)) -> io_only (try_except m h).
Proof.
  intros Hm Hh s. specialize (Hm s). unfold try_except.
  destruct (m s) as [a s1 | e s1 |]; auto.
  specialize (Hh e s1). destruct (h e s1); auto; eapply io_step_trans; eauto.
Qed.

Lemma io_only_time_time : io_only time_time.
Proof.
  intros s. unfold time_time. destruct (clock s) as [|t rest]; [exact I |].
  exists [EvClock t]. repeat split; auto. repeat constructor.
Qed.

Lemma io_only_fault_point : io_only fault_point.
Proof.
  intros s. unfold fault_point.
  destruct (faults s) as [|[msg|] rest]; exists []; rewrite app_nil_r; repeat split; auto.
Qed.

Lemma io_only_set_files (f : State -> gmap string (list chunk)) :
  io_only (modify (fun s => set_files (f s) s)).
Proof. intros s. exists []. rewrite app_nil_r. repeat split; auto. Qed.

Lemma io_only_set_tmp_names l : io_only (modify (set_tmp_names l)).
Proof. intros s. exists []. rewrite app_nil_r. repeat split; auto. Qed.

Lemma io_only_emit_file op name : io_only (emit (EvFile op name)).
Proof. intros s. apply io_step_event. exact I. Qed.

Create HintDb io_only.
#[local] Hint Resolve io_only_ret io_only_raise io_only_lift io_only_get_state
  io_only_time_time io_only_fault_point io_only_set_files io_only_set_tmp_names
  io_only_emit_file : io_only.

Ltac io_only_tac :=
  repeat first
    [ solve [auto with io_only]
    | apply io_only_try_except; [| intros ?]
    | apply io_only_bind; [| intros ?]
    | match goal with
      | |- io_only (if ?b then _ else _) => destruct b
      | |- io_only (match ?x with _ => _ end) => destruct x
      end ].

Lemma io_only_open_write name : io_only (open_write name).
Proof. unfold open_write. io_only_tac. Qed.

Lemma io_only_file_write name data : io_only (file_write name data).
Proof. unfold file_write. io_only_tac. Qed.

Lemma io_only_open_read name : io_only (open_read name).
Proof. unfold open_read. io_only_tac. Qed.

Lemma io_only_file_read name : io_only (file_read name).
Proof. unfold file_read. io_only_tac. Qed.

Lemma io_only_os_remove name : io_only (os_remove name).
Proof. unfold os_remove. io_only_tac. Qed.

Lemma io_only_tempfile_mktemp : io_only tempfile_mktemp.
Proof. unfold tempfile_mktemp. io_only_tac. Qed.

#[local] Hint Resolve io_only_open_write io_only_file_write io_only_open_read
  io_only_file_read io_only_os_remove io_only_tempfile_mktemp : io_only.

Lemma io_only_named_temporary_file : io_only named_temporary_file.
Proof. unfold named_temporary_file. io_only_tac. Qed.

Lemma io_only_write_read name data : io_only (write_read name data).
Proof. unfold write_read. io_only_tac. Qed.

Lemma io_only_busy_loop fuel : forall deadline count, io_only (busy_loop fuel deadline count).
Proof.
  induction fuel as [|fuel IH]; intros deadline count.
  - intros s. exact I.
  - simpl. apply io_only_bind; [auto with io_only |]. intros now.
    destruct (PrimFloat.ltb now deadline); [apply IH | auto with io_only].
Qed.

Lemma io_only_busy_until deadline : io_only (busy_until deadline).
Proof.
  unfold busy_until. apply io_only_bind; [auto with io_only |].
  intros s. apply io_only_busy_loop.
Qed.

#[local] Hint Resolve io_only_named_temporary_file io_only_write_read
  io_only_busy_until : io_only.

(** ** Traces of the probes *)

Lemma probe_trace name body :
  io_only body ->
  forall s, match probe name body s with
            | Ret _ s' => probe_returned name s s'
            | Raise _ s' => probe_raised name s s'
            | Stalled => True
            end.
Proof.
  intros Hbody s. unfold probe, mbind, M_bind, bind. cbn [emit modify].
  specialize (Hbody (add_event (EvEnter name) s)).
  destruct (body (add_event (EvEnter name) s)) as [r s1 | e s1 |]; [| | exact I].
  - destruct Hbody as (evs & Hlog & Hio & Hgui). cbn [mret M_ret ret].
    exists evs. split; [| split; [exact Hio | exact Hgui]].
    cbn [log add_event]. rewrite Hlog. cbn [log add_event].
    rewrite <- !app_assoc. reflexivity.
  - destruct Hbody as (evs & Hlog & Hio & Hgui).
    exists evs. split; [| split; [exact Hio | exact Hgui]].
    rewrite Hlog. cbn [log add_event]. rewrite <- !app_assoc. reflexivity.
Qed.

Lemma cpu_benchmark_trace duration s :
  match cpu_benchmark duration s with
  | Ret _ s' => probe_returned "cpu_benchmark" s s'
  | Raise _ s' => probe_raised "cpu_benchmark" s s'
  | Stalled => True
  end.
Proof. apply probe_trace. io_only_tac. Qed.

Lemma extended_cpu_benchmark_trace duration s :
  match extended_cpu_benchmark duration s with
  | Ret _ s' => probe_returned "extended_cpu_benchmark" s s'
  | Raise _ s' => probe_raised "extended_cpu_benchmark" s s'
  | Stalled => True
  end.
Proof. apply probe_trace. io_only_tac. Qed.

Lemma memory_benchmark_trace pf s :
  match memory_benchmark pf s with
  | Ret _ s' => probe_returned "memory_benchmark" s s'
  | Raise _ s' => probe_raised "memory_benchmark" s s'
  | Stalled => True
  end.
Proof. apply probe_trace. io_only_tac. Qed.

Lemma extended_memory_benchmark_trace pf s :
  match extended_memory_benchmark pf s with
  | Ret _ s' => probe_returned "extended_memory_benchmark" s s'
  | Raise _ s' => probe_raised "extended_memory_benchmark" s s'
  | Stalled => True
  end.
Proof. apply probe_trace. io_only_tac. Qed.

Lemma disk_benchmark_trace s :
  match disk_benchmark s with
  | Ret _ s' => probe_returned "disk_benchmark" s s'
  | Raise _ s' => probe_raised "disk_benchmark" s s'
  | Stalled => True
  end.
Proof. apply probe_trace. io_only_tac. Qed.

Lemma extended_disk_benchmark_trace s :
  match extended_disk_benchmark s with
  | Ret _ s' => probe_returned "extended_disk_benchmark" s s'
  | Raise _ s' => probe_raised "extended_disk_benchmark" s s'
  | Stalled => True
  end.
Proof. apply probe_trace. io_only_tac. Qed.

(** ** One tier *)

Lemma filter_io_events evs : Forall io_event evs -> List.filter is_set_info evs = [].
Proof.
  induction 1 as [|e evs He _ IH]; [reflexivity |].
  destruct e; simpl in *; try contradiction; exact IH.
Qed.

Lemma filter_probe_returned name evs :
  Forall io_event evs ->
  List.filter is_set_info (EvEnter name :: evs ++ [EvLeave name]) = [].
Proof.
  intros H. simpl. rewrite List.filter_app, (filter_io_events evs H). reflexivity.
Qed.

Lemma tier_returns n1 n2 n3 p1 p2 p3 s s' :
  traced n1 p1 -> traced n2 p2 -> traced n3 p3 ->
  tier p1 p2 p3 s = Ret tt s' ->
  exists r1 r2 r3 s1 s2 s3 evs,
    p1 s = Ret r1 s1 /\ p2 s1 = Ret r2 s2 /\ p3 s2 = Ret r3 s3 /\
    current_info s' = VDict (dict_update (dict_update (dict_update [] r1) r2) r3) /\
    log s' = (log s ++ evs)%list /\
    tier_trace n1 n2 n3 (current_info s') evs /\
    List.filter is_set_info evs = [EvSetInfo (current_info s')].
Proof.
  intros T1 T2 T3 H. unfold tier in H.
  apply bind_ret_inv in H as (r1 & s1 & H1 & H).
  apply bind_ret_inv in H as (r2 & s2 & H2 & H).
  apply bind_ret_inv in H as (r3 & s3 & H3 & H).
  specialize (T1 s). rewrite H1 in T1. destruct T1 as (e1 & L1 & F1 & G1).
  specialize (T2 s1). rewrite H2 in T2. destruct T2 as (e2 & L2 & F2 & G2).
  specialize (T3 s2). rewrite H3 in T3. destruct T3 as (e3 & L3 & F3 & G3).
  cbv beta zeta in H. unfold assign_current_info, mbind, M_bind, bind in H.
  cbn [emit modify] in H. injection H as <-.
  exists r1, r2, r3, s1, s2, s3.
  eexists. repeat (split; [eassumption || reflexivity |]).
  cbn [log add_event set_current_info current_info].
  rewrite L3, L2, L1. repeat rewrite <- app_assoc. cbn [app].
  split; [reflexivity |]. split.
  - exists e1, e2, e3. repeat rewrite <- app_assoc. cbn [app]. auto.
  - repeat (progress (rewrite ?List.filter_app; cbn [List.filter is_set_info app])).
    rewrite (filter_io_events e1 F1), (filter_io_events e2 F2), (filter_io_events e3 F3).
    reflexivity.
Qed.

Lemma tier_raises n1 n2 n3 p1 p2 p3 s e s' :
  traced n1 p1 -> traced n2 p2 -> traced n3 p3 ->
  tier p1 p2 p3 s = Raise e s' ->
  exists evs, log s' = (log s ++ evs)%list /\ List.filter is_set_info evs = [] /\
              current_info s' = current_info s.
Proof.
  intros T1 T2 T3 H. unfold tier in H.
  apply bind_raise_inv in H as [H1 | (r1 & s1 & H1 & H)];
    specialize (T1 s); rewrite H1 in T1; destruct T1 as (e1 & L1 & F1 & G1 & _).
  { exists (EvEnter n1 :: e1). cbn [List.filter is_set_info].
    rewrite (filter_io_events e1 F1). auto. }
  apply bind_raise_inv in H as [H2 | (r2 & s2 & H2 & H)];
    specialize (T2 s1); rewrite H2 in T2; destruct T2 as (e2 & L2 & F2 & G2 & _).
  { exists ((EvEnter n1 :: e1 ++ [EvLeave n1]) ++ EvEnter n2 :: e2)%list.
    rewrite L2, L1, <- app_assoc. split; [reflexivity |]. split; [| congruence].
    rewrite List.filter_app, filter_probe_returned by assumption.
    cbn [List.filter is_set_info app]. apply filter_io_events, F2. }
  apply bind_raise_inv in H as [H3 | (r3 & s3 & H3 & H)];
    specialize (T3 s2); rewrite H3 in T3; destruct T3 as (e3 & L3 & F3 & G3 & _).
  { exists ((EvEnter n1 :: e1 ++ [EvLeave n1]) ++ (EvEnter n2 :: e2 ++ [EvLeave n2])
            ++ EvEnter n3 :: e3)%list.
    rewrite L3, L2, L1, <- !app_assoc. split; [reflexivity |]. split; [| congruence].
    rewrite !List.filter_app, !filter_probe_returned by assumption.
    cbn [List.filter is_set_info app]. apply filter_io_events, F3. }
  cbv beta zeta in H. unfold assign_current_info, mbind, M_bind, bind in H.
  cbn [emit modify] in H. discriminate H.
Qed.

(** C6.  In a tier that runs to its end, the three probes return one after
    the other, each from the state the one before left; the events are
    those of the CPU probe, then those of the memory probe, then those of
    the disk probe (so every clock reading of the disk probe comes after
    the memory probe has returned), then one assignment to
    [self.current_info]; that assignment is the only one, and what it
    stores is the merge of the three results: the empty dict updated with
    the result of the CPU probe, then of the memory probe, then of the
    disk probe.  A tier that is left by an exception assigns nothing. *)
Theorem tier_is_sequential_and_stores_once (pf : Platform) (s s' : State) :
  (run_benchmarks pf s = Ret tt s' ->
   exists r1 r2 r3 s1 s2 s3 evs,
     cpu_benchmark 3 s = Ret r1 s1 /\ memory_benchmark pf s1 = Ret r2 s2 /\
     disk_benchmark s2 = Ret r3 s3 /\
     current_info s' = VDict (dict_update (dict_update (dict_update [] r1) r2) r3) /\
     log s' = (log s ++ evs)%list /\
     tier_trace "cpu_benchmark" "memory_benchmark" "disk_benchmark"
                (current_info s') evs /\
     List.filter is_set_info evs = [EvSetInfo (current_info s')])
  /\
  (run_extended_benchmarks pf s = Ret tt s' ->
   exists r1 r2 r3 s1 s2 s3 evs,
     extended_cpu_benchmark 5 s = Ret r1 s1 /\ extended_memory_benchmark pf s1 = Ret r2 s2 /\
     extended_disk_benchmark s2 = Ret r3 s3 /\
     current_info s' = VDict (dict_update (dict_update (dict_update [] r1) r2) r3) /\
     log s' = (log s ++ evs)%list /\
     tier_trace "extended_cpu_benchmark" "extended_memory_benchmark"
                "extended_disk_benchmark" (current_info s') evs /\
     List.filter is_set_info evs = [EvSetInfo (current_info s')])
  /\
  (forall e, run_benchmarks pf s = Raise e s' \/ run_extended_benchmarks pf s = Raise e s' ->
   exists evs, log s' = (log s ++ evs)%list /\ List.filter is_set_info evs = [] /\
               current_info s' = current_info s).
Proof.
  assert (B : traced "cpu_benchmark" (cpu_benchmark 3)) by (intros ?; apply cpu_benchmark_trace).
  assert (Bm : traced "memory_benchmark" (memory_benchmark pf))
    by (intros ?; apply memory_benchmark_trace).
  assert (Bd : traced "disk_benchmark" disk_benchmark)
    by (intros ?; apply disk_benchmark_trace).
  assert (X : traced "extended_cpu_benchmark" (extended_cpu_benchmark 5))
    by (intros ?; apply extended_cpu_benchmark_trace).
  assert (Xm : traced "extended_memory_benchmark" (extended_memory_benchmark pf))
    by (intros ?; apply extended_memory_benchmark_trace).
  assert (Xd : traced "extended_disk_benchmark" extended_disk_benchmark)
    by (intros ?; apply extended_disk_benchmark_trace).
  split; [| split].
  - intros H. change (run_benchmarks pf) with
      (tier (cpu_benchmark 3) (memory_benchmark pf) disk_benchmark) in H.
    exact (tier_returns _ _ _ _ _ _ _ _ B Bm Bd H).
  - intros H. change (run_extended_benchmarks pf) with
      (tier (extended_cpu_benchmark 5) (extended_memory_benchmark pf)
            extended_disk_benchmark) in H.
    exact (tier_returns _ _ _ _ _ _ _ _ X Xm Xd H).
  - intros e [H | H].
    + change (run_benchmarks pf) with
        (tier (cpu_benchmark 3) (memory_benchmark pf) disk_benchmark) in H.
      exact (tier_raises _ _ _ _ _ _ _ _ _ B Bm Bd H).
    + change (run_extended_benchmarks pf) with
        (tier (extended_cpu_benchmark 5) (extended_memory_benchmark pf)
              extended_disk_benchmark) in H.
      exact (tier_raises _ _ _ _ _ _ _ _ _ X Xm Xd H).
Qed.

(** ** What the probes return *)

Lemma try_except_ret_inv {A} (m : M A) (h : exn -> M A) s a s' :
  try_except m h s = Ret a s' ->
  m s = Ret a s' \/ exists e s1, m s = Raise e s1 /\ h e s1 = Ret a s'.
Proof.
  unfold try_except. destruct (m s) as [a1 s1 | e s1 |]; try discriminate.
  - intros H. left. exact H.
  - intros H. right. exists e, s1. auto.
Qed.

Lemma probe_ret_inv name body s r s' :
  probe name body s = Ret r s' ->
  exists s1, body (add_event (EvEnter name) s) = Ret r s1 /\
             s' = add_event (EvLeave name) s1.
Proof.
  unfold probe. intros H.
  apply bind_ret_inv in H as ([] & s0 & H0 & H). cbn in H0. injection H0 as <-.
  apply bind_ret_inv in H as (r' & s1 & H1 & H).
  apply bind_ret_inv in H as ([] & s2 & H2 & H). cbn in H2. injection H2 as <-.
  cbn in H. injection H as <- <-. exists s1. auto.
Qed.

Ltac ret_inv H :=
  repeat match type of H with
         | (_ ≫= _) _ = Ret _ _ =>
             let a := fresh "a" in let s := fresh "s" in let Ha := fresh "Ha" in
             apply bind_ret_inv in H as (a & s & Ha & H)
         end.

Lemma cpu_benchmark_result duration s r s' :
  cpu_benchmark duration s = Ret r s' ->
  exists count,
    r = [("CPU Benchmark (loops in " ++ string_of_Z duration ++ "s)", VInt count)].
Proof.
  intros H. apply probe_ret_inv in H as (s1 & H & _). ret_inv H.
  cbn in H. injection H as <- _. eexists; reflexivity.
Qed.

Lemma extended_cpu_benchmark_result duration s r s' :
  extended_cpu_benchmark duration s = Ret r s' ->
  exists count, r = [("Extended CPU Benchmark loops", VInt count)].
Proof.
  intros H. apply probe_ret_inv in H as (s1 & H & _). ret_inv H.
  cbn in H. injection H as <- _. eexists; reflexivity.
Qed.

Lemma memory_benchmark_result pf s r s' :
  memory_benchmark pf s = Ret r s' ->
  exists elapsed, r = [("Memory Benchmark (sum bytes)", VStr elapsed)].
Proof.
  intros H. apply probe_ret_inv in H as (s1 & H & _). ret_inv H.
  cbn in H. injection H as <- _. eexists; reflexivity.
Qed.

Lemma disk_benchmark_result s r s' :
  disk_benchmark s = Ret r s' ->
  exists text, r = [("Disk Benchmark (write/read 10MB)", VStr text)] \/
               r = [("Disk Benchmark Error", VStr text)].
Proof.
  intros H. apply probe_ret_inv in H as (s1 & H & _).
  apply try_except_ret_inv in H as [H | (e & s2 & _ & H)].
  - ret_inv H. cbn in H. injection H as <- _. eexists; left; reflexivity.
  - cbn in H. injection H as <- _. eexists; right; reflexivity.
Qed.

Lemma extended_disk_benchmark_result s r s' :
  extended_disk_benchmark s = Ret r s' ->
  (exists text, r = [("Extended Disk Benchmark (3x 50MB write/read)", VStr text)]) \/
  (exists e, r = [("Error", VStr ("Failed extended disk benchmark: " ++ exn_msg e))]).
Proof.
  intros H. apply probe_ret_inv in H as (s1 & H & _).
  apply try_except_ret_inv in H as [H | (e & s2 & _ & H)].
  - ret_inv H. cbn in H. injection H as <- _. left. eexists; reflexivity.
  - cbn in H. injection H as <- _. right. eexists; reflexivity.
Qed.

(** X3.  When the baseline tier runs to its end, the stored record has
    exactly three fields, in this order: the CPU count, the memory timing,
    and the disk timing or the disk error. *)
Lemma baseline_merge_has_three_fields (pf : Platform) (s s' : State) :
  run_benchmarks pf s = Ret tt s' ->
  exists count elapsed disk_key disk_text,
    current_info s' = VDict [("CPU Benchmark (loops in 3s)", VInt count);
                             ("Memory Benchmark (sum bytes)", VStr elapsed);
                             (disk_key, VStr disk_text)] /\
    (disk_key = "Disk Benchmark (write/read 10MB)" \/ disk_key = "Disk Benchmark Error").
Proof.
  intros H.
  change (run_benchmarks pf) with
    (tier (cpu_benchmark 3) (memory_benchmark pf) disk_benchmark) in H.
  unfold tier in H.
  apply bind_ret_inv in H as (r1 & s1 & H1 & H).
  apply bind_ret_inv in H as (r2 & s2 & H2 & H).
  apply bind_ret_inv in H as (r3 & s3 & H3 & H).
  apply cpu_benchmark_result in H1 as (count & ->).
  apply memory_benchmark_result in H2 as (elapsed & ->).
  apply disk_benchmark_result in H3 as (text & [-> | ->]);
    cbn in H; injection H as <-; exists count, elapsed; eexists; exists text;
    (split; [reflexivity |]); auto.
Qed.

(** C2.  [memory_benchmark] has no handler: when the allocation of its
    buffer raises, the exception leaves [run_benchmarks] right after the
    memory probe was entered; the disk probe does not run and nothing is
    stored in [self.current_info]. *)
Theorem memory_failure_aborts_baseline_tier
    (pf : Platform) (s s1 : State) (r1 : pydict) (e : exn) :
  cpu_benchmark 3 s = Ret r1 s1 ->
  bytearray_alloc pf = Err e ->
  run_benchmarks pf s = Raise e (add_event (EvEnter "memory_benchmark") s1) /\
  current_info (add_event (EvEnter "memory_benchmark") s1) = current_info s /\
  log (add_event (EvEnter "memory_benchmark") s1)
  = (log s1 ++ [EvEnter "memory_benchmark"])%list.
Proof.
  intros Hcpu Halloc. split; [| split].
  - unfold run_benchmarks. rewrite (bind_ret _ _ _ _ _ Hcpu).
    apply bind_raise. unfold memory_benchmark, probe.
    unfold mbind, M_bind, bind. cbn [emit modify]. unfold lift. rewrite Halloc. reflexivity.
  - pose proof (cpu_benchmark_trace 3 s) as T. rewrite Hcpu in T.
    destruct T as (evs & _ & _ & Hinfo & _). exact Hinfo.
  - reflexivity.
Qed.

(** C10.  In the extended tier both the memory probe and the disk probe
    answer a failure under the key ["Error"].  When both fail in one run,
    the merge keeps one ["Error"] field, holding the message of the disk
    probe, and the stored result has two fields. *)
Theorem extended_errors_share_one_key
    (pf : Platform) (s s1 s3 : State) (r1 : pydict) (e : exn) (disk_message : string) :
  extended_cpu_benchmark 5 s = Ret r1 s1 ->
  import_numpy pf = Ok tt ->
  numpy_random_rand pf = Err e ->
  extended_disk_benchmark
    (add_event (EvLeave "extended_memory_benchmark")
       (add_event (EvEnter "extended_memory_benchmark") s1))
  = Ret [("Error", VStr disk_message)] s3 ->
  extended_memory_benchmark pf s1
  = Ret [("Error", VStr ("Failed extended memory benchmark: " ++ exn_msg e))]
        (add_event (EvLeave "extended_memory_benchmark")
           (add_event (EvEnter "extended_memory_benchmark") s1)) /\
  exists count s',
    run_extended_benchmarks pf s = Ret tt s' /\
    current_info s' = VDict [("Extended CPU Benchmark loops", VInt count);
                             ("Error", VStr disk_message)] /\
    List.filter is_set_info (skipn (length (log s3)) (log s'))
    = [EvSetInfo (current_info s')].
Proof.
  intros Hcpu Himport Hrand Hdisk.
  assert (Hmem : extended_memory_benchmark pf s1
                 = Ret [("Error", VStr ("Failed extended memory benchmark: " ++ exn_msg e))]
                       (add_event (EvLeave "extended_memory_benchmark")
                          (add_event (EvEnter "extended_memory_benchmark") s1))).
  { unfold extended_memory_benchmark, probe, try_except, mbind, M_bind, bind.
    cbn [emit modify]. unfold lift. rewrite Himport, Hrand. reflexivity. }
  split; [exact Hmem |].
  destruct (extended_cpu_benchmark_result _ _ _ _ Hcpu) as (count & ->).
  exists count. eexists. split; [| split].
  - unfold run_extended_benchmarks.
    rewrite (bind_ret _ _ _ _ _ Hcpu), (bind_ret _ _ _ _ _ Hmem), (bind_ret _ _ _ _ _ Hdisk).
    reflexivity.
  - reflexivity.
  - cbn [log add_event set_current_info current_info].
    rewrite <- app_assoc, skipn_app, skipn_all, Nat.sub_diag. reflexivity.
Qed.

(** ** The temporary file of the disk probes *)

Lemma keeps_bind {A B} n (m : M A) (k : A -> M B) :
  keeps_other_files n m -> (forall a, keeps_other_files n (k a)) ->
  keeps_other_files n (m ≫= k).
Proof.
  intros Hm Hk s. specialize (Hm s). unfold mbind, M_bind, bind.
  destruct (m s) as [a s1 | e s1 |]; auto.
  specialize (Hk a s1). destruct (k a s1); auto; intros k0 Hk0; rewrite Hk by auto; auto.
Qed.

Lemma keeps_same_files {A} n (m : M A) :
  (forall s, match m s with
             | Ret _ s' | Raise _ s' => files s' = files s
             | Stalled => True
             end) ->
  keeps_other_files n m.
Proof. intros H s. specialize (H s). destruct (m s); auto; intros; rewrite H; auto. Qed.

Lemma keeps_ret {A} n (a : A) : keeps_other_files n (mret a).
Proof. apply keeps_same_files. intros s. reflexivity. Qed.

Lemma keeps_raise {A} n e : keeps_other_files n (@raise A e).
Proof. apply keeps_same_files. intros s. reflexivity. Qed.

Lemma keeps_get_state n : keeps_other_files n get_state.
Proof. apply keeps_same_files. intros s. reflexivity. Qed.

Lemma keeps_emit n ev : keeps_other_files n (emit ev).
Proof. apply keeps_same_files. intros s. reflexivity. Qed.

Lemma keeps_time_time n : keeps_other_files n time_time.
Proof.
  apply keeps_same_files. intros s. unfold time_time. destruct (clock s); reflexivity.
Qed.

Lemma keeps_fault_point n : keeps_other_files n fault_point.
Proof.
  apply keeps_same_files. intros s. unfold fault_point.
  destruct (faults s) as [|[msg|] rest]; reflexivity.
Qed.

Lemma keeps_insert n (f : State -> list chunk) :
  keeps_other_files n (modify (fun s => set_files (<[n := f s]> (files s)) s)).
Proof. intros s k Hk. cbn. apply lookup_insert_ne. auto. Qed.

Lemma keeps_delete n :
  keeps_other_files n (modify (fun s => set_files (delete n (files s)) s)).
Proof. intros s k Hk. cbn. apply lookup_delete_ne. auto. Qed.

Create HintDb keeps.
#[local] Hint Resolve keeps_ret keeps_raise keeps_get_state keeps_emit keeps_time_time
  keeps_fault_point keeps_insert keeps_delete : keeps.

Ltac keeps_tac :=
  repeat first
    [ solve [auto with keeps]
    | apply keeps_bind; [| intros ?]
    | match goal with
      | |- keeps_other_files _ (if ?b then _ else _) => destruct b
      end ].

Lemma keeps_write_read n data : keeps_other_files n (write_read n data).
Proof. unfold write_read, open_write, file_write, open_read, file_read. keeps_tac. Qed.

Lemma keeps_os_remove n : keeps_other_files n (os_remove n).
Proof. unfold os_remove. keeps_tac. Qed.

Lemma os_remove_ret n s s' : os_remove n s = Ret tt s' -> files s' !! n = None.
Proof.
  unfold os_remove. intros H.
  apply bind_ret_inv in H as (u & s0 & _ & H).
  apply bind_ret_inv in H as (st & s1 & Hget & H).
  cbn in Hget. injection Hget as <- <-.
  destruct (file_exists n s0); [| discriminate H].
  apply bind_ret_inv in H as (u' & s2 & Hmod & H).
  cbn in Hmod, H. inversion Hmod; subst. inversion H; subst.
  cbn. apply lookup_delete_eq.
Qed.

Lemma pick_name_fresh candidates s n rest :
  pick_name candidates s = Some (n, rest) -> files s !! n = None.
Proof.
  induction candidates as [|c cs IH]; simpl; [discriminate |].
  unfold file_exists at 1. destruct (files s !! c) eqn:Hc; [exact IH |].
  intros H. injection H as <- _. exact Hc.
Qed.

Lemma tempfile_mktemp_ret s n s' :
  tempfile_mktemp s = Ret n s' -> files s !! n = None /\ files s' = files s.
Proof.
  unfold tempfile_mktemp. intros H.
  apply bind_ret_inv in H as (st & s0 & Hget & H).
  cbn in Hget. injection Hget as <- <-.
  destruct (pick_name (tmp_names s) s) as [[n' rest] |] eqn:Hpick.
  - apply bind_ret_inv in H as (u & s1 & Hmod & H).
    cbn in Hmod, H. inversion Hmod; subst. inversion H; subst.
    split; [eapply pick_name_fresh; eauto | reflexivity].
  - apply bind_ret_inv in H as (u & s1 & Hmod & H). cbn in H. discriminate H.
Qed.

Lemma fault_point_ret s s' : fault_point s = Ret tt s' -> files s' = files s.
Proof.
  unfold fault_point. destruct (faults s) as [|[msg|] rest]; intros H;
    try discriminate H; injection H as <-; reflexivity.
Qed.

Lemma named_temporary_file_ret s n s' :
  named_temporary_file s = Ret n s' ->
  files s !! n = None /\ forall k, k <> n -> files s' !! k = files s !! k.
Proof.
  unfold named_temporary_file. intros H.
  apply bind_ret_inv in H as ([] & s0 & Hfp & H).
  apply bind_ret_inv in H as (n' & s1 & Hmk & H).
  apply bind_ret_inv in H as (u & s2 & Hmod & H).
  apply bind_ret_inv in H as (u' & s3 & Hev & H).
  apply fault_point_ret in Hfp. apply tempfile_mktemp_ret in Hmk as [Hfresh Hsame].
  cbn in Hmod, Hev, H. inversion Hmod; subst. inversion Hev; subst. inversion H; subst.
  rewrite Hfp in Hfresh, Hsame. split; [exact Hfresh |].
  intros k Hk. cbn. rewrite lookup_insert_ne by auto. rewrite Hsame. reflexivity.
Qed.

Lemma keeps_ret_inv {A} n (m : M A) s a s' :
  keeps_other_files n m -> m s = Ret a s' ->
  forall k, k <> n -> files s' !! k = files s !! k.
Proof. intros Hm H. specialize (Hm s). rewrite H in Hm. exact Hm. Qed.

Lemma disk_benchmark_cleans_up s r s' :
  disk_benchmark s = Ret r s' ->
  dict_keys r = ["Disk Benchmark (write/read 10MB)"] ->
  files s' = files s.
Proof.
  intros H Hkey. apply probe_ret_inv in H as (s1 & H & ->).
  apply try_except_ret_inv in H as [H | (e & s2 & _ & H)];
    [| cbn in H; injection H as <- _; discriminate Hkey].
  apply bind_ret_inv in H as (n & sa & Htmp & H).
  apply bind_ret_inv in H as (start & sb & Ht1 & H).
  apply bind_ret_inv in H as ([] & sc & Hwr & H).
  apply bind_ret_inv in H as (now & sd & Ht2 & H).
  apply bind_ret_inv in H as ([] & se & Hrm & H).
  cbn in H. injection H as _ <-.
  apply named_temporary_file_ret in Htmp as [Hfresh Hother]. cbn in Hfresh, Hother.
  pose proof (keeps_ret_inv n _ _ _ _ (keeps_time_time n) Ht1) as K1.
  pose proof (keeps_ret_inv n _ _ _ _ (keeps_write_read n _) Hwr) as K2.
  pose proof (keeps_ret_inv n _ _ _ _ (keeps_time_time n) Ht2) as K3.
  pose proof (keeps_ret_inv n _ _ _ _ (keeps_os_remove n) Hrm) as K4.
  apply os_remove_ret in Hrm.
  cbn. apply map_eq. intros k. destruct (decide (k = n)) as [-> | Hk].
  - rewrite Hrm, Hfresh. reflexivity.
  - rewrite K4, K3, K2, K1, Hother by auto. reflexivity.
Qed.

Lemma extended_disk_benchmark_cleans_up s r s' :
  extended_disk_benchmark s = Ret r s' ->
  dict_keys r = ["Extended Disk Benchmark (3x 50MB write/read)"] ->
  files s' = files s.
Proof.
  intros H Hkey. apply probe_ret_inv in H as (s1 & H & ->).
  apply try_except_ret_inv in H as [H | (e & s2 & _ & H)];
    [| cbn in H; injection H as <- _; discriminate Hkey].
  apply bind_ret_inv in H as (n & sa & Htmp & H).
  apply bind_ret_inv in H as (start & sb & Ht1 & H).
  apply bind_ret_inv in H as ([] & sc1 & Hwr1 & H).
  apply bind_ret_inv in H as ([] & sc2 & Hwr2 & H).
  apply bind_ret_inv in H as ([] & sc3 & Hwr3 & H).
  apply bind_ret_inv in H as (now & sd & Ht2 & H).
  apply bind_ret_inv in H as ([] & se & Hrm & H).
  cbn in H. injection H as _ <-.
  apply tempfile_mktemp_ret in Htmp as [Hfresh Hsame]. cbn in Hfresh, Hsame.
  pose proof (keeps_ret_inv n _ _ _ _ (keeps_time_time n) Ht1) as K1.
  pose proof (keeps_ret_inv n _ _ _ _ (keeps_write_read n _) Hwr1) as K2.
  pose proof (keeps_ret_inv n _ _ _ _ (keeps_write_read n _) Hwr2) as K2'.
  pose proof (keeps_ret_inv n _ _ _ _ (keeps_write_read n _) Hwr3) as K2''.
  pose proof (keeps_ret_inv n _ _ _ _ (keeps_time_time n) Ht2) as K3.
  pose proof (keeps_ret_inv n _ _ _ _ (keeps_os_remove n) Hrm) as K4.
  apply os_remove_ret in Hrm.
  cbn. apply map_eq. intros k. destruct (decide (k = n)) as [-> | Hk].
  - rewrite Hrm, Hfresh. reflexivity.
  - rewrite K4, K3, K2'', K2', K2, K1, Hsame by auto. reflexivity.
Qed.

(** X31.  A disk probe removes its temporary file as the last step of its
    [try] block: whenever a probe returns its timing result, whatever
    was scripted to fail, the files are exactly those that existed before
    the probe. *)
Theorem disk_probes_clean_up_on_success (s s' : State) (r : pydict) :
  (disk_benchmark s = Ret r s' ->
   dict_keys r = ["Disk Benchmark (write/read 10MB)"] -> files s' = files s)
  /\
  (extended_disk_benchmark s = Ret r s' ->
   dict_keys r = ["Extended Disk Benchmark (3x 50MB write/read)"] -> files s' = files s).
Proof.
  split.
  - apply disk_benchmark_cleans_up.
  - apply extended_disk_benchmark_cleans_up.
Qed.

(** *** The temporary file on the error path *)

Lemma keeps_file_same {A} n (m : M A) :
  (forall s, match m s with
             | Ret _ s' | Raise _ s' => files s' = files s
             | Stalled => True
             end) ->
  keeps_file n m.
Proof. intros H s Hn. specialize (H s). destruct (m s); auto; rewrite H; exact Hn. Qed.

Lemma keeps_file_bind {A B} n (m : M A) (k : A -> M B) :
  keeps_file n m -> (forall a, keeps_file n (k a)) -> keeps_file n (m ≫= k).
Proof.
  intros Hm Hk s Hn. specialize (Hm s Hn). unfold mbind, M_bind, bind.
  destruct (m s) as [a s1 | e s1 |]; auto. exact (Hk a s1 Hm).
Qed.

Lemma keeps_file_ret {A} n (a : A) : keeps_file n (mret a).
Proof. apply keeps_file_same. intros s. reflexivity. Qed.

Lemma keeps_file_raise {A} n e : keeps_file n (@raise A e).
Proof. apply keeps_file_same. intros s. reflexivity. Qed.

Lemma keeps_file_emit n ev : keeps_file n (emit ev).
Proof. apply keeps_file_same. intros s. reflexivity. Qed.

Lemma keeps_file_get_state n : keeps_file n get_state.
Proof. apply keeps_file_same. intros s. reflexivity. Qed.

Lemma keeps_file_time_time n : keeps_file n time_time.
Proof.
  apply keeps_file_same. intros s. unfold time_time. destruct (clock s); reflexivity.
Qed.

Lemma keeps_file_fault_point n : keeps_file n fault_point.
Proof.
  apply keeps_file_same. intros s. unfold fault_point.
  destruct (faults s) as [|[msg|] rest]; reflexivity.
Qed.

Lemma keeps_file_insert n name (content : State -> list chunk) :
  keeps_file n (modify (fun s => set_files (<[name := content s]> (files s)) s)).
Proof.
  intros s Hn. cbn. destruct (decide (name = n)) as [-> | Hne].
  - rewrite lookup_insert_eq. eauto.
  - rewrite lookup_insert_ne by exact Hne. exact Hn.
Qed.

Lemma keeps_file_write_read n name data : keeps_file n (write_read name data).
Proof.
  unfold write_read, open_write, file_write, open_read, file_read.
  repeat first
    [ apply keeps_file_fault_point | apply keeps_file_emit | apply keeps_file_get_state
    | apply keeps_file_ret | apply keeps_file_raise
    | apply (keeps_file_insert n name (fun _ => []))
    | apply (keeps_file_insert n name
               (fun s => (default [] (files s !! name) ++ [data])%list))
    | apply keeps_file_bind; [| intros ?]
    | match goal with |- keeps_file _ (if ?b then _ else _) => destruct b end ].
Qed.

Lemma leaves_file_of_keeps {A} n (m : M A) : keeps_file n m -> leaves_file_when_raising n m.
Proof. intros Hm s e s' Hn H. specialize (Hm s Hn). rewrite H in Hm. exact Hm. Qed.

Lemma leaves_file_bind {A B} n (m : M A) (k : A -> M B) :
  keeps_file n m -> (forall a, leaves_file_when_raising n (k a)) ->
  leaves_file_when_raising n (m ≫= k).
Proof.
  intros Hm Hk s e s' Hn H. specialize (Hm s Hn).
  apply bind_raise_inv in H as [H | (a & s1 & H1 & H)].
  - rewrite H in Hm. exact Hm.
  - rewrite H1 in Hm. exact (Hk a s1 e s' Hm H).
Qed.

(** [os.remove] that raises has removed nothing. *)
Lemma os_remove_raise name s e s' : os_remove name s = Raise e s' -> files s' = files s.
Proof.
  unfold os_remove. intros H.
  apply bind_raise_inv in H as [H | ([] & s0 & Hfp & H)].
  - unfold fault_point in H. destruct (faults s) as [|[msg|] rest]; try discriminate H.
    injection H as _ <-. reflexivity.
  - apply fault_point_ret in Hfp.
    apply bind_raise_inv in H as [H | (st & s1 & Hget & H)]; [discriminate H |].
    cbn in Hget. injection Hget as <- <-.
    destruct (file_exists name s0).
    + apply bind_raise_inv in H as [H | (u & s2 & _ & H)]; discriminate H.
    + cbn in H. injection H as _ <-. exact Hfp.
Qed.

Lemma leaves_file_os_remove_last {A} n name (a : A) :
  leaves_file_when_raising n (os_remove name ;; mret a).
Proof.
  intros s e s' Hn H.
  apply bind_raise_inv in H as [H | (u & s1 & _ & H)]; [| discriminate H].
  rewrite (os_remove_raise _ _ _ _ H). exact Hn.
Qed.

Lemma named_temporary_file_makes s n s' :
  named_temporary_file s = Ret n s' -> files s' !! n = Some [].
Proof.
  unfold named_temporary_file. intros H.
  apply bind_ret_inv in H as ([] & s0 & _ & H).
  apply bind_ret_inv in H as (n' & s1 & _ & H).
  apply bind_ret_inv in H as (u & s2 & Hmod & H).
  apply bind_ret_inv in H as (u' & s3 & Hev & H).
  cbn in Hmod, Hev, H. inversion Hmod; subst. inversion Hev; subst. inversion H; subst.
  cbn. apply lookup_insert_eq.
Qed.

Lemma open_write_makes name s s' : open_write name s = Ret tt s' -> files s' !! name = Some [].
Proof.
  unfold open_write. intros H.
  apply bind_ret_inv in H as ([] & s0 & _ & H).
  apply bind_ret_inv in H as (u & s1 & Hmod & H).
  cbn in Hmod, H. inversion Hmod; subst. inversion H; subst.
  cbn. apply lookup_insert_eq.
Qed.

(** C3.  The deletion is the last statement of the [try] block and nothing
    else removes the file: a disk probe that has made its temporary file
    and then answers its error field has left the file behind.  For the
    baseline probe the file is there once [NamedTemporaryFile] has
    returned; for the extended probe, whose [mktemp] only picks a name,
    once the first [open] has returned. *)
Theorem disk_probes_leave_file_on_error (s s1 s' : State) (n : string) (r : pydict) :
  (named_temporary_file (add_event (EvEnter "disk_benchmark") s) = Ret n s1 ->
   disk_benchmark s = Ret r s' -> dict_keys r = ["Disk Benchmark Error"] ->
   files s !! n = None /\ is_Some (files s' !! n))
  /\
  (forall start s2 s3,
     tempfile_mktemp (add_event (EvEnter "extended_disk_benchmark") s) = Ret n s1 ->
     time_time s1 = Ret start s2 -> open_write n s2 = Ret tt s3 ->
     extended_disk_benchmark s = Ret r s' -> dict_keys r = ["Error"] ->
     files s !! n = None /\ is_Some (files s' !! n)).
Proof.
  split.
  - intros Htmp H Hkey.
    split; [exact (proj1 (named_temporary_file_ret _ _ _ Htmp)) |].
    apply probe_ret_inv in H as (sx & H & ->).
    apply try_except_ret_inv in H as [H | (e & sy & Hraise & H)].
    + rewrite (bind_ret _ _ _ _ _ Htmp) in H.
      apply bind_ret_inv in H as (start & sb & _ & H).
      apply bind_ret_inv in H as ([] & sc & _ & H).
      apply bind_ret_inv in H as (now & sd & _ & H).
      apply bind_ret_inv in H as ([] & se & _ & H).
      cbn in H. injection H as <- _. discriminate Hkey.
    + cbn in H. injection H as _ <-.
      rewrite (bind_ret _ _ _ _ _ Htmp) in Hraise.
      cbn [files add_event]. revert Hraise.
      apply leaves_file_bind; [apply keeps_file_time_time | intros start |].
      * apply leaves_file_bind; [apply keeps_file_write_read | intros []].
        apply leaves_file_bind; [apply keeps_file_time_time | intros now].
        apply leaves_file_os_remove_last.
      * rewrite (named_temporary_file_makes _ _ _ Htmp). eauto.
  - intros start s2 s3 Htmp Htime Hopen H Hkey.
    split; [exact (proj1 (tempfile_mktemp_ret _ _ _ Htmp)) |].
    apply probe_ret_inv in H as (sx & H & ->).
    apply try_except_ret_inv in H as [H | (e & sy & Hraise & H)].
    + rewrite (bind_ret _ _ _ _ _ Htmp), (bind_ret _ _ _ _ _ Htime) in H.
      apply bind_ret_inv in H as ([] & sc1 & _ & H).
      apply bind_ret_inv in H as ([] & sc2 & _ & H).
      apply bind_ret_inv in H as ([] & sc3 & _ & H).
      apply bind_ret_inv in H as (now & sd & _ & H).
      apply bind_ret_inv in H as ([] & se & _ & H).
      cbn in H. injection H as <- _. discriminate Hkey.
    + cbn in H. injection H as _ <-.
      rewrite (bind_ret _ _ _ _ _ Htmp), (bind_ret _ _ _ _ _ Htime) in Hraise.
      apply bind_raise_inv in Hraise as [Hraise | ([] & sc1 & Hwr & Hraise)].
      * unfold write_read in Hraise. rewrite (bind_ret _ _ _ _ _ Hopen) in Hraise.
        cbn [files add_event]. revert Hraise.
        apply leaves_file_of_keeps.
        -- unfold file_write, open_read, file_read.
           repeat first
             [ apply keeps_file_fault_point | apply keeps_file_emit | apply keeps_file_get_state
             | apply keeps_file_ret | apply keeps_file_raise
             | apply (keeps_file_insert n n
                        (fun s => (default [] (files s !! n) ++ [extended_disk_payload])%list))
             | apply keeps_file_bind; [| intros ?]
             | match goal with |- keeps_file _ (if ?b then _ else _) => destruct b end ].
        -- rewrite (open_write_makes _ _ _ Hopen). eauto.
      * assert (Hthere : is_Some (files sc1 !! n)).
        { unfold write_read in Hwr. rewrite (bind_ret _ _ _ _ _ Hopen) in Hwr.
          pose proof (open_write_makes _ _ _ Hopen) as Hmade.
          assert (K3 : keeps_file n (file_write n extended_disk_payload ;; open_read n ;;
                                     file_read n ;; mret tt)).
          { unfold file_write, open_read, file_read.
            repeat first
              [ apply keeps_file_fault_point | apply keeps_file_emit
              | apply keeps_file_get_state | apply keeps_file_ret | apply keeps_file_raise
              | apply (keeps_file_insert n n
                         (fun s => (default [] (files s !! n) ++ [extended_disk_payload])%list))
              | apply keeps_file_bind; [| intros ?]
              | match goal with |- keeps_file _ (if ?b then _ else _) => destruct b end ]. }
          specialize (K3 s3). rewrite Hwr in K3. apply K3. rewrite Hmade. eauto. }
        cbn [files add_event]. revert Hraise.
        apply leaves_file_bind; [apply keeps_file_write_read | intros [] |].
        -- apply leaves_file_bind; [apply keeps_file_write_read | intros []].
           apply leaves_file_bind; [apply keeps_file_time_time | intros now].
           apply leaves_file_os_remove_last.
        -- exact Hthere.
Qed.

(** ** The exporters *)

Lemma no_stall_bind {A B} (m : M A) (k : A -> M B) :
  no_stall m -> (forall a, no_stall (k a)) -> no_stall (m ≫= k).
Proof.
  intros Hm Hk s. specialize (Hm s). unfold mbind, M_bind, bind.
  destruct (m s) as [a s1 | e s1 |]; [apply Hk | discriminate | contradiction].
Qed.

Lemma no_stall_ret {A} (a : A) : no_stall (mret a).
Proof. intros s. discriminate. Qed.

Lemma no_stall_raise {A} e : no_stall (@raise A e).
Proof. intros s. discriminate. Qed.

Lemma no_stall_modify f : no_stall (modify f).
Proof. intros s. discriminate. Qed.

Lemma no_stall_emit ev : no_stall (emit ev).
Proof. intros s. discriminate. Qed.

Lemma no_stall_fault_point : no_stall fault_point.
Proof. intros s. unfold fault_point. destruct (faults s) as [|[msg|] rest]; discriminate. Qed.

Lemma no_stall_open_write name : no_stall (open_write name).
Proof.
  unfold open_write.
  repeat (apply no_stall_bind; [| intros ?]);
    auto using no_stall_fault_point, no_stall_modify, no_stall_emit.
Qed.

Lemma no_stall_file_write name data : no_stall (file_write name data).
Proof.
  unfold file_write.
  repeat (apply no_stall_bind; [| intros ?]);
    auto using no_stall_fault_point, no_stall_modify, no_stall_emit.
Qed.

Lemma no_stall_for_each {A} (f : A -> M unit) l :
  Forall (fun x => no_stall (f x)) l -> no_stall (for_each f l).
Proof.
  induction 1 as [|x l Hx _ IH].
  - apply no_stall_ret.
  - apply (no_stall_bind (f x) (fun _ => for_each f l)); auto.
Qed.

Lemma no_stall_for_enumerate {A} (f : Z -> A -> M unit) l :
  Forall (fun x => forall i, no_stall (f i x)) l -> forall i, no_stall (for_enumerate f i l).
Proof.
  induction 1 as [|x l Hx _ IH]; intros i.
  - apply no_stall_ret.
  - apply (no_stall_bind (f i x) (fun _ => for_enumerate f (i + 1) l)); auto.
Qed.

Lemma write_dict_fields filename fields prefix :
  write_dict filename (VDict fields) prefix = for_each (write_field filename prefix) fields.
Proof. reflexivity. Qed.

Lemma no_stall_writerow filename row : no_stall (writerow filename row).
Proof. apply no_stall_file_write. Qed.

Lemma no_stall_write_dict_and_items filename v :
  match v with
  | VList items =>
      forall prefix i, no_stall (for_enumerate (write_item filename prefix) i items)
  | _ => forall prefix, no_stall (write_dict filename v prefix)
  end.
Proof.
  induction v as [| b | n | r | t | l IH | l IH | d IH] using value_rect';
    try (intros prefix; apply no_stall_raise).
  - intros prefix. apply no_stall_for_enumerate.
    eapply Forall_impl; [exact IH |]. intros item Hitem i. unfold write_item.
    destruct item; try apply no_stall_writerow.
    apply no_stall_bind; [apply no_stall_writerow | intros _; apply Hitem].
  - intros prefix. rewrite write_dict_fields. apply no_stall_for_each.
    eapply Forall_impl; [exact IH |]. intros [k v] Hv. unfold write_field. simpl in *.
    destruct v; try apply no_stall_writerow.
    apply no_stall_bind; [apply no_stall_writerow | intros _; apply Hv].
Qed.

Lemma no_stall_write_dict filename v prefix : no_stall (write_dict filename v prefix).
Proof.
  pose proof (no_stall_write_dict_and_items filename v) as H.
  destruct v; try apply H. apply no_stall_raise.
Qed.

Lemma no_stall_export_json_try data filename : no_stall (export_json_try data filename).
Proof.
  unfold export_json_try.
  apply no_stall_bind; [apply no_stall_open_write | intros _].
  apply no_stall_bind; [apply no_stall_file_write | intros _].
  apply no_stall_ret.
Qed.

Lemma no_stall_export_csv_try data filename : no_stall (export_csv_try data filename).
Proof.
  unfold export_csv_try.
  apply no_stall_bind; [apply no_stall_open_write | intros _].
  apply no_stall_bind; [apply no_stall_write_dict | intros _].
  apply no_stall_ret.
Qed.

Lemma try_block_reported (body : M export_result) s :
  no_stall body ->
  (forall r s', body s = Ret r s' -> r = ExportTrue) ->
  exists r s',
    try_except body (fun e => mret (ExportFailed (exn_msg e))) s = Ret r s' /\
    reported r s' (body s).
Proof.
  intros Hstall Htrue. unfold try_except. specialize (Hstall s).
  destruct (body s) as [r s' | e s' |] eqn:Hbody; [| | contradiction].
  - rewrite (Htrue r s' eq_refl). exists ExportTrue, s'. split; reflexivity.
  - exists (ExportFailed (exn_msg e)), s'. split; [reflexivity |]. exists e. auto.
Qed.

(** C8.  Whatever the record and the destination, each exporter returns:
    [True] when its [try] block ran to the end, and otherwise the text of
    the exception that left the block.  No exception leaves the
    exporter. *)
Theorem exporters_return_true_or_message (data : value) (filename : string) (s : State) :
  (exists r s', export_json data filename s = Ret r s' /\
                reported r s' (export_json_try data filename s))
  /\
  (exists r s', export_csv data filename s = Ret r s' /\
                reported r s' (export_csv_try data filename s)).
Proof.
  split; apply try_block_reported.
  - apply no_stall_export_json_try.
  - intros r s' H. unfold export_json_try in H. ret_inv H.
    cbn in H. injection H as <- _. reflexivity.
  - apply no_stall_export_csv_try.
  - intros r s' H. unfold export_csv_try in H. ret_inv H.
    cbn in H. injection H as <- _. reflexivity.
Qed.

(** ** The rows of the flat export *)

Lemma rows_written_app filename rows1 rows2 s :
  rows_written filename (rows1 ++ rows2) s
  = rows_written filename rows2 (rows_written filename rows1 s).
Proof. unfold rows_written. apply fold_left_app. Qed.

Lemma rows_written_faults filename rows : forall s,
  faults (rows_written filename rows s) = faults s.
Proof.
  induction rows as [|row rows IH]; intros s; [reflexivity |].
  simpl. rewrite IH. reflexivity.
Qed.

Lemma writerow_written filename row s :
  faults s = [] -> writerow filename row s = Ret tt (row_written filename s row).
Proof.
  intros H. unfold writerow, file_write, mbind, M_bind, bind, fault_point.
  rewrite H. reflexivity.
Qed.

Lemma for_enumerate_rows filename (rows_of : string -> value -> list (list value)) prefix items :
  Forall (fun item =>
            forall s, faults s = [] ->
              forall i, write_item filename prefix i item s
                        = Ret tt (rows_written filename
                                    (item_rows rows_of prefix i [item]) s)) items ->
  forall i s, faults s = [] ->
    for_enumerate (write_item filename prefix) i items s
    = Ret tt (rows_written filename (item_rows rows_of prefix i items) s).
Proof.
  induction 1 as [|item items Hitem _ IH]; intros i s Hs; [reflexivity |].
  cbn [for_enumerate]. erewrite bind_ret by (apply Hitem; exact Hs).
  rewrite IH by (rewrite rows_written_faults; exact Hs).
  f_equal. cbn [item_rows]. rewrite app_nil_r, rows_written_app. reflexivity.
Qed.

Lemma flat_rows_fields prefix fields :
  flat_rows prefix (VDict fields) = flat_map (field_rows prefix) fields.
Proof. reflexivity. Qed.

Lemma write_dict_rows_and_items filename v :
  match v with
  | VList items =>
      forall prefix i s, faults s = [] ->
        for_enumerate (write_item filename prefix) i items s
        = Ret tt (rows_written filename (item_rows flat_rows prefix i items) s)
  | VDict _ =>
      forall prefix s, faults s = [] ->
        write_dict filename v prefix s
        = Ret tt (rows_written filename (flat_rows prefix v) s)
  | _ => True
  end.
Proof.
  induction v as [| b | n | r | t | l IH | l IH | d IH] using value_rect'; try exact I.
  - intros prefix. apply for_enumerate_rows.
    eapply Forall_impl; [exact IH |]. intros item Hitem s Hs i.
    unfold write_item. cbn [item_rows]. rewrite app_nil_r.
    destruct item; try (apply writerow_written; exact Hs).
    erewrite bind_ret by (apply writerow_written; exact Hs).
    rewrite Hitem by exact Hs. reflexivity.
  - intros prefix. rewrite write_dict_fields, flat_rows_fields.
    induction IH as [|[k v] fields Hv _ IHfields]; intros s Hs; [reflexivity |].
    cbn [for_each flat_map]. rewrite rows_written_app.
    assert (Hfield : write_field filename prefix (k, v) s
                     = Ret tt (rows_written filename (field_rows prefix (k, v)) s)).
    { unfold write_field, field_rows. cbn [fst snd] in *.
      destruct v; try (apply writerow_written; exact Hs).
      erewrite bind_ret by (apply writerow_written; exact Hs).
      rewrite Hv by exact Hs. reflexivity. }
    erewrite bind_ret by exact Hfield.
    apply IHfields. rewrite rows_written_faults. exact Hs.
Qed.

(** With no I/O fault pending, [write_dict] writes the rows of [flat_rows],
    in that order, and nothing else. *)
Lemma write_dict_writes_flat_rows filename fields prefix s :
  faults s = [] ->
  write_dict filename (VDict fields) prefix s
  = Ret tt (rows_written filename (flat_rows prefix (VDict fields)) s).
Proof. apply (write_dict_rows_and_items filename (VDict fields)). Qed.

Lemma rows_written_file filename rows : forall s content,
  files s !! filename = Some content ->
  files (rows_written filename rows s) !! filename
  = Some (content ++ map (fun row => Chars (csv_line row)) rows)%list.
Proof.
  induction rows as [|row rows IH]; intros s content Hs.
  - simpl. rewrite app_nil_r. exact Hs.
  - simpl. rewrite (IH _ (content ++ [Chars (csv_line row)])%list).
    + rewrite <- app_assoc. reflexivity.
    + cbn. rewrite lookup_insert_eq, Hs. reflexivity.
Qed.

(** C4.  The flat exporter writes the rows the specification describes:
    with no I/O fault pending, [write_dict] writes exactly the rows of
    [flat_rows], in order; and the example record is exported as the six
    lines [A,1], [B], [  Item 1], [    C,2], [  Item 2], [    C,3]. *)
Theorem flat_export_writes_described_rows (filename : string) (s : State) :
  faults s = [] ->
  (forall fields prefix,
     write_dict filename (VDict fields) prefix s
     = Ret tt (rows_written filename (flat_rows prefix (VDict fields)) s))
  /\
  flat_rows EmptyString flat_example
  = [[VStr "A"; VInt 1]; [VStr "B"]; [VStr "  Item 1"]; [VStr "    C"; VInt 2];
     [VStr "  Item 2"]; [VStr "    C"; VInt 3]]
  /\
  exists s',
    export_csv flat_example filename s = Ret ExportTrue s' /\
    files s' !! filename
    = Some [Chars ("A,1" ++ crlf); Chars ("B" ++ crlf); Chars ("  Item 1" ++ crlf);
            Chars ("    C,2" ++ crlf); Chars ("  Item 2" ++ crlf);
            Chars ("    C,3" ++ crlf)].
Proof.
  intros Hs. split; [| split].
  - intros fields prefix. apply write_dict_writes_flat_rows. exact Hs.
  - reflexivity.
  - eexists. split.
    + unfold export_csv, try_except, export_csv_try.
      erewrite bind_ret; cycle 1.
      { unfold open_write, mbind, M_bind, bind, fault_point. rewrite Hs. reflexivity. }
      erewrite bind_ret; cycle 1.
      { apply write_dict_writes_flat_rows. exact Hs. }
      reflexivity.
    + rewrite (rows_written_file _ _ _ []); [reflexivity |].
      cbn. apply lookup_insert_eq.
Qed.

(** C9.  A dict that is the value of a field, not an element of a list,
    is not entered: the field is written as the single row
    [(prefix + key, the dict)], whose second cell is the text [str] gives
    for the whole dict. *)
Theorem nested_dict_field_is_one_row
    (filename : string) (before after : pydict) (k : string) (inner : pydict)
    (prefix : string) (s : State) :
  faults s = [] ->
  write_dict filename (VDict (before ++ (k, VDict inner) :: after)) prefix s
  = Ret tt (rows_written filename
              (flat_rows prefix (VDict before)
               ++ [[VStr (prefix ++ k); VDict inner]]
               ++ flat_rows prefix (VDict after)) s)
  /\
  csv_line [VStr (prefix ++ k); VDict inner]
  = (csv_field (VStr (prefix ++ k)) ++ "," ++ csv_field (VDict inner)) ++ crlf
  /\
  csv_text (VDict inner) = py_repr (VDict inner).
Proof.
  intros Hs. split; [| split].
  - rewrite write_dict_writes_flat_rows by exact Hs.
    rewrite !flat_rows_fields, flat_map_app. reflexivity.
  - unfold csv_line. cbn [map join].
    destruct (String.eqb_spec (csv_field (VStr (prefix ++ k)) ++ "," ++ csv_field (VDict inner))
                              EmptyString) as [Heq | _]; [| reflexivity].
    exfalso. destruct (csv_field (VStr (prefix ++ k))); discriminate Heq.
  - reflexivity.
Qed.

(** ** Round trip through JSON *)

Lemma append_cons c (a b : string) : String c a ++ b = String c (a ++ b).
Proof. reflexivity. Qed.

Lemma append_nil (b : string) : EmptyString ++ b = b.
Proof. reflexivity. Qed.

Ltac sapp := repeat (rewrite append_cons || rewrite append_nil).
Ltac sapp_in H := repeat (rewrite append_cons in H || rewrite append_nil in H).

Lemma string_app_assoc (a b c : string) : (a ++ b) ++ c = a ++ (b ++ c).
Proof. induction a as [|x a IH]; sapp; [reflexivity | rewrite IH; reflexivity]. Qed.

Lemma string_app_nil_r (a : string) : a ++ EmptyString = a.
Proof. induction a as [|x a IH]; sapp; [reflexivity | rewrite IH; reflexivity]. Qed.

Lemma string_length_app (a b : string) :
  String.length (a ++ b) = (String.length a + String.length b)%nat.
Proof. induction a as [|x a IH]; sapp; simpl; [reflexivity | rewrite IH; reflexivity]. Qed.

(** *** Strings *)

Lemma scan_string_escape_char (c : ascii) (t : string) :
  scan_string (json_escape_char c ++ t)
  = match scan_string t with
    | Some (text, after) => Some (String c text, after)
    | None => None
    end.
Proof.
  destruct c as [[] [] [] [] [] [] [] []]; reflexivity.
Qed.

Lemma scan_string_escape (s rest : string) :
  scan_string (json_escape s ++ String dquote rest) = Some (s, rest).
Proof.
  induction s as [|c s IH]; [reflexivity |].
  cbn [json_escape]. rewrite string_app_assoc, scan_string_escape_char, IH. reflexivity.
Qed.

(** *** White space *)

Lemma skip_ws_spaces n t : skip_ws (spaces n ++ t) = skip_ws t.
Proof. induction n as [|n IH]; [reflexivity | exact IH]. Qed.

Lemma skip_ws_newline_indent level t : skip_ws (newline_indent level ++ t) = skip_ws t.
Proof. unfold newline_indent. rewrite append_cons. cbn [skip_ws is_ws]. apply skip_ws_spaces. Qed.

Lemma skip_ws_head c t : is_ws c = false -> skip_ws (String c t) = String c t.
Proof. intros H. simpl. rewrite H. reflexivity. Qed.

(** *** Numbers *)

Lemma digit_cases c :
  is_digit c = true ->
  c = "0"%char \/ c = "1"%char \/ c = "2"%char \/ c = "3"%char \/ c = "4"%char \/
  c = "5"%char \/ c = "6"%char \/ c = "7"%char \/ c = "8"%char \/ c = "9"%char.
Proof.
  destruct c as [[] [] [] [] [] [] [] []]; intros H; try discriminate H; tauto.
Qed.

Lemma delimiter_cases rest :
  delimiter_next rest = true ->
  rest = EmptyString \/ exists c t, rest = String c t /\ (c = "," \/ c = "010")%char.
Proof.
  destruct rest as [|c t]; [auto |]. simpl. intros H. right. exists c, t. split; [reflexivity |].
  apply orb_true_iff in H as [H | H]; apply Ascii.eqb_eq in H; auto.
Qed.

Ltac delimiter_cases H :=
  apply delimiter_cases in H as [-> | (? & ? & -> & [-> | ->])].

Lemma take_digits_app x rest :
  delimiter_next rest = true ->
  take_digits (x ++ rest) = let '(ds, after) := take_digits x in (ds, after ++ rest).
Proof.
  intros H. induction x as [|c x IH]; sapp.
  - delimiter_cases H; reflexivity.
  - cbn [take_digits]. destruct (is_digit c); [| reflexivity].
    rewrite IH. destruct (take_digits x). reflexivity.
Qed.

Lemma scan_sign_app x rest :
  delimiter_next rest = true ->
  scan_sign (x ++ rest) = let '(sign, after) := scan_sign x in (sign, after ++ rest).
Proof.
  intros H. destruct x as [|c x]; sapp.
  - delimiter_cases H; reflexivity.
  - cbn [scan_sign]. destruct (Ascii.eqb c "-"); reflexivity.
Qed.

Lemma scan_int_part_app x rest :
  delimiter_next rest = true ->
  scan_int_part (x ++ rest)
  = match scan_int_part x with
    | Some (int_part, after) => Some (int_part, after ++ rest)
    | None => None
    end.
Proof.
  intros H. destruct x as [|c x]; sapp.
  - delimiter_cases H; reflexivity.
  - cbn [scan_int_part]. destruct (Ascii.eqb c "0"); [reflexivity |].
    destruct (is_digit c); [| reflexivity].
    rewrite take_digits_app by exact H. destruct (take_digits x). reflexivity.
Qed.

Lemma scan_fraction_app x rest :
  delimiter_next rest = true ->
  scan_fraction (x ++ rest) = let '(frac, after) := scan_fraction x in (frac, after ++ rest).
Proof.
  intros H. destruct x as [|c x]; sapp.
  - delimiter_cases H; reflexivity.
  - cbn [scan_fraction]. destruct (Ascii.eqb c "."); [| reflexivity].
    rewrite take_digits_app by exact H. destruct (take_digits x) as [[|d ds] after]; reflexivity.
Qed.

Lemma scan_exponent_app x rest :
  delimiter_next rest = true ->
  scan_exponent (x ++ rest)
  = let '(exponent, after) := scan_exponent x in (exponent, after ++ rest).
Proof.
  intros H. destruct x as [|e x]; sapp.
  - delimiter_cases H; reflexivity.
  - cbn [scan_exponent]. destruct (Ascii.eqb e "e" || Ascii.eqb e "E"); [| reflexivity].
    destruct x as [|c x]; sapp.
    + pose proof (take_digits_app EmptyString rest H) as Htd. sapp_in Htd.
      delimiter_cases H; reflexivity.
    + destruct (Ascii.eqb c "-" || Ascii.eqb c "+").
      * rewrite take_digits_app by exact H.
        destruct (take_digits x) as [[|d ds] after]; reflexivity.
      * rewrite <- append_cons, take_digits_app by exact H.
        destruct (take_digits (String c x)) as [[|d ds] after]; reflexivity.
Qed.

Lemma scan_number_app x rest :
  delimiter_next rest = true ->
  scan_number (x ++ rest)
  = match scan_number x with
    | Some (v, after) => Some (v, after ++ rest)
    | None => None
    end.
Proof.
  intros H. unfold scan_number.
  rewrite scan_sign_app by exact H. destruct (scan_sign x) as [sign s1].
  rewrite scan_int_part_app by exact H.
  destruct (scan_int_part s1) as [[int_part s2] |]; [| reflexivity].
  rewrite scan_fraction_app by exact H. destruct (scan_fraction s2) as [frac s3].
  rewrite scan_exponent_app by exact H. destruct (scan_exponent s3) as [exponent s4].
  destruct (String.eqb frac EmptyString && String.eqb exponent EmptyString); [| reflexivity].
  destruct (int_of_text (sign ++ int_part)); reflexivity.
Qed.

Lemma take_digits_uint d :
  take_digits (NilEmpty.string_of_uint d) = (NilEmpty.string_of_uint d, EmptyString).
Proof. induction d; simpl; try rewrite IHd; reflexivity. Qed.

Lemma to_uint_head_nonzero p d : Pos.to_uint p <> Decimal.D0 d.
Proof.
  assert (Hnorm : Decimal.unorm (Pos.to_uint p) = Pos.to_uint p).
  { rewrite <- (DecimalPos.Unsigned.to_of (Pos.to_uint p)), DecimalPos.Unsigned.of_to.
    reflexivity. }
  intros Heq.
  assert (Hcases : Decimal.nzhead (Pos.to_uint p) = Decimal.Nil \/
                   Decimal.nzhead (Pos.to_uint p) <> Decimal.Nil).
  { destruct (Decimal.nzhead (Pos.to_uint p)); [left; reflexivity | right; discriminate ..]. }
  destruct Hcases as [Hnil | Hnn].
  - unfold Decimal.unorm in Hnorm. rewrite Hnil in Hnorm.
    apply (DecimalPos.Unsigned.to_uint_nonzero p). symmetry. exact Hnorm.
  - rewrite DecimalFacts.unorm_nzhead in Hnorm by exact Hnn.
    apply (DecimalFacts.nzhead_nonzero (Pos.to_uint p) d). rewrite Hnorm. exact Heq.
Qed.

Lemma int_of_text_string_of_Z z : int_of_text (string_of_Z z) = Some z.
Proof.
  unfold int_of_text, string_of_Z. rewrite NilZero.isi.
  - simpl. rewrite DecimalZ.of_to. reflexivity.
  - destruct z; simpl; try discriminate.
    intros H. injection H as H. exact (DecimalPos.Unsigned.to_uint_nonnil p H).
  - destruct z; simpl; try discriminate.
    intros H. injection H as H. exact (DecimalPos.Unsigned.to_uint_nonnil p H).
Qed.

(** The text of a positive number: a non-zero digit, then digits. *)
Lemma string_of_uint_shape p :
  exists c ds,
    NilZero.string_of_uint (Pos.to_uint p) = String c ds /\
    is_digit c = true /\ Ascii.eqb c "0" = false /\ Ascii.eqb c "-" = false /\
    take_digits ds = (ds, EmptyString).
Proof.
  pose proof (to_uint_head_nonzero p) as Hhead.
  destruct (Pos.to_uint p) as [| d | d | d | d | d | d | d | d | d | d] eqn:Hp;
    [ exfalso; exact (DecimalPos.Unsigned.to_uint_nonnil p Hp)
    | exfalso; exact (Hhead d eq_refl)
    | .. ];
    eexists _, (NilEmpty.string_of_uint d);
    (split; [reflexivity |]); repeat (split; [reflexivity |]); apply take_digits_uint.
Qed.

Lemma scan_number_unsigned sign c ds :
  scan_sign (sign ++ String c ds) = (sign, String c ds) ->
  is_digit c = true -> Ascii.eqb c "0" = false ->
  take_digits ds = (ds, EmptyString) ->
  scan_number (sign ++ String c ds)
  = match int_of_text (sign ++ String c ds) with
    | Some n => Some (VInt n, EmptyString)
    | None => None
    end.
Proof.
  intros Hsign Hdigit Hzero Hds. unfold scan_number. rewrite Hsign.
  cbn [scan_int_part]. rewrite Hzero, Hdigit, Hds. reflexivity.
Qed.

Lemma scan_number_string_of_Z z : scan_number (string_of_Z z) = Some (VInt z, EmptyString).
Proof.
  pose proof (int_of_text_string_of_Z z) as Hint. unfold string_of_Z in *.
  destruct z as [| p | p]; [reflexivity | |]; cbn [Z.to_int NilZero.string_of_int] in *;
    destruct (string_of_uint_shape p) as (c & ds & Heq & Hdigit & Hzero & Hminus & Hds);
    rewrite Heq in *.
  - rewrite <- (append_nil (String c ds)), scan_number_unsigned; auto.
    + rewrite append_nil, Hint. reflexivity.
    + rewrite append_nil. cbn [scan_sign]. rewrite Hminus. reflexivity.
  - change (String "-" (String c ds)) with ("-" ++ String c ds) in *.
    rewrite scan_number_unsigned; auto. rewrite Hint. reflexivity.
Qed.

Lemma scan_number_head s r :
  scan_number s = Some r ->
  exists c t, s = String c t /\ (c = "-"%char \/ is_digit c = true).
Proof.
  unfold scan_number. destruct s as [|c t]; [discriminate |]. intros H.
  exists c, t. split; [reflexivity |]. cbn [scan_sign] in H.
  destruct (Ascii.eqb_spec c "-") as [-> | _]; [auto |]. right.
  cbn [scan_int_part] in H.
  destruct (Ascii.eqb_spec c "0") as [-> | _]; [reflexivity |].
  destruct (is_digit c); [reflexivity | discriminate H].
Qed.

(** At a sign or a digit, [scan_once] gives what the number scanner gives. *)
Lemma scan_once_number fuel s r :
  scan_number s = Some r -> scan_once (S fuel) s = Some r.
Proof.
  intros H. destruct (scan_number_head s r H) as (c & t & -> & Hc).
  assert (Hcases : c = "-"%char \/ c = "0"%char \/ c = "1"%char \/ c = "2"%char \/
                   c = "3"%char \/ c = "4"%char \/ c = "5"%char \/ c = "6"%char \/
                   c = "7"%char \/ c = "8"%char \/ c = "9"%char).
  { destruct Hc as [-> | Hc]; [auto | right; apply digit_cases; exact Hc]. }
  repeat (destruct Hcases as [-> | Hcases]);
    try subst c; cbn [scan_once Ascii.eqb Bool.eqb dquote]; unfold scan_constant;
    cbn [strip_prefix Ascii.eqb Bool.eqb]; rewrite H; reflexivity.
Qed.

Lemma scan_once_int fuel z rest :
  delimiter_next rest = true ->
  scan_once (S fuel) (string_of_Z z ++ rest) = Some (VInt z, rest).
Proof.
  intros H. apply scan_once_number.
  rewrite scan_number_app, scan_number_string_of_Z by exact H. reflexivity.
Qed.

Lemma float_repr_cases r :
  float_repr r = true ->
  scan_number r = Some (VFloat r, EmptyString) \/ r = "inf" \/ r = "-inf".
Proof.
  unfold float_repr.
  destruct (scan_number r) as [[v after] |] eqn:Hscan.
  - destruct v; try (intros H; apply orb_true_iff in H as [H | H];
                     apply String.eqb_eq in H; subst r; discriminate Hscan).
    destruct after.
    + intros H. apply String.eqb_eq in H. subst. auto.
    + intros H; apply orb_true_iff in H as [H | H];
        apply String.eqb_eq in H; subst r; discriminate Hscan.
  - intros H. apply orb_true_iff in H as [H | H]; apply String.eqb_eq in H; auto.
Qed.

Lemma scan_once_float fuel r rest :
  float_repr r = true -> delimiter_next rest = true ->
  scan_once (S fuel) (json_float r ++ rest) = Some (VFloat r, rest).
Proof.
  intros Hr H. apply float_repr_cases in Hr as [Hscan | [-> | ->]].
  - assert (Hplain : json_float r = r).
    { unfold json_float.
      destruct (String.eqb_spec r "nan") as [-> | _]; [discriminate Hscan |].
      destruct (String.eqb_spec r "inf") as [-> | _]; [discriminate Hscan |].
      destruct (String.eqb_spec r "-inf") as [-> | _]; [discriminate Hscan |].
      reflexivity. }
    rewrite Hplain. apply scan_once_number.
    rewrite scan_number_app, Hscan by exact H. reflexivity.
  - reflexivity.
  - reflexivity.
Qed.

(** *** Values *)

Lemma json_encode_list level x l :
  json_encode level (VList (x :: l))
  = "[" ++ (newline_indent (S level)
            ++ json_items (json_encode (S level)) (list_sep level) (newline_indent level)
                 (x :: l)) ++ "]".
Proof. reflexivity. Qed.

Lemma json_encode_dict level kv d :
  json_encode level (VDict (kv :: d))
  = "{" ++ (newline_indent (S level)
            ++ json_items (member_text level) (list_sep level) (newline_indent level)
                 (kv :: d)) ++ "}".
Proof. reflexivity. Qed.

Lemma json_items_cons {A} (encode : A -> string) sep closing x l :
  json_items encode sep closing (x :: l) = encode x ++ items_tail encode sep closing l.
Proof. destruct l; reflexivity. Qed.

Lemma string_of_Z_head z :
  exists c t, string_of_Z z = String c t /\ (c = "-"%char \/ is_digit c = true).
Proof. apply (scan_number_head _ _ (scan_number_string_of_Z z)). Qed.

(** The text of a Fact Record starts with a character that is neither
    white space nor a closing bracket. *)
Lemma json_encode_head level v :
  fact_record v = true ->
  exists c t, json_encode level v = String c t /\
              is_ws c = false /\ Ascii.eqb c "]" = false /\ Ascii.eqb c "}" = false.
Proof.
  assert (Hsign : forall c, c = "-"%char \/ is_digit c = true ->
                   is_ws c = false /\ Ascii.eqb c "]" = false /\ Ascii.eqb c "}" = false).
  { intros c [-> | Hc]; [repeat split |].
    apply digit_cases in Hc.
    repeat (destruct Hc as [-> | Hc]); try subst c; repeat split. }
  intros Hv. destruct v as [| [] | n | r | s | l | l | d]; try discriminate Hv;
    try (eexists _, _; repeat split; reflexivity).
  - destruct (string_of_Z_head n) as (c & t & Heq & Hc).
    exists c, t. split; [exact Heq | apply Hsign, Hc].
  - apply float_repr_cases in Hv as [Hscan | [-> | ->]];
      try (eexists _, _; repeat split; reflexivity).
    destruct (scan_number_head _ _ Hscan) as (c & t & -> & Hc).
    assert (Hplain : json_float (String c t) = String c t).
    { unfold json_float.
      destruct (String.eqb_spec (String c t) "nan") as [Heq | _];
        [rewrite Heq in Hscan; discriminate Hscan |].
      destruct (String.eqb_spec (String c t) "inf") as [Heq | _];
        [rewrite Heq in Hscan; discriminate Hscan |].
      destruct (String.eqb_spec (String c t) "-inf") as [Heq | _];
        [rewrite Heq in Hscan; discriminate Hscan |].
      reflexivity. }
    exists c, t. split; [exact Hplain | apply Hsign, Hc].
  - destruct l; eexists _, _; repeat split; reflexivity.
  - destruct d; eexists _, _; repeat split; reflexivity.
Qed.

Lemma skip_ws_json_encode level v rest :
  fact_record v = true ->
  skip_ws (json_encode level v ++ rest) = json_encode level v ++ rest.
Proof.
  intros Hv. destruct (json_encode_head level v Hv) as (c & t & -> & Hws & _).
  rewrite append_cons. apply skip_ws_head, Hws.
Qed.

Lemma dict_set_new (d : pydict) k v :
  existsb (String.eqb k) (map fst d) = false -> dict_set d k v = (d ++ [(k, v)])%list.
Proof.
  induction d as [|[k' v'] d IH]; [reflexivity |]. cbn [map fst existsb dict_set].
  intros H. apply orb_false_iff in H as [Hk Hd].
  rewrite String.eqb_sym, Hk, IH by exact Hd. reflexivity.
Qed.

Lemma distinct_app_cons keys k rest :
  distinct (keys ++ k :: rest) = true ->
  existsb (String.eqb k) keys = false /\ distinct ((keys ++ [k]) ++ rest) = true.
Proof.
  intros H. split.
  - induction keys as [|k' keys IH]; [reflexivity |].
    cbn [app distinct] in H. apply andb_true_iff in H as [Hk' Hrest].
    cbn [existsb]. rewrite (IH Hrest), orb_false_r.
    apply negb_true_iff in Hk'. rewrite existsb_app in Hk'.
    apply orb_false_iff in Hk' as [_ Hk']. cbn [existsb] in Hk'.
    apply orb_false_iff in Hk' as [Hk' _]. rewrite String.eqb_sym. exact Hk'.
  - rewrite <- app_assoc. exact H.
Qed.

Lemma scan_elements_step fuel s acc :
  scan_elements (S fuel) s acc
  = match scan_once fuel s with
    | Some (v, after_value) =>
        match skip_ws after_value with
        | String c rest =>
            if Ascii.eqb c "]" then Some (VList (acc ++ [v]), rest)
            else if Ascii.eqb c "," then scan_elements fuel (skip_ws rest) (acc ++ [v])
            else None
        | EmptyString => None
        end
    | None => None
    end.
Proof. reflexivity. Qed.

Lemma scan_members_step fuel key t pairs :
  scan_members (S fuel) (json_escape key ++ String dquote (": " ++ t)) pairs
  = match scan_once fuel (skip_ws t) with
    | Some (v, after_value) =>
        match skip_ws after_value with
        | String c rest =>
            if Ascii.eqb c "}" then Some (VDict (dict_set pairs key v), rest)
            else if Ascii.eqb c "," then
              match skip_ws rest with
              | String c' rest' =>
                  if Ascii.eqb c' dquote
                  then scan_members fuel rest' (dict_set pairs key v) else None
              | EmptyString => None
              end
            else None
        | EmptyString => None
        end
    | None => None
    end.
Proof.
  cbn [scan_members]. rewrite scan_string_escape. reflexivity.
Qed.

Lemma scan_once_array fuel t :
  scan_once (S fuel) (String "[" t)
  = match skip_ws t with
    | String c' rest' =>
        if Ascii.eqb c' "]" then Some (VList [], rest')
        else scan_elements fuel (String c' rest') []
    | EmptyString => None
    end.
Proof. reflexivity. Qed.

Lemma scan_once_object fuel t :
  scan_once (S fuel) (String "{" t)
  = match skip_ws t with
    | String c' rest' =>
        if Ascii.eqb c' "}" then Some (VDict [], rest')
        else if Ascii.eqb c' dquote then scan_members fuel rest' []
        else None
    | EmptyString => None
    end.
Proof. reflexivity. Qed.

Lemma scan_once_string fuel s rest :
  scan_once (S fuel) (json_string s ++ rest) = Some (VStr s, rest).
Proof.
  unfold json_string. rewrite append_cons. cbn [scan_once Ascii.eqb Bool.eqb dquote].
  rewrite string_app_assoc, append_cons, append_nil.
  change (String "034" rest) with (String dquote rest).
  rewrite scan_string_escape. reflexivity.
Qed.

Lemma delimiter_next_items_tail {A} (encode : A -> string) level l t :
  delimiter_next (items_tail encode (list_sep level) (newline_indent level) l ++ t) = true.
Proof. destruct l; reflexivity. Qed.

Lemma scan_elements_items l :
  Forall round_trips l ->
  forall x level fuel acc rest,
    round_trips x ->
    forallb fact_record (x :: l) = true ->
    (elements_weight (x :: l) <= fuel)%nat ->
    scan_elements fuel
      (json_items (json_encode (S level)) (list_sep level) (newline_indent level) (x :: l)
       ++ String "]" rest) acc
    = Some (VList (acc ++ x :: l), rest).
Proof.
  induction 1 as [|y l Hy _ IH]; intros x level fuel acc rest Hx Hwf Hfuel;
    cbn [forallb] in Hwf; apply andb_true_iff in Hwf as [Hwfx Hwf];
    (destruct fuel as [|fuel];
       [unfold elements_weight in Hfuel; cbn [fold_right] in Hfuel; lia |]);
    rewrite json_items_cons, string_app_assoc, scan_elements_step.
  - unfold elements_weight in Hfuel. cbn [fold_right] in Hfuel.
    rewrite Hx; [| exact Hwfx | lia | reflexivity].
    cbn [items_tail]. rewrite skip_ws_newline_indent.
    cbn [skip_ws is_ws Ascii.eqb Bool.eqb orb]. reflexivity.
  - unfold elements_weight in Hfuel. cbn [fold_right] in Hfuel.
    rewrite Hx; [| exact Hwfx | lia | apply delimiter_next_items_tail].
    cbn [items_tail]. unfold list_sep at 1.
    rewrite !string_app_assoc, append_cons, append_nil.
    cbn [skip_ws is_ws Ascii.eqb Bool.eqb orb].
    rewrite skip_ws_newline_indent.
    cbn [forallb] in Hwf. pose proof Hwf as Hwf'. apply andb_true_iff in Hwf' as [Hwfy _].
    rewrite json_items_cons, string_app_assoc, skip_ws_json_encode by exact Hwfy.
    rewrite <- string_app_assoc, <- json_items_cons.
    rewrite IH; [| exact Hy | exact Hwf | unfold elements_weight; cbn [fold_right]; lia].
    rewrite <- app_assoc. reflexivity.
Qed.

Lemma member_text_shape level k v t :
  member_text level (k, v) ++ t
  = String dquote (json_escape k ++ String dquote (": " ++ (json_encode (S level) v ++ t))).
Proof.
  unfold member_text, json_string. cbn [fst snd].
  rewrite !append_cons, !string_app_assoc, !append_cons, append_nil. reflexivity.
Qed.

Lemma scan_members_items d :
  Forall (fun kv => round_trips (snd kv)) d ->
  forall k v level fuel acc rest,
    round_trips v ->
    forallb (fun kv => fact_record (snd kv)) ((k, v) :: d) = true ->
    distinct (map fst acc ++ k :: map fst d) = true ->
    (members_weight ((k, v) :: d) <= fuel)%nat ->
    scan_members fuel
      (json_escape k ++ String dquote
         (": " ++ (json_encode (S level) v
                   ++ (items_tail (member_text level) (list_sep level) (newline_indent level) d
                       ++ String "}" rest)))) acc
    = Some (VDict (acc ++ (k, v) :: d), rest).
Proof.
  induction 1 as [|[k' v'] d Hv' _ IH]; intros k v level fuel acc rest Hv Hwf Hkeys Hfuel;
    cbn [forallb snd] in Hwf; apply andb_true_iff in Hwf as [Hwfv Hwf];
    unfold members_weight in Hfuel; cbn [fold_right snd] in Hfuel;
    (destruct fuel as [|fuel]; [lia |]);
    apply distinct_app_cons in Hkeys as [Hnew Hkeys];
    rewrite scan_members_step, skip_ws_json_encode by exact Hwfv.
  - rewrite Hv; [| exact Hwfv | lia | reflexivity].
    cbn [items_tail]. rewrite skip_ws_newline_indent.
    cbn [skip_ws is_ws Ascii.eqb Bool.eqb orb].
    rewrite dict_set_new by exact Hnew. reflexivity.
  - rewrite Hv; [| exact Hwfv | lia | apply delimiter_next_items_tail].
    cbn [items_tail]. unfold list_sep at 1.
    rewrite !string_app_assoc, append_cons, append_nil.
    cbn [skip_ws is_ws Ascii.eqb Bool.eqb orb].
    rewrite skip_ws_newline_indent, json_items_cons, string_app_assoc, member_text_shape.
    cbn [skip_ws is_ws Ascii.eqb Bool.eqb orb dquote].
    rewrite dict_set_new by exact Hnew.
    change (Ascii false true false false false true false false) with dquote.
    rewrite IH.
    + rewrite <- app_assoc. reflexivity.
    + exact Hv'.
    + exact Hwf.
    + rewrite map_app. exact Hkeys.
    + unfold members_weight. cbn [fold_right snd]. lia.
Qed.

Lemma json_encode_round_trips v : round_trips v.
Proof.
  induction v as [| b | n | r | t | l IH | l IH | d IH] using value_rect';
    intros level fuel rest Hwf Hfuel Hrest;
    (destruct fuel as [|fuel]; [cbn in Hfuel; lia |]).
  - reflexivity.
  - destruct b; reflexivity.
  - apply scan_once_int. exact Hrest.
  - apply scan_once_float; assumption.
  - apply scan_once_string.
  - destruct l as [|x l]; [reflexivity |].
    apply Forall_cons in IH as [Hx Hl].
    rewrite json_encode_list, !string_app_assoc. sapp.
    rewrite scan_once_array, skip_ws_newline_indent.
    pose proof Hwf as Hwf'. cbn [fact_record forallb] in Hwf'.
    apply andb_true_iff in Hwf' as [Hwfx _].
    destruct (json_encode_head (S level) x Hwfx) as (c & tl & Hhead & Hws & Hbracket & _).
    assert (Htext :
      json_items (json_encode (S level)) (list_sep level) (newline_indent level) (x :: l)
      ++ String "]" rest
      = String c (tl ++ items_tail (json_encode (S level)) (list_sep level)
                          (newline_indent level) l ++ String "]" rest)).
    { rewrite json_items_cons, Hhead, !string_app_assoc, append_cons. reflexivity. }
    rewrite Htext. cbn [skip_ws]. rewrite Hws, Hbracket, <- Htext.
    apply (scan_elements_items l Hl x level fuel [] rest Hx Hwf).
    cbn [weight] in Hfuel. unfold elements_weight. lia.
  - discriminate Hwf.
  - destruct d as [|[k v] d]; [reflexivity |].
    apply Forall_cons in IH as [Hv Hd]. cbn [snd] in Hv.
    rewrite json_encode_dict, !string_app_assoc. sapp.
    rewrite scan_once_object, skip_ws_newline_indent.
    cbn [fact_record] in Hwf. apply andb_true_iff in Hwf as [Hkeys Hwf].
    rewrite json_items_cons, string_app_assoc, member_text_shape.
    cbn [skip_ws is_ws Ascii.eqb Bool.eqb orb dquote].
    change (Ascii false true false false false true false false) with dquote.
    apply (scan_members_items d Hd k v level fuel [] rest Hv Hwf Hkeys).
    cbn [weight] in Hfuel. unfold members_weight. lia.
Qed.

Lemma json_items_length {A} (encode : A -> string) (w : A -> nat) sep closing l :
  (1 <= String.length sep)%nat -> (1 <= String.length closing)%nat ->
  Forall (fun x => (w x <= String.length (encode x))%nat) l ->
  (fold_right (fun x n => S (w x + n)) O l
   <= String.length (json_items encode sep closing l))%nat.
Proof.
  intros Hsep Hclosing. induction 1 as [|x l Hx Hl IH].
  - cbn. lia.
  - rewrite json_items_cons, string_length_app. cbn [fold_right].
    destruct l as [|y l]; cbn [items_tail].
    + cbn [fold_right]. lia.
    + rewrite string_length_app. lia.
Qed.

Lemma list_sep_nonempty level : (1 <= String.length (list_sep level))%nat.
Proof. unfold list_sep. sapp. cbn [String.length]. lia. Qed.

Lemma newline_indent_nonempty level : (1 <= String.length (newline_indent level))%nat.
Proof. unfold newline_indent. cbn [String.length]. lia. Qed.

Lemma weight_le_length v : forall level,
  fact_record v = true -> (weight v <= String.length (json_encode level v))%nat.
Proof.
  induction v as [| b | n | r | t | l IH | l IH | d IH] using value_rect';
    intros level Hwf;
    try (destruct (json_encode_head level _ Hwf) as (c & tl & -> & _); cbn; lia).
  - destruct l as [|x l]; [cbn; lia |].
    rewrite json_encode_list. sapp. cbn [String.length weight]. rewrite !string_length_app.
    cbn [fact_record] in Hwf.
    assert (Hlen : (fold_right (fun x n => S (weight x + n)) O (x :: l)
                    <= String.length
                         (json_items (json_encode (S level)) (list_sep level)
                            (newline_indent level) (x :: l)))%nat).
    { apply (json_items_length (json_encode (S level)) weight);
        [apply list_sep_nonempty | apply newline_indent_nonempty |].
      apply Forall_forall. intros y Hy. rewrite Forall_forall in IH.
      apply IH; [exact Hy |]. rewrite forallb_forall in Hwf. apply Hwf.
      apply list_elem_of_In. exact Hy. }
    lia.
  - discriminate Hwf.
  - destruct d as [|kv d]; [cbn; lia |].
    rewrite json_encode_dict. sapp. cbn [String.length weight]. rewrite !string_length_app.
    cbn [fact_record] in Hwf. apply andb_true_iff in Hwf as [_ Hwf].
    assert (Hlen : (fold_right (fun kv n => S (weight (snd kv) + n)) O (kv :: d)
                    <= String.length
                         (json_items (member_text level) (list_sep level)
                            (newline_indent level) (kv :: d)))%nat).
    { apply (json_items_length (member_text level) (fun kv => weight (snd kv)));
        [apply list_sep_nonempty | apply newline_indent_nonempty |].
      apply Forall_forall. intros [k v] Hkv. rewrite Forall_forall in IH.
      unfold member_text. cbn [fst snd]. rewrite !string_length_app.
      specialize (IH (k, v) Hkv (S level)). cbn [snd] in IH.
      rewrite forallb_forall in Hwf.
      specialize (Hwf (k, v) (proj1 (list_elem_of_In _ _) Hkv)). cbn [snd] in Hwf.
      specialize (IH Hwf). lia. }
    lia.
Qed.

(** The text [json.dump] writes for a Fact Record is read back by
    [json.load] as the same record. *)
Lemma json_loads_dumps v : fact_record v = true -> json_loads (json_dumps v) = Some v.
Proof.
  intros Hwf. unfold json_loads, json_dumps.
  rewrite <- (string_app_nil_r (json_encode 0 v)) at 2.
  rewrite skip_ws_json_encode by exact Hwf.
  rewrite json_encode_round_trips; [reflexivity | exact Hwf | | reflexivity].
  pose proof (weight_le_length v O Hwf). lia.
Qed.

(** C5.  When the structured exporter succeeds on a Fact Record (nested
    Objects with unique field names, Lists and scalars, empty Objects and
    empty Lists included), the file holds one text, and [json.load] reads
    that text back as the same record, with the same nesting and the same
    order of fields. *)
Theorem structured_export_round_trips
    (v : value) (filename : string) (s s' : State) :
  fact_record v = true ->
  export_json v filename s = Ret ExportTrue s' ->
  exists text,
    files s' !! filename = Some [Chars text] /\
    file_text [Chars text] = json_dumps v /\
    json_loads text = Some v.
Proof.
  intros Hwf H. exists (json_dumps v).
  split; [| split; [apply string_app_nil_r | apply json_loads_dumps, Hwf]].
  unfold export_json, try_except in H.
  destruct (export_json_try v filename s) as [r s1 | e s1 |] eqn:Htry;
    [| discriminate H | discriminate H].
  injection H as -> ->. unfold export_json_try in Htry.
  apply bind_ret_inv in Htry as ([] & sa & Hopen & Htry).
  apply bind_ret_inv in Htry as ([] & sb & Hwrite & Htry).
  cbn in Htry. injection Htry as <-.
  unfold open_write in Hopen.
  apply bind_ret_inv in Hopen as ([] & s1 & _ & Hopen).
  apply bind_ret_inv in Hopen as ([] & s2 & Hmod & Hopen).
  cbn in Hmod, Hopen. inversion Hmod; subst. inversion Hopen; subst. clear Hmod Hopen.
  unfold file_write in Hwrite.
  apply bind_ret_inv in Hwrite as ([] & s3 & Hfp & Hwrite).
  apply bind_ret_inv in Hwrite as ([] & s4 & Hmod & Hwrite).
  cbn in Hmod, Hwrite. inversion Hmod; subst. inversion Hwrite; subst. clear Hmod Hwrite.
  apply fault_point_ret in Hfp.
  cbn. rewrite lookup_insert_eq, Hfp. cbn. rewrite lookup_insert_eq. reflexivity.
Qed.

(** * Properties of the code beyond the specification *)

(** ** What an export touches *)

(** A property of [M unit] that holds of [writerow], of a raised exception
    and of an empty loop, and that sequencing keeps, holds of [write_dict]. *)
Lemma write_dict_closure (P : M unit -> Prop) filename :
  P (mret tt) ->
  (forall m k : M unit, P m -> P k -> P (m ;; k)) ->
  (forall row, P (writerow filename row)) ->
  (forall e, P (raise e)) ->
  forall v prefix, P (write_dict filename v prefix).
Proof.
  intros Hret Hseq Hrow Hraise.
  assert (Heach : forall (A : Type) (f : A -> M unit) l,
             Forall (fun x => P (f x)) l -> P (for_each f l)).
  { intros A f l. induction 1 as [|x l Hx _ IH]; [exact Hret |]. apply Hseq; assumption. }
  assert (Henum : forall (A : Type) (f : Z -> A -> M unit) l,
             Forall (fun x => forall i, P (f i x)) l -> forall i, P (for_enumerate f i l)).
  { intros A f l. induction 1 as [|x l Hx _ IH]; intros i; [exact Hret |].
    apply Hseq; [apply Hx | apply IH]. }
  assert (H : forall v,
             match v with
             | VList items =>
                 forall prefix i, P (for_enumerate (write_item filename prefix) i items)
             | _ => forall prefix, P (write_dict filename v prefix)
             end).
  { induction v as [| b | n | r | t | l IH | l IH | d IH] using value_rect';
      try (intros prefix; apply Hraise).
    - intros prefix. apply Henum.
      eapply Forall_impl; [exact IH |]. intros item Hitem i. unfold write_item.
      destruct item; try apply Hrow. apply Hseq; [apply Hrow | apply Hitem].
    - intros prefix. rewrite write_dict_fields. apply Heach.
      eapply Forall_impl; [exact IH |]. intros [k v] Hv. unfold write_field. simpl in *.
      destruct v; try apply Hrow. apply Hseq; [apply Hrow | apply Hv]. }
  intros v prefix. specialize (H v). destruct v; try apply H. apply Hraise.
Qed.

Lemma io_only_write_dict filename v prefix : io_only (write_dict filename v prefix).
Proof.
  apply write_dict_closure; auto with io_only.
  - intros m k Hm Hk. apply io_only_bind; auto.
  - intros row. apply io_only_file_write.
Qed.

Lemma keeps_file_write n data : keeps_other_files n (file_write n data).
Proof. unfold file_write. keeps_tac. Qed.

Lemma keeps_open_write n : keeps_other_files n (open_write n).
Proof. unfold open_write. keeps_tac. Qed.

Lemma keeps_write_dict filename v prefix :
  keeps_other_files filename (write_dict filename v prefix).
Proof.
  apply write_dict_closure; auto with keeps.
  - intros m k Hm Hk. apply keeps_bind; auto.
  - intros row. apply keeps_file_write.
Qed.

Lemma keeps_try_except {A} n (m : M A) (h : exn -> M A) :
  keeps_other_files n m -> (forall e, keeps_other_files n (h e)) ->
  keeps_other_files n (try_except m h).
Proof.
  intros Hm Hh s. specialize (Hm s). unfold try_except.
  destruct (m s) as [a s1 | e s1 |]; auto.
  specialize (Hh e s1). destruct (h e s1); auto; intros k0 Hk0; rewrite Hh by auto; auto.
Qed.

Lemma io_only_export_json data filename : io_only (export_json data filename).
Proof. unfold export_json, export_json_try. io_only_tac. Qed.

Lemma io_only_export_csv data filename : io_only (export_csv data filename).
Proof.
  unfold export_csv, export_csv_try.
  apply io_only_try_except; [| intros e; auto with io_only].
  apply io_only_bind; [auto with io_only | intros _].
  apply io_only_bind; [apply io_only_write_dict | intros _]. auto with io_only.
Qed.

Lemma keeps_export_json data filename : keeps_other_files filename (export_json data filename).
Proof.
  unfold export_json, export_json_try.
  apply keeps_try_except; [| intros e; auto with keeps].
  apply keeps_bind; [apply keeps_open_write | intros _].
  apply keeps_bind; [apply keeps_file_write | intros _]. auto with keeps.
Qed.

Lemma keeps_export_csv data filename : keeps_other_files filename (export_csv data filename).
Proof.
  unfold export_csv, export_csv_try.
  apply keeps_try_except; [| intros e; auto with keeps].
  apply keeps_bind; [apply keeps_open_write | intros _].
  apply keeps_bind; [apply keeps_write_dict | intros _]. auto with keeps.
Qed.

Lemma export_returns (body : M export_result) s :
  no_stall body ->
  exists r s', try_except body (fun e => mret (ExportFailed (exn_msg e))) s = Ret r s'.
Proof.
  intros Hstall. unfold try_except. specialize (Hstall s).
  destruct (body s) as [r s' | e s' |]; [| | contradiction]; eexists; eexists; reflexivity.
Qed.

(** X4.  An export returns, and leaves the session as it was: the stored
    record, the selected category and the text box are unchanged, the log
    grows by file events only, and no file other than the destination is
    touched. *)
Theorem exporters_touch_only_their_file (data : value) (filename : string) (s : State) :
  (exists r s', export_json data filename s = Ret r s' /\ io_step s s' /\
                forall k, k <> filename -> files s' !! k = files s !! k)
  /\
  (exists r s', export_csv data filename s = Ret r s' /\ io_step s s' /\
                forall k, k <> filename -> files s' !! k = files s !! k).
Proof.
  split.
  - destruct (export_returns (export_json_try data filename) s
                (no_stall_export_json_try data filename)) as (r & s' & H).
    exists r, s'. split; [exact H |]. split.
    + pose proof (io_only_export_json data filename s) as Hio.
      unfold export_json in Hio. rewrite H in Hio. exact Hio.
    + exact (keeps_ret_inv filename _ _ _ _ (keeps_export_json data filename) H).
  - destruct (export_returns (export_csv_try data filename) s
                (no_stall_export_csv_try data filename)) as (r & s' & H).
    exists r, s'. split; [exact H |]. split.
    + pose proof (io_only_export_csv data filename s) as Hio.
      unfold export_csv in Hio. rewrite H in Hio. exact Hio.
    + exact (keeps_ret_inv filename _ _ _ _ (keeps_export_csv data filename) H).
Qed.

(** ** When an export fails *)

(** X5.  When [open] fails, an export answers the text of the error and
    nothing else happened: a report written earlier is still there. *)
Theorem export_open_failure_keeps_report
    (data : value) (filename msg : string) (rest : list (option string)) (s : State) :
  faults s = Some msg :: rest ->
  export_json data filename s = Ret (ExportFailed msg) (set_faults rest s) /\
  export_csv data filename s = Ret (ExportFailed msg) (set_faults rest s).
Proof.
  intros H.
  unfold export_json, export_csv, export_json_try, export_csv_try, try_except, open_write,
    mbind, M_bind, bind, fault_point.
  rewrite H. split; reflexivity.
Qed.

Lemma open_write_ok filename rest s :
  faults s = None :: rest ->
  open_write filename s
  = Ret tt (add_event (EvFile "open-write" filename)
              (set_files (<[filename := []]> (files s)) (set_faults rest s))).
Proof.
  intros H. unfold open_write, mbind, M_bind, bind, fault_point. rewrite H. reflexivity.
Qed.

Lemma file_write_fails filename data msg rest s :
  faults s = Some msg :: rest ->
  file_write filename data s = Raise (Exn "OSError" msg) (set_faults rest s).
Proof.
  intros H. unfold file_write, mbind, M_bind, bind, fault_point. rewrite H. reflexivity.
Qed.

(** X6.  When the file was opened and the first write fails, the export
    answers the text of the error and leaves the destination empty:
    whatever it held before is lost.  For the flat export this is the
    write of the first row. *)
Theorem export_write_failure_leaves_empty_file
    (data : value) (filename msg : string) (rest : list (option string)) (s : State) :
  faults s = None :: Some msg :: rest ->
  (exists s', export_json data filename s = Ret (ExportFailed msg) s' /\
              files s' !! filename = Some []) /\
  (forall kv fields, data = VDict (kv :: fields) ->
   exists s', export_csv data filename s = Ret (ExportFailed msg) s' /\
              files s' !! filename = Some []).
Proof.
  intros H. split.
  - pose (s1 := add_event (EvFile "open-write" filename)
                  (set_files (<[filename := []]> (files s)) (set_faults (Some msg :: rest) s))).
    exists (set_faults rest s1). split.
    + unfold export_json, try_except, export_json_try.
      rewrite (bind_ret _ _ _ _ _ (open_write_ok filename _ s H)).
      fold s1.
      rewrite (bind_raise _ _ _ _ _
                 (file_write_fails filename (Chars (json_dumps data)) msg rest s1 eq_refl)).
      reflexivity.
    + cbn. apply lookup_insert_eq.
  - intros [k v] fields ->.
    pose (s1 := add_event (EvFile "open-write" filename)
                  (set_files (<[filename := []]> (files s)) (set_faults (Some msg :: rest) s))).
    assert (Hrow : write_dict filename (VDict ((k, v) :: fields)) EmptyString s1
                   = Raise (Exn "OSError" msg) (set_faults rest s1)).
    { rewrite write_dict_fields. cbn [for_each].
      apply bind_raise. unfold write_field. cbn [fst snd].
      destruct v; try (apply file_write_fails; reflexivity).
      apply bind_raise. apply file_write_fails. reflexivity. }
    exists (set_faults rest s1). split.
    + unfold export_csv, try_except, export_csv_try.
      rewrite (bind_ret _ _ _ _ _ (open_write_ok filename _ s H)).
      fold s1. rewrite (bind_raise _ _ _ _ _ Hrow). reflexivity.
    + cbn. apply lookup_insert_eq.
Qed.

(** X7.  [export_csv] calls [.items()] on its argument: for a record that is
    not a dict, once the file is open, it answers the text of the
    [AttributeError] and leaves the destination empty. *)
Theorem export_csv_needs_a_dict (data : value) (filename : string) (s s1 : State) :
  is_dict data = false ->
  open_write filename s = Ret tt s1 ->
  export_csv data filename s
  = Ret (ExportFailed ("'" ++ type_name data ++ "' object has no attribute 'items'")) s1 /\
  files s1 !! filename = Some [].
Proof.
  intros Hd Hopen. split.
  - unfold export_csv, try_except, export_csv_try.
    rewrite (bind_ret _ _ _ _ _ Hopen).
    destruct data; try discriminate Hd; reflexivity.
  - unfold open_write in Hopen.
    apply bind_ret_inv in Hopen as ([] & sa & _ & Hopen).
    apply bind_ret_inv in Hopen as ([] & sb & Hmod & Hopen).
    cbn in Hmod, Hopen. inversion Hmod; subst. inversion Hopen; subst.
    cbn. apply lookup_insert_eq.
Qed.

Lemma app_export_reports export filename what s :
  (forall data, no_stall (export data filename)) ->
  (forall data, io_only (export data filename)) ->
  (forall data, keeps_other_files filename (export data filename)) ->
  (forall data s0 e s1, export data filename s0 <> Raise e s1) ->
  exists text s',
    app_export export filename what s = Ret tt s' /\
    textbox s' = textbox s ++ newline ++ text ++ newline /\
    current_info s' = current_info s /\ combo s' = combo s /\
    (forall k, k <> filename -> files s' !! k = files s !! k) /\
    export_messages filename what s text.
Proof.
  intros Hstall Hio Hkeeps Hraise.
  unfold app_export, mbind, M_bind, bind, get_state.
  destruct (truthy (current_info s)) eqn:Htruthy.
  - specialize (Hstall (current_info s) s). specialize (Hio (current_info s) s).
    specialize (Hkeeps (current_info s) s). specialize (Hraise (current_info s) s).
    destruct (export (current_info s) filename s) as [r s1 | e s1 |];
      [| exfalso; eapply Hraise; reflexivity | contradiction].
    destruct Hio as (evs & _ & _ & Hinfo & Hcombo & Htext).
    destruct r as [| msg].
    + exists ("Exported data to " ++ filename). eexists. split; [reflexivity |].
      cbn [textbox_insert modify textbox current_info combo files set_textbox].
      rewrite Htext. repeat split; auto. right. left. auto.
    + exists ("Error exporting " ++ what ++ ": " ++ msg). eexists. split; [reflexivity |].
      cbn [textbox_insert modify textbox current_info combo files set_textbox].
      rewrite Htext, !string_app_assoc. repeat split; auto. right. right. eauto.
  - exists "No data to export!". eexists. split; [reflexivity |].
    repeat split; auto. left. auto.
Qed.

Lemma try_except_never_raises {A} (m : M A) (f : exn -> A) s e s' :
  try_except m (fun e => mret (f e)) s <> Raise e s'.
Proof. unfold try_except. destruct (m s); discriminate. Qed.

Lemma no_stall_try_except {A} (m : M A) (h : exn -> M A) :
  no_stall m -> (forall e, no_stall (h e)) -> no_stall (try_except m h).
Proof.
  intros Hm Hh s. specialize (Hm s). unfold try_except.
  destruct (m s) as [a s1 | e s1 |]; [discriminate | apply Hh | contradiction].
Qed.

(** X8.  Pressing an export button always returns and appends one line to
    the text box: that there is nothing to export when the stored record is
    falsy, that the report was written, or the text of the error.  The
    stored record and the selected category stay, and no file other than
    the report is touched. *)
Theorem export_buttons_report_and_keep_record (s : State) :
  (exists text s',
     app_export_json s = Ret tt s' /\
     textbox s' = textbox s ++ newline ++ text ++ newline /\
     current_info s' = current_info s /\ combo s' = combo s /\
     (forall k, k <> "hardware_report.json" -> files s' !! k = files s !! k) /\
     export_messages "hardware_report.json" "JSON" s text)
  /\
  (exists text s',
     app_export_csv s = Ret tt s' /\
     textbox s' = textbox s ++ newline ++ text ++ newline /\
     current_info s' = current_info s /\ combo s' = combo s /\
     (forall k, k <> "hardware_report.csv" -> files s' !! k = files s !! k) /\
     export_messages "hardware_report.csv" "CSV" s text).
Proof.
  split; apply app_export_reports.
  - intros data. apply no_stall_try_except;
      [apply no_stall_export_json_try | intros e; apply no_stall_ret].
  - intros data. apply io_only_export_json.
  - intros data. apply keeps_export_json.
  - intros data s0 e s1. apply try_except_never_raises.
  - intros data. apply no_stall_try_except;
      [apply no_stall_export_csv_try | intros e; apply no_stall_ret].
  - intros data. apply io_only_export_csv.
  - intros data. apply keeps_export_csv.
  - intros data s0 e s1. apply try_except_never_raises.
Qed.

(** ** The dispatch, case by case *)

Ltac dispatch_branch H :=
  match type of H with
  | context [if String.eqb (combo ?s) ?lit then _ else _] =>
      let Heq := fresh "Heq" in
      destruct (String.eqb_spec (combo s) lit) as [Heq | Heq]
  end.

Ltac shows H := left; eexists; split; [| rewrite H; reflexivity]; reflexivity.

Lemma show_info_cases pf s :
  (exists info, is_dict info = true /\
                show_info pf s = show info (set_textbox EmptyString s)) \/
  (exists e, combo s = "System Info" /\ get_system_info pf = Err e /\
             show_info pf s = Raise e (set_textbox EmptyString s)) \/
  (combo s = "Benchmarks" /\
   show_info pf s = Ret tt (worker_started RunBenchmarks "Running CPU benchmark..." s)).
Proof.
  remember (show_info pf s) as r eqn:Hr.
  unfold show_info in Hr.
  unfold mbind at 1, M_bind at 1, bind at 1, get_state in Hr.
  unfold mbind at 1, M_bind at 1, bind at 1 in Hr.
  cbn [textbox_delete_all modify] in Hr.
  dispatch_branch Hr.
  { destruct (get_system_info pf) as [info | e] eqn:Hinfo.
    - left. exists info. split; [| rewrite Hr; reflexivity].
      unfold get_system_info, mbind, res_mbind, res_bind in Hinfo.
      destruct (platform_uname pf); [| discriminate].
      destruct (platform_python_version pf); [| discriminate].
      injection Hinfo as <-. reflexivity.
    - right. left. exists e. split; [assumption |]. split; [reflexivity |].
      rewrite Hr. reflexivity. }
  repeat (dispatch_branch Hr; [shows Hr |]).
  dispatch_branch Hr.
  - right. right. split; [assumption | rewrite Hr; reflexivity].
  - shows Hr.
Qed.

Lemma extended_show_info_cases pf s :
  (exists info, is_dict info = true /\
                extended_show_info pf s = show info (set_textbox EmptyString s)) \/
  (combo s = "System Uptime" /\
   extended_show_info pf s
   = (info ← get_system_uptime pf; show info) (set_textbox EmptyString s)) \/
  (combo s = "Extended Benchmarks" /\
   extended_show_info pf s
   = Ret tt (worker_started RunExtendedBenchmarks "Running extended benchmarks..." s)) \/
  (~ In (combo s) extended_categories /\
   extended_show_info pf s = show_info pf s).
Proof.
  remember (extended_show_info pf s) as r eqn:Hr.
  unfold extended_show_info in Hr.
  unfold mbind at 1, M_bind at 1, bind at 1, get_state in Hr.
  unfold mbind at 1, M_bind at 1, bind at 1 in Hr.
  cbn [textbox_delete_all modify] in Hr.
  repeat (dispatch_branch Hr; [shows Hr |]).
  dispatch_branch Hr; [right; left; split; [assumption | rewrite Hr; reflexivity] |].
  dispatch_branch Hr; [right; right; left; split; [assumption | rewrite Hr; reflexivity] |].
  right. right. right. split; [| rewrite Hr; reflexivity].
  simpl. intuition congruence.
Qed.

(** [show_info] looks at the state only through the selected category, and
    empties the text box first. *)
Lemma show_info_after_delete pf s :
  show_info pf (set_textbox EmptyString s) = show_info pf s.
Proof. reflexivity. Qed.

(** X9.  On every category that is not one of its own eight, the extended
    class behaves exactly as the base class. *)
Theorem extended_dispatch_falls_back (pf : Platform) (s : State) :
  ~ In (combo s) extended_categories ->
  extended_show_info pf s = show_info pf s.
Proof.
  intros H. unfold extended_show_info.
  unfold mbind at 1, M_bind at 1, bind at 1, get_state.
  unfold mbind at 1, M_bind at 1, bind at 1.
  cbn [textbox_delete_all modify].
  repeat not_listed H.
  apply show_info_after_delete.
Qed.

(** ** What the display shows *)

Lemma appends_ret : appends (mret tt).
Proof.
  exists EmptyString. intros s. rewrite string_app_nil_r. destruct s; reflexivity.
Qed.

Lemma appends_seq (m k : M unit) : appends m -> appends k -> appends (m ;; k).
Proof.
  intros [t1 H1] [t2 H2]. exists (t1 ++ t2). intros s.
  unfold mbind, M_bind, bind. rewrite H1, H2.
  cbn [textbox set_textbox]. rewrite string_app_assoc. reflexivity.
Qed.

Lemma appends_insert text : appends (textbox_insert text).
Proof. exists text. intros s. reflexivity. Qed.

Lemma appends_for_each {A} (f : A -> M unit) l :
  Forall (fun x => appends (f x)) l -> appends (for_each f l).
Proof.
  induction 1 as [|x l Hx _ IH]; [apply appends_ret |].
  apply (appends_seq (f x) (for_each f l)); assumption.
Qed.

Lemma appends_for_enumerate {A} (f : Z -> A -> M unit) l :
  Forall (fun x => forall i, appends (f i x)) l -> forall i, appends (for_enumerate f i l).
Proof.
  induction 1 as [|x l Hx _ IH]; intros i; [apply appends_ret |].
  apply (appends_seq (f i x) (for_enumerate f (i + 1) l)); [apply Hx | apply IH].
Qed.

Lemma recursive_display_appends v : forall indent, appends (recursive_display v indent).
Proof.
  induction v as [| b | n | r | t | l IH | l IH | d IH] using value_rect'; intros indent;
    try (apply appends_insert).
  - simpl. apply appends_for_enumerate.
    eapply Forall_impl; [exact IH |]. intros item Hitem i.
    apply appends_seq; [apply appends_insert | apply Hitem].
  - simpl. apply appends_for_each.
    eapply Forall_impl; [exact IH |]. intros [k v] Hv. simpl in *.
    destruct v; try apply appends_insert;
      (apply appends_seq; [apply appends_insert | apply Hv]).
Qed.

(** X10.  [display_info] replaces what the text box showed by a text that
    depends on the record alone: it returns, changes nothing but the text
    box, and what was displayed before leaves no trace. *)
Theorem display_shows_the_record_alone (info : value) :
  exists text, forall s, display_info info s = Ret tt (set_textbox text s).
Proof.
  destruct (recursive_display_appends info 0) as [text H].
  exists text. intros s.
  unfold display_info, mbind, M_bind, bind. cbn [textbox_delete_all modify].
  rewrite H. reflexivity.
Qed.

Lemma show_in_step info s0 s' :
  show info s0 = Ret tt s' ->
  current_info s' = info /\ combo s' = combo s0 /\ display_info info s' = Ret tt s'.
Proof.
  destruct (recursive_display_appends info 0) as [text H].
  unfold show, assign_current_info, display_info, mbind, M_bind, bind.
  cbn [textbox_delete_all modify emit]. rewrite !H.
  intros Hs. injection Hs as <-. repeat split; reflexivity.
Qed.

(** A fetch that runs in the caller: it ends by [show], or [get_system_info]
    raised, or the uptime waits for the clock. *)
Lemma synchronous_fetch_cases pf s :
  combo s <> "Benchmarks" -> combo s <> "Extended Benchmarks" ->
  (exists info s0, is_dict info = true /\ combo s0 = combo s /\
                   current_info s0 = current_info s /\
                   extended_show_info pf s = show info s0) \/
  (exists e, combo s = "System Info" /\ get_system_info pf = Err e /\
             extended_show_info pf s = Raise e (set_textbox EmptyString s)) \/
  (combo s = "System Uptime" /\ clock s = [] /\ extended_show_info pf s = Stalled).
Proof.
  intros Hb Hx.
  destruct (extended_show_info_cases pf s)
    as [(info & Hd & H) | [(Hcat & H) | [(Hcat & _) | (_ & H)]]].
  - left. exists info, (set_textbox EmptyString s). auto.
  - destruct (get_system_uptime_cases pf (set_textbox EmptyString s))
      as [(Hclock & Hup) | (t & rest & fields & Hclock & Hup)].
    + right. right. split; [assumption |]. split; [exact Hclock |].
      rewrite H. unfold mbind, M_bind, bind. rewrite Hup. reflexivity.
    + left. exists (VDict fields). eexists. split; [reflexivity |].
      split; [| split]; [| | rewrite H; unfold mbind, M_bind, bind; rewrite Hup; reflexivity];
        reflexivity.
  - contradiction.
  - rewrite H.
    destruct (show_info_cases pf s) as [(info & Hd & Hs) | [(e & Hcat & He & Hs) | (Hcat & _)]].
    + left. exists info, (set_textbox EmptyString s). auto.
    + right. left. exists e. auto.
    + contradiction.
Qed.

(** X11.  After a fetch that ran in the caller, the text box shows exactly
    the stored record: displaying [self.current_info] again changes
    nothing.  (The two benchmark categories return before their record
    exists.) *)
Theorem display_matches_stored_record (pf : Platform) (s s' : State) :
  combo s <> "Benchmarks" ->
  (show_info pf s = Ret tt s' -> display_info (current_info s') s' = Ret tt s')
  /\
  (combo s <> "Extended Benchmarks" -> extended_show_info pf s = Ret tt s' ->
   display_info (current_info s') s' = Ret tt s').
Proof.
  intros Hb. split.
  - intros H.
    destruct (show_info_cases pf s) as [(info & _ & Hs) | [(e & _ & _ & Hs) | (Hcat & _)]];
      [| rewrite Hs in H; discriminate H | contradiction].
    rewrite Hs in H. apply show_in_step in H as (Hinfo & _ & Hshow).
    rewrite Hinfo. exact Hshow.
  - intros Hx H.
    destruct (synchronous_fetch_cases pf s Hb Hx)
      as [(info & s0 & Hd & _ & _ & Hs) | [(e & _ & _ & Hs) | (_ & _ & Hs)]];
      rewrite Hs in H; try discriminate H.
    apply show_in_step in H as (Hinfo & _ & Hshow).
    rewrite Hinfo. exact Hshow.
Qed.

(** ** Invariants of a run *)

Lemma tier_keeps_session n1 n2 n3 p1 p2 p3 s :
  traced n1 p1 -> traced n2 p2 -> traced n3 p3 ->
  match tier p1 p2 p3 s with
  | Ret _ s' => combo s' = combo s /\ textbox s' = textbox s /\
                exists merged, current_info s' = VDict merged /\
                               In (EvAfter (VDict merged)) (log s')
  | Raise _ s' => gui_same s s'
  | Stalled => True
  end.
Proof.
  intros T1 T2 T3. unfold tier, mbind, M_bind, bind.
  specialize (T1 s). destruct (p1 s) as [r1 s1 | e s1 |]; [| | exact I].
  2:{ destruct T1 as (evs & _ & _ & G). exact G. }
  destruct T1 as (e1 & _ & _ & I1 & C1 & X1).
  specialize (T2 s1). destruct (p2 s1) as [r2 s2 | e s2 |]; [| | exact I].
  2:{ destruct T2 as (evs & _ & _ & I2 & C2 & X2). repeat split; congruence. }
  destruct T2 as (e2 & _ & _ & I2 & C2 & X2).
  specialize (T3 s2). destruct (p3 s2) as [r3 s3 | e s3 |]; [| | exact I].
  2:{ destruct T3 as (evs & _ & _ & I3 & C3 & X3). repeat split; congruence. }
  destruct T3 as (e3 & _ & _ & I3 & C3 & X3).
  unfold assign_current_info, mbind, M_bind, bind.
  cbn [modify emit combo textbox current_info log add_event set_current_info].
  split; [congruence |]. split; [congruence |].
  eexists. split; [reflexivity |]. apply in_or_app. right. left. reflexivity.
Qed.

Lemma run_task_keeps_session pf t s :
  match run_task pf t s with
  | Ret _ s' => combo s' = combo s /\ textbox s' = textbox s /\
                exists merged, current_info s' = VDict merged /\
                               In (EvAfter (VDict merged)) (log s')
  | Raise _ s' => gui_same s s'
  | Stalled => True
  end.
Proof.
  destruct t.
  - change (run_task pf RunBenchmarks)
      with (tier (cpu_benchmark 3) (memory_benchmark pf) disk_benchmark).
    apply (tier_keeps_session "cpu_benchmark" "memory_benchmark" "disk_benchmark");
      intros s0;
      [apply cpu_benchmark_trace | apply memory_benchmark_trace | apply disk_benchmark_trace].
  - change (run_task pf RunExtendedBenchmarks)
      with (tier (extended_cpu_benchmark 5) (extended_memory_benchmark pf)
                 extended_disk_benchmark).
    apply (tier_keeps_session "extended_cpu_benchmark" "extended_memory_benchmark"
             "extended_disk_benchmark");
      intros s0;
      [apply extended_cpu_benchmark_trace | apply extended_memory_benchmark_trace
      | apply extended_disk_benchmark_trace].
Qed.

Lemma app_export_json_keeps_session s :
  exists s', app_export_json s = Ret tt s' /\
             current_info s' = current_info s /\ combo s' = combo s.
Proof.
  destruct (app_export_reports export_json "hardware_report.json" "JSON" s)
    as (text & s' & H & _ & Hinfo & Hcombo & _).
  - intros data. apply no_stall_try_except;
      [apply no_stall_export_json_try | intros e; apply no_stall_ret].
  - intros data. apply io_only_export_json.
  - intros data. apply keeps_export_json.
  - intros data s0 e s1. apply try_except_never_raises.
  - exists s'. auto.
Qed.

Lemma app_export_csv_keeps_session s :
  exists s', app_export_csv s = Ret tt s' /\
             current_info s' = current_info s /\ combo s' = combo s.
Proof.
  destruct (app_export_reports export_csv "hardware_report.csv" "CSV" s)
    as (text & s' & H & _ & Hinfo & Hcombo & _).
  - intros data. apply no_stall_try_except;
      [apply no_stall_export_csv_try | intros e; apply no_stall_ret].
  - intros data. apply io_only_export_csv.
  - intros data. apply keeps_export_csv.
  - intros data s0 e s1. apply try_except_never_raises.
  - exists s'. auto.
Qed.

Lemma extended_show_info_keeps_session pf s :
  is_dict (current_info s) = true ->
  match extended_show_info pf s with
  | Ret _ s' | Raise _ s' => combo s' = combo s /\ is_dict (current_info s') = true
  | Stalled => True
  end.
Proof.
  intros Hd.
  destruct (extended_show_info_cases pf s)
    as [(info & Hi & H) | [(Hcat & H) | [(Hcat & H) | (_ & H)]]].
  - rewrite H. destruct (show_returns info (set_textbox EmptyString s)) as (s' & Hs & _).
    rewrite Hs. apply show_in_step in Hs as (-> & -> & _). auto.
  - rewrite H. unfold mbind, M_bind, bind.
    destruct (get_system_uptime_cases pf (set_textbox EmptyString s))
      as [(_ & ->) | (t & rest & fields & _ & ->)]; [exact I |].
    match goal with
    | |- context [show ?info ?st] => destruct (show_returns info st) as (s' & Hs & _)
    end.
    rewrite Hs. apply show_in_step in Hs as (-> & -> & _). auto.
  - rewrite H. auto.
  - rewrite H.
    destruct (show_info_cases pf s) as [(info & Hi & Hs) | [(e & _ & _ & Hs) | (_ & Hs)]];
      rewrite Hs; auto.
    destruct (show_returns info (set_textbox EmptyString s)) as (s' & Hs' & _).
    rewrite Hs'. apply show_in_step in Hs' as (-> & -> & _). auto.
Qed.

Lemma handle_keeps_invariants pf ev s :
  enabled ev s ->
  In (combo s) category_options -> is_dict (current_info s) = true ->
  match handle pf ev s with
  | Ret _ s' | Raise _ s' =>
      In (combo s') category_options /\ is_dict (current_info s') = true
  | Stalled => True
  end.
Proof.
  intros Hen Hc Hd. destruct ev as [category | | | | t | results]; cbn [handle].
  - cbn. auto.
  - pose proof (extended_show_info_keeps_session pf s Hd) as H.
    destruct (extended_show_info pf s); auto; destruct H as [-> H]; auto.
  - destruct (app_export_json_keeps_session s) as (s' & -> & -> & ->). auto.
  - destruct (app_export_csv_keeps_session s) as (s' & -> & -> & ->). auto.
  - pose proof (run_task_keeps_session pf t s) as H.
    destruct (run_task pf t s); auto.
    + destruct H as (-> & _ & merged & -> & _). auto.
    + destruct H as (-> & -> & _). auto.
  - destruct (recursive_display_appends results 0) as [text H].
    unfold display_info, mbind, M_bind, bind. cbn [textbox_delete_all modify].
    rewrite H. auto.
Qed.

(** X12.  Two invariants of a run of the application, whatever the operator
    does and whatever fails: the selected category is one of the options
    of the menu, and the stored record is a dict. *)
Theorem session_invariants (pf : Platform) (s : State) :
  reachable pf s ->
  In (combo s) category_options /\ is_dict (current_info s) = true.
Proof.
  induction 1 as [s0 s _ Hinit | s ev s' _ [Hc Hd] Hen Hstep].
  - unfold app_init, assign_current_info, mbind, M_bind, bind in Hinit.
    cbn [modify emit] in Hinit. injection Hinit as <-. split; [| reflexivity].
    simpl. tauto.
  - pose proof (handle_keeps_invariants pf ev s Hen Hc Hd) as H.
    destruct Hstep as [Hs | [e Hs]]; rewrite Hs in H; exact H.
Qed.

Lemma benchmark_category_starts_worker pf t s :
  combo s = category_of t ->
  extended_show_info pf s = Ret tt (worker_started t (announcement t) s).
Proof.
  intros Hc.
  unfold extended_show_info, show_info, mbind, M_bind, bind, get_state.
  cbn beta iota delta [textbox_delete_all modify combo set_textbox].
  rewrite Hc. destruct t; cbn [category_of String.eqb Ascii.eqb Bool.eqb].
  - cbn beta iota delta [textbox_delete_all modify combo set_textbox].
    rewrite Hc. reflexivity.
  - reflexivity.
Qed.

(** A worker that runs to its end has run its three probes one after the
    other and stored the merge of their results. *)
Lemma run_task_returns pf t s s' :
  run_task pf t s = Ret tt s' ->
  exists r1 r2 r3 s1 s2 s3,
    cpu_probe_of t s = Ret r1 s1 /\ memory_probe_of pf t s1 = Ret r2 s2 /\
    disk_probe_of t s2 = Ret r3 s3 /\
    current_info s' = merge_results r1 r2 r3.
Proof.
  intros H. destruct t; cbn [run_task cpu_probe_of memory_probe_of disk_probe_of] in *.
  - change (run_benchmarks pf) with
      (tier (cpu_benchmark 3) (memory_benchmark pf) disk_benchmark) in H.
    destruct (tier_returns "cpu_benchmark" "memory_benchmark" "disk_benchmark" _ _ _ _ _
                (fun s0 => cpu_benchmark_trace 3 s0) (fun s0 => memory_benchmark_trace pf s0)
                disk_benchmark_trace H)
      as (r1 & r2 & r3 & s1 & s2 & s3 & evs & H1 & H2 & H3 & Hinfo & _).
    exists r1, r2, r3, s1, s2, s3. auto.
  - change (run_extended_benchmarks pf) with
      (tier (extended_cpu_benchmark 5) (extended_memory_benchmark pf)
            extended_disk_benchmark) in H.
    destruct (tier_returns "extended_cpu_benchmark" "extended_memory_benchmark"
                "extended_disk_benchmark" _ _ _ _ _
                (fun s0 => extended_cpu_benchmark_trace 5 s0)
                (fun s0 => extended_memory_benchmark_trace pf s0)
                extended_disk_benchmark_trace H)
      as (r1 & r2 & r3 & s1 & s2 & s3 & evs & H1 & H2 & H3 & Hinfo & _).
    exists r1, r2, r3, s1, s2, s3. auto.
Qed.

(** X13.  "Show Info" on a benchmark category returns at once: no probe runs
    in the caller, no record is stored, the text box announces the run,
    and the one thing logged is the start of one worker.  When that worker
    has run to its end, its three probes have returned one after the
    other, the stored record is the merge of their three results and the
    display of that record is queued, while the text box still shows the
    announcement. *)
Theorem benchmark_record_arrives_with_the_worker
    (pf : Platform) (t : task) (s s1 s2 : State) :
  combo s = category_of t ->
  handle pf PressShow s = Ret tt s1 ->
  handle pf (WorkerRuns t) s1 = Ret tt s2 ->
  log s1 = (log s ++ [EvStart t])%list /\
  enabled (WorkerRuns t) s1 /\
  current_info s1 = current_info s /\ clock s1 = clock s /\ files s1 = files s /\
  textbox s1 = announcement t ++ newline /\
  textbox s2 = announcement t ++ newline /\
  exists r1 r2 r3 sa sb sc,
    cpu_probe_of t s1 = Ret r1 sa /\ memory_probe_of pf t sa = Ret r2 sb /\
    disk_probe_of t sb = Ret r3 sc /\
    current_info s2 = merge_results r1 r2 r3 /\
    enabled (CallbackRuns (merge_results r1 r2 r3)) s2.
Proof.
  intros Hc H1 H2. cbn [handle] in H1, H2.
  rewrite (benchmark_category_starts_worker pf t s Hc) in H1. injection H1 as <-.
  pose proof (run_task_keeps_session pf t (worker_started t (announcement t) s)) as H.
  rewrite H2 in H. destruct H as (_ & Htext & merged & Hinfo & Hafter).
  destruct (run_task_returns pf t _ _ H2)
    as (r1 & r2 & r3 & sa & sb & sc & Hcpu & Hmem & Hdisk & Hmerged).
  split; [reflexivity |].
  split; [cbn; apply in_or_app; right; left; reflexivity |].
  repeat (split; [reflexivity |]).
  split; [rewrite Htext; reflexivity |].
  exists r1, r2, r3, sa, sb, sc. repeat (split; [assumption |]).
  cbn [enabled]. rewrite <- Hmerged, Hinfo. exact Hafter.
Qed.

(** ** The CPU probes *)

Lemma busy_loop_counts deadline t rest : forall before fuel count s,
  clock s = (before ++ t :: rest)%list ->
  Forall (fun x => PrimFloat.ltb x deadline = true) before ->
  PrimFloat.ltb t deadline = false ->
  (length before < fuel)%nat ->
  exists s', busy_loop fuel deadline count s = Ret (count + Z.of_nat (length before)) s' /\
             clock s' = rest.
Proof.
  induction before as [|x before IH]; intros fuel count s Hclock Hbefore Ht Hfuel;
    (destruct fuel as [|fuel]; [simpl in Hfuel; lia |]).
  - cbn [busy_loop]. unfold mbind, M_bind, bind, time_time. rewrite Hclock. cbn [app].
    rewrite Ht.
    eexists. split; [cbn [length Z.of_nat]; rewrite Z.add_0_r; reflexivity | reflexivity].
  - cbn [busy_loop]. unfold mbind, M_bind, bind, time_time. rewrite Hclock. cbn [app].
    inversion Hbefore as [|? ? Hx Hrest]; subst.
    rewrite Hx.
    destruct (IH fuel (count + 1) (add_event (EvClock x) (set_clock (before ++ t :: rest)%list s)))
      as (s' & Hloop & Hs'); auto.
    { simpl in Hfuel. lia. }
    exists s'. split; [| exact Hs'].
    unfold mbind, M_bind, bind in Hloop. rewrite Hloop. f_equal.
    cbn [length]. lia.
Qed.

Lemma busy_until_counts deadline t rest before s :
  clock s = (before ++ t :: rest)%list ->
  Forall (fun x => PrimFloat.ltb x deadline = true) before ->
  PrimFloat.ltb t deadline = false ->
  exists s', busy_until deadline s = Ret (Z.of_nat (length before)) s' /\ clock s' = rest.
Proof.
  intros Hclock Hbefore Ht. unfold busy_until, mbind, M_bind, bind, get_state.
  destruct (busy_loop_counts deadline t rest before (S (length (clock s))) 0 s)
    as (s' & H & Hs'); auto.
  { rewrite Hclock, length_app. simpl. lia. }
  exists s'. split; [exact H | exact Hs'].
Qed.

(** The shape shared by the two CPU probes, whose results differ by their
    key only. *)
Lemma counting_probe_runs name (result : Z -> pydict) duration d t0 t before rest s :
  float_of_int duration = Ok d ->
  clock s = t0 :: (before ++ t :: rest)%list ->
  Forall (fun x => PrimFloat.ltb x (PrimFloat.add t0 d) = true) before ->
  PrimFloat.ltb t (PrimFloat.add t0 d) = false ->
  exists s',
    probe name (now ← time_time;
                duration_float ← lift (float_of_int duration);
                count ← busy_until (PrimFloat.add now duration_float);
                mret (result count)) s
    = Ret (result (Z.of_nat (length before))) s' /\
    clock s' = rest.
Proof.
  intros Hd Hclock Hbefore Ht.
  destruct (busy_until_counts (PrimFloat.add t0 d) t rest before
              (add_event (EvClock t0)
                 (set_clock (before ++ t :: rest)%list (add_event (EvEnter name) s))))
    as (s1 & H1 & Hs1); auto.
  exists (add_event (EvLeave name) s1). split; [| exact Hs1].
  unfold probe, mbind, M_bind, bind, time_time, lift in *. cbn [emit modify clock add_event].
  rewrite Hclock, Hd, H1. reflexivity.
Qed.

(** X14.  A CPU probe reads the clock once and adds its duration to that
    reading, as floats, to set its deadline; then it reads the clock once
    per turn of its loop.  Its count is the number of readings it saw
    that compare below the deadline; it stops at the first reading that
    does not and reads the clock no more. *)
Theorem cpu_probes_count_readings_before_deadline
    (duration : Z) (d t0 t : float) (before rest : list float) (s : State) :
  float_of_int duration = Ok d ->
  clock s = t0 :: (before ++ t :: rest)%list ->
  Forall (fun x => PrimFloat.ltb x (PrimFloat.add t0 d) = true) before ->
  PrimFloat.ltb t (PrimFloat.add t0 d) = false ->
  (exists s',
     cpu_benchmark duration s
     = Ret [("CPU Benchmark (loops in " ++ string_of_Z duration ++ "s)",
             VInt (Z.of_nat (length before)))] s' /\
     clock s' = rest)
  /\
  (exists s',
     extended_cpu_benchmark duration s
     = Ret [("Extended CPU Benchmark loops", VInt (Z.of_nat (length before)))] s' /\
     clock s' = rest).
Proof.
  intros Hd Hclock Hbefore Ht. split.
  - exact (counting_probe_runs "cpu_benchmark"
             (fun count =>
                [("CPU Benchmark (loops in " ++ string_of_Z duration ++ "s)", VInt count)])
             duration d t0 t before rest s Hd Hclock Hbefore Ht).
  - exact (counting_probe_runs "extended_cpu_benchmark"
             (fun count => [("Extended CPU Benchmark loops", VInt count)])
             duration d t0 t before rest s Hd Hclock Hbefore Ht).
Qed.

(** ** What can abort a tier *)

Lemma time_time_never_raises s e s' : time_time s <> Raise e s'.
Proof. unfold time_time. destruct (clock s); discriminate. Qed.

Lemma busy_loop_never_raises fuel : forall deadline count s e s',
  busy_loop fuel deadline count s <> Raise e s'.
Proof.
  induction fuel as [|fuel IH]; intros deadline count s e s'; [discriminate |].
  cbn [busy_loop]. unfold mbind, M_bind, bind.
  destruct (time_time s) as [now s1 | e1 s1 |] eqn:Htime;
    [| exfalso; eapply time_time_never_raises; eauto | discriminate].
  destruct (PrimFloat.ltb now deadline); [apply IH | discriminate].
Qed.

Lemma probe_raise_inv name body s e s' :
  probe name body s = Raise e s' -> body (add_event (EvEnter name) s) = Raise e s'.
Proof.
  unfold probe, mbind, M_bind, bind. cbn [emit modify].
  destruct (body (add_event (EvEnter name) s)) as [r s1 | e1 s1 |]; try discriminate.
  intros H. exact H.
Qed.

(** A duration that is a float, as 3 and 5 are, lets a CPU probe through. *)
Lemma cpu_benchmark_never_raises duration d s e s' :
  float_of_int duration = Ok d -> cpu_benchmark duration s <> Raise e s'.
Proof.
  intros Hd H. apply probe_raise_inv in H.
  apply bind_raise_inv in H as [H | (now & s1 & _ & H)].
  - eapply time_time_never_raises; eauto.
  - rewrite Hd in H.
    apply bind_raise_inv in H as [H | (d' & s2 & _ & H)]; [discriminate H |].
    apply bind_raise_inv in H as [H | (count & s3 & _ & H)]; [| discriminate H].
    unfold busy_until, mbind, M_bind, bind, get_state in H.
    eapply busy_loop_never_raises; eauto.
Qed.

Lemma extended_cpu_benchmark_never_raises duration d s e s' :
  float_of_int duration = Ok d -> extended_cpu_benchmark duration s <> Raise e s'.
Proof.
  intros Hd H. apply probe_raise_inv in H.
  apply bind_raise_inv in H as [H | (now & s1 & _ & H)].
  - eapply time_time_never_raises; eauto.
  - rewrite Hd in H.
    apply bind_raise_inv in H as [H | (d' & s2 & _ & H)]; [discriminate H |].
    apply bind_raise_inv in H as [H | (count & s3 & _ & H)]; [| discriminate H].
    unfold busy_until, mbind, M_bind, bind, get_state in H.
    eapply busy_loop_never_raises; eauto.
Qed.

Lemma handled_never_raises {A} (m : M A) (h : exn -> M A) s e s' :
  (forall e0 s0, exists a s1, h e0 s0 = Ret a s1) -> try_except m h s <> Raise e s'.
Proof.
  intros Hh. unfold try_except. destruct (m s) as [a s1 | e1 s1 |]; try discriminate.
  destruct (Hh e1 s1) as (a & s2 & ->). discriminate.
Qed.

Lemma disk_benchmark_never_raises s e s' : disk_benchmark s <> Raise e s'.
Proof.
  intros H. apply probe_raise_inv in H. revert H. apply handled_never_raises.
  intros e0 s0. eexists. eexists. reflexivity.
Qed.

Lemma extended_disk_benchmark_never_raises s e s' : extended_disk_benchmark s <> Raise e s'.
Proof.
  intros H. apply probe_raise_inv in H. revert H. apply handled_never_raises.
  intros e0 s0. eexists. eexists. reflexivity.
Qed.

Lemma memory_benchmark_raise_inv pf s e s' :
  memory_benchmark pf s = Raise e s' -> bytearray_alloc pf = Err e.
Proof.
  intros H. apply probe_raise_inv in H.
  apply bind_raise_inv in H as [H | (u & s1 & _ & H)].
  - unfold lift in H. destruct (bytearray_alloc pf); [discriminate H |].
    injection H as -> _. reflexivity.
  - apply bind_raise_inv in H as [H | (start & s2 & _ & H)];
      [exfalso; eapply time_time_never_raises; eauto |].
    apply bind_raise_inv in H as [H | (now & s3 & _ & H)];
      [exfalso; eapply time_time_never_raises; eauto | discriminate H].
Qed.

Lemma extended_memory_benchmark_raise_inv pf s e s' :
  extended_memory_benchmark pf s = Raise e s' -> import_numpy pf = Err e.
Proof.
  intros H. apply probe_raise_inv in H.
  apply bind_raise_inv in H as [H | (u & s1 & _ & H)].
  - unfold lift in H. destruct (import_numpy pf); [discriminate H |].
    injection H as -> _. reflexivity.
  - exfalso. revert H. apply handled_never_raises.
    intros e0 s0. eexists. eexists. reflexivity.
Qed.

(** X15.  What can abort a tier.  An exception leaves the baseline tier only
    when the buffer of its memory probe cannot be allocated, and the
    extended tier only when [numpy] cannot be imported: the import stands
    before the [try] of the extended memory probe, so its failure leaves
    the tier right after that probe was entered, and nothing is stored. *)
Theorem what_aborts_a_tier (pf : Platform) (s : State) :
  (forall e s', run_benchmarks pf s = Raise e s' -> bytearray_alloc pf = Err e)
  /\
  (forall e s', run_extended_benchmarks pf s = Raise e s' -> import_numpy pf = Err e)
  /\
  (forall e r1 s1,
     extended_cpu_benchmark 5 s = Ret r1 s1 -> import_numpy pf = Err e ->
     run_extended_benchmarks pf s
     = Raise e (add_event (EvEnter "extended_memory_benchmark") s1) /\
     current_info (add_event (EvEnter "extended_memory_benchmark") s1) = current_info s).
Proof.
  split; [| split].
  - intros e s' H. unfold run_benchmarks in H.
    apply bind_raise_inv in H as [H | (r1 & s1 & _ & H)];
      [exfalso; eapply (cpu_benchmark_never_raises 3); [reflexivity | eauto] |].
    apply bind_raise_inv in H as [H | (r2 & s2 & _ & H)];
      [eapply memory_benchmark_raise_inv; eauto |].
    apply bind_raise_inv in H as [H | (r3 & s3 & _ & H)];
      [exfalso; eapply disk_benchmark_never_raises; eauto |].
    unfold assign_current_info, mbind, M_bind, bind in H. cbn [modify emit] in H.
    discriminate H.
  - intros e s' H. unfold run_extended_benchmarks in H.
    apply bind_raise_inv in H as [H | (r1 & s1 & _ & H)];
      [exfalso; eapply (extended_cpu_benchmark_never_raises 5); [reflexivity | eauto] |].
    apply bind_raise_inv in H as [H | (r2 & s2 & _ & H)];
      [eapply extended_memory_benchmark_raise_inv; eauto |].
    apply bind_raise_inv in H as [H | (r3 & s3 & _ & H)];
      [exfalso; eapply extended_disk_benchmark_never_raises; eauto |].
    unfold assign_current_info, mbind, M_bind, bind in H. cbn [modify emit] in H.
    discriminate H.
  - intros e r1 s1 Hcpu Himport. split.
    + unfold run_extended_benchmarks. rewrite (bind_ret _ _ _ _ _ Hcpu).
      apply bind_raise. unfold extended_memory_benchmark, probe.
      unfold mbind, M_bind, bind. cbn [emit modify]. unfold lift. rewrite Himport. reflexivity.
    + pose proof (extended_cpu_benchmark_trace 5 s) as T. rewrite Hcpu in T.
      destruct T as (evs & _ & _ & Hinfo & _). exact Hinfo.
Qed.

(** ** The collectors *)

Lemma for_append_all {A} (f : A -> res (option value)) (g : A -> value) xs : forall acc,
  Forall (fun x => f x = Ok (Some (g x))) xs ->
  for_append f xs acc = ((acc ++ map g xs)%list, None).
Proof.
  induction xs as [|x xs IH]; intros acc H.
  - simpl. rewrite app_nil_r. reflexivity.
  - inversion H as [|? ? Hx Hxs]; subst. simpl. rewrite Hx, IH by exact Hxs.
    rewrite <- app_assoc. reflexivity.
Qed.

Lemma for_append_stops {A} (f : A -> res (option value)) (g : A -> value) before x after e :
  forall acc,
  Forall (fun x => f x = Ok (Some (g x))) before ->
  f x = Err e ->
  for_append f (before ++ x :: after)%list acc = ((acc ++ map g before)%list, Some e).
Proof.
  induction before as [|y before IH]; intros acc H Hx.
  - simpl. rewrite Hx, app_nil_r. reflexivity.
  - inversion H as [|? ? Hy Hbefore]; subst. simpl. rewrite Hy, IH by assumption.
    rewrite <- app_assoc. reflexivity.
Qed.

(** X16.  [get_disk_info] lists the partitions in the order [psutil] gives
    them.  When the usage of one of them cannot be read (a drive with no
    medium), the entries made so far are kept, one ["Error"] entry follows,
    and the partitions after it are not listed at all. *)
Theorem disk_info_stops_at_first_failure
    (pf : Platform) (usage : sdiskpart -> sdiskusage) (before after : list sdiskpart) :
  Forall (fun q => psutil_disk_usage pf (p_mountpoint q) = Ok (usage q)) before ->
  (psutil_disk_partitions pf = Ok before ->
   get_disk_info pf = Ok (VList (map (fun q => disk_entry q (usage q)) before)))
  /\
  (forall p e,
     psutil_disk_partitions pf = Ok (before ++ p :: after)%list ->
     psutil_disk_usage pf (p_mountpoint p) = Err e ->
     get_disk_info pf
     = Ok (VList (map (fun q => disk_entry q (usage q)) before
                  ++ [VDict [("Error", VStr ("Failed to get disk info: " ++ exn_msg e))]])%list)).
Proof.
  intros Hbefore.
  assert (Hf : Forall (fun q =>
                 (usage ← psutil_disk_usage pf (p_mountpoint q);
                  mret (Some (disk_entry q usage)))
                 = Ok (Some (disk_entry q (usage q)))) before).
  { eapply Forall_impl; [exact Hbefore |]. intros q Hq. cbn beta in Hq. rewrite Hq. reflexivity. }
  split.
  - intros Hparts. unfold get_disk_info, collect_list. rewrite Hparts.
    rewrite (for_append_all _ (fun q => disk_entry q (usage q))) by exact Hf.
    reflexivity.
  - intros p e Hparts Hp. unfold get_disk_info, collect_list. rewrite Hparts.
    rewrite (for_append_stops _ (fun q => disk_entry q (usage q)) before p after e).
    + reflexivity.
    + exact Hf.
    + rewrite Hp. reflexivity.
Qed.

(** X17.  The record of [get_cpu_info] has no field, one or ten.  It is the
    single field ["Error"] with the text of the exception when the query
    raises; [{}] when WMI lists no processor; the single field ["Error"]
    when the first processor has no name to strip; and otherwise the ten
    fields of the first processor, in this order and with these values,
    whatever other processors follow. *)
Theorem cpu_info_has_no_field_one_or_ten (pf : Platform) :
  get_cpu_info pf
  = Ok (VDict
          match wmi_Win32_Processor pf with
          | Err e => [("Error", VStr ("Failed to get CPU info: " ++ exn_msg e))]
          | Ok [] => []
          | Ok (cpu :: _) =>
              match cpu_Name cpu with
              | None =>
                  [("Error", VStr ("Failed to get CPU info: " ++
                                   "'NoneType' object has no attribute 'strip'"))]
              | Some name =>
                  [("Name", VStr (str_strip name));
                   ("Manufacturer", cpu_Manufacturer cpu);
                   ("Cores (Physical)", cpu_NumberOfCores cpu);
                   ("Threads (Logical)", cpu_NumberOfLogicalProcessors cpu);
                   ("Max Clock Speed (MHz)", cpu_MaxClockSpeed cpu);
                   ("Current Clock Speed (MHz)", cpu_CurrentClockSpeed cpu);
                   ("Architecture", cpu_Architecture cpu);
                   ("Processor ID", cpu_ProcessorId cpu);
                   ("L2 Cache Size (KB)", cpu_L2CacheSize cpu);
                   ("L3 Cache Size (KB)", cpu_L3CacheSize cpu)]
              end
          end).
Proof.
  unfold get_cpu_info, collect_first.
  destruct (wmi_Win32_Processor pf) as [[|cpu others] | e]; try reflexivity.
  cbn [mbind res_mbind res_bind mret res_ret res_catch].
  destruct (cpu_Name cpu) as [name |]; reflexivity.
Qed.

(** ** Splitting and stripping *)

Lemma str_split_no_sep sep s : contains_char sep s = false -> str_split sep s = [s].
Proof.
  induction s as [|c s IH]; [reflexivity |].
  simpl. rewrite (eqb_sym sep c). destruct (Ascii.eqb c sep); [discriminate |].
  simpl. intros H. rewrite IH by exact H. reflexivity.
Qed.

Lemma str_split_first sep p rest :
  contains_char sep p = false ->
  str_split sep (p ++ String sep rest) = p :: str_split sep rest.
Proof.
  induction p as [|c p IH]; intros H.
  - rewrite append_nil. simpl. rewrite Ascii.eqb_refl. reflexivity.
  - simpl in H. rewrite (eqb_sym sep c) in H.
    rewrite append_cons. simpl. destruct (Ascii.eqb c sep); [discriminate H |].
    simpl in H. rewrite IH by exact H. reflexivity.
Qed.

Lemma lstrip_with_none q s :
  contains_char q s = false -> lstrip_with (Ascii.eqb q) s = s.
Proof.
  destruct s as [|c s]; [reflexivity |].
  simpl. destruct (Ascii.eqb q c); [discriminate | reflexivity].
Qed.

Lemma list_ascii_of_string_app a b :
  list_ascii_of_string (a ++ b) = (list_ascii_of_string a ++ list_ascii_of_string b)%list.
Proof.
  induction a as [|c a IH]; [reflexivity |].
  rewrite append_cons. simpl. rewrite IH. reflexivity.
Qed.

Lemma string_rev_snoc s c : string_rev (s ++ String c EmptyString) = String c (string_rev s).
Proof.
  unfold string_rev. rewrite list_ascii_of_string_app. simpl.
  rewrite rev_unit. reflexivity.
Qed.

Lemma string_rev_involutive s : string_rev (string_rev s) = s.
Proof.
  unfold string_rev. rewrite list_ascii_of_string_of_list_ascii, rev_involutive.
  apply string_of_list_ascii_of_string.
Qed.

Lemma contains_char_in c s : contains_char c s = true <-> In c (list_ascii_of_string s).
Proof.
  induction s as [|c' s IH]; simpl; [split; [discriminate | contradiction] |].
  rewrite orb_true_iff, IH, Ascii.eqb_eq. split; intros [H | H]; auto.
Qed.

Lemma contains_char_rev c s : contains_char c (string_rev s) = contains_char c s.
Proof.
  apply eq_true_iff_eq. rewrite !contains_char_in. unfold string_rev.
  rewrite list_ascii_of_string_of_list_ascii. symmetry. apply in_rev.
Qed.

Lemma strip_quotes_of_quoted s :
  contains_char dquote s = false ->
  str_strip_quotes (String dquote (s ++ String dquote EmptyString)) = s.
Proof.
  intros H. unfold str_strip_quotes, strip_with.
  cbn [lstrip_with]. rewrite Ascii.eqb_refl.
  destruct s as [|c s]; [reflexivity |].
  assert (Hc : Ascii.eqb dquote c = false).
  { simpl in H. apply orb_false_iff in H. apply H. }
  rewrite append_cons. cbn [lstrip_with]. rewrite Hc.
  rewrite <- append_cons, string_rev_snoc. cbn [lstrip_with]. rewrite Ascii.eqb_refl.
  rewrite lstrip_with_none by (rewrite contains_char_rev; exact H).
  apply string_rev_involutive.
Qed.

Lemma contains_char_app c a b :
  contains_char c (a ++ b) = contains_char c a || contains_char c b.
Proof.
  induction a as [|c' a IH]; [reflexivity |].
  rewrite append_cons. simpl. rewrite IH, orb_assoc. reflexivity.
Qed.

(** ** The USB devices *)

Lemma usb_device_id path device_id :
  contains_char "=" path = false -> contains_char "=" device_id = false ->
  contains_char dquote device_id = false ->
  (part ← list_index
            (str_split "=" (path ++ "=" ++ String dquote (device_id ++ String dquote EmptyString)))
            1;
   mret (Some (VStr (str_strip_quotes part))))
  = Ok (Some (VStr device_id)).
Proof.
  intros Hpath Hid Hquote.
  change (path ++ "=" ++ String dquote (device_id ++ String dquote EmptyString))
    with (path ++ String "=" (String dquote (device_id ++ String dquote EmptyString))).
  rewrite str_split_first by exact Hpath.
  rewrite str_split_no_sep.
  - cbn [list_index nth_error mbind res_mbind res_bind mret res_ret].
    rewrite strip_quotes_of_quoted by exact Hquote. reflexivity.
  - cbn [contains_char]. rewrite contains_char_app, Hid. reflexivity.
Qed.

Lemma usb_dependent_nonempty path device_id :
  String.eqb (path ++ "=" ++ String dquote (device_id ++ String dquote EmptyString)) EmptyString
  = false.
Proof. destruct path; reflexivity. Qed.

Lemma for_append_map {A B} (f : B -> res (option value)) (h : A -> B) (g : A -> value) xs :
  forall acc,
  Forall (fun x => f (h x) = Ok (Some (g x))) xs ->
  for_append f (map h xs) acc = ((acc ++ map g xs)%list, None).
Proof.
  induction xs as [|x xs IH]; intros acc H.
  - simpl. rewrite app_nil_r. reflexivity.
  - inversion H as [|? ? Hx Hxs]; subst. simpl. rewrite Hx, IH by exact Hxs.
    rewrite <- app_assoc. reflexivity.
Qed.

Lemma for_append_map_stops {A B} (f : B -> res (option value)) (h : A -> B) (g : A -> value)
    before y after e :
  forall acc,
  Forall (fun x => f (h x) = Ok (Some (g x))) before ->
  f y = Err e ->
  for_append f (map h before ++ y :: after)%list acc = ((acc ++ map g before)%list, Some e).
Proof.
  induction before as [|x before IH]; intros acc H Hy.
  - simpl. rewrite Hy, app_nil_r. reflexivity.
  - inversion H as [|? ? Hx Hbefore]; subst. simpl. rewrite Hx, IH by assumption.
    rewrite <- app_assoc. reflexivity.
Qed.

(** X19.  [get_usb_devices] answers, for each association whose [Dependent]
    is a path ending in [="<identifier>"], the identifier without its
    quotes, in the order of the query.  A [Dependent] with no equals sign
    ends the listing: the identifiers found so far are followed by one
    ["Error"] entry, and the associations after it are not looked at. *)
Theorem usb_devices_are_the_quoted_identifiers
    (pf : Platform) (devices : list (string * string)) :
  Forall plain_device devices ->
  (wmi_Win32_USBControllerDevice pf
   = Ok (map (fun d => usb_dependent (fst d) (snd d)) devices) ->
   get_usb_devices pf = Ok (VList (map (fun d => VStr (snd d)) devices)))
  /\
  (forall odd others,
     odd <> EmptyString -> contains_char "=" odd = false ->
     wmi_Win32_USBControllerDevice pf
     = Ok (map (fun d => usb_dependent (fst d) (snd d)) devices
           ++ {| usb_Dependent := Some odd |} :: others)%list ->
     get_usb_devices pf
     = Ok (VList (map (fun d => VStr (snd d)) devices
                  ++ [VDict [("Error",
                              VStr "Failed to get USB devices: list index out of range")]])%list)).
Proof.
  intros Hplain.
  set (f := fun usb : Win32_USBControllerDevice =>
              match usb_Dependent usb with
              | None => mret None
              | Some dependent =>
                  if String.eqb dependent EmptyString then mret None
                  else
                    part ← list_index (str_split "=" dependent) 1;
                    mret (Some (VStr (str_strip_quotes part)))
              end).
  assert (Hf : Forall (fun d => f (usb_dependent (fst d) (snd d)) = Ok (Some (VStr (snd d))))
                 devices).
  { eapply Forall_impl; [exact Hplain |].
    intros [path device_id] (Hpath & Hid & Hquote). cbn [fst snd] in *.
    unfold f, usb_dependent. cbn [usb_Dependent].
    rewrite usb_dependent_nonempty. apply usb_device_id; assumption. }
  split.
  - intros Hquery. unfold get_usb_devices, collect_list. rewrite Hquery. fold f.
    rewrite (for_append_map f _ (fun d => VStr (snd d))) by exact Hf. reflexivity.
  - intros odd others Hodd Hsep Hquery.
    unfold get_usb_devices, collect_list. rewrite Hquery. fold f.
    rewrite (for_append_map_stops f _ (fun d => VStr (snd d)) devices _ others
               (Exn "IndexError" "list index out of range")).
    + reflexivity.
    + exact Hf.
    + unfold f. cbn [usb_Dependent].
      destruct (String.eqb_spec odd EmptyString) as [Heq | _]; [contradiction |].
      rewrite str_split_no_sep by exact Hsep. reflexivity.
Qed.

(** ** The network adapters *)

Lemma addresses_where_known family addrs :
  addresses_where (Ok family) addrs
  = Ok (map (fun a => VStr (addr_address a))
            (List.filter (fun a => same_family (addr_family a) family) addrs)).
Proof.
  induction addrs as [|a addrs IH]; [reflexivity |].
  cbn [addresses_where List.filter]. cbn [mbind res_mbind res_bind]. rewrite IH.
  cbn [mbind res_mbind res_bind mret res_ret].
  destruct (same_family (addr_family a) family); reflexivity.
Qed.

Lemma addresses_where_unknown e a addrs : addresses_where (Err e) (a :: addrs) = Err e.
Proof. reflexivity. Qed.

(** X20.  [get_network_info] looks up [psutil.AF_INET] at the first address
    it meets.  psutil names no [AF_INET], so with psutil as released the
    lookup raises: the interfaces listed are those that come before the
    first interface with an address, each with the text ["None"] for its
    addresses, and the list ends with one ["Error"] entry there; every
    interface is listed only when none has an address.  Were the lookup
    to answer, every interface would be listed with its addresses of that
    family and its link addresses.  An interface that [net_if_stats] does
    not know is reported as down. *)
Theorem network_info_stops_at_first_address
    (pf : Platform) (stats : gmap string bool) (before : list (string * list snicaddr)) :
  psutil_net_if_stats pf = Ok stats ->
  Forall (fun iface => snd iface = []) before ->
  let bare iface := adapter_entry stats (fst iface) (VList [VStr "None"]) (VList [VStr "None"]) in
  (forall e iface_name addr others after,
     psutil_AF_INET pf = Err e ->
     psutil_net_if_addrs pf = Ok (before ++ (iface_name, addr :: others) :: after)%list ->
     get_network_info pf
     = Ok (VList (map bare before
                  ++ [VDict [("Error", VStr ("Failed to get network info: " ++ exn_msg e))]])%list))
  /\
  (psutil_net_if_addrs pf = Ok before ->
   get_network_info pf = Ok (VList (map bare before)))
  /\
  (forall family addrs,
     psutil_AF_INET pf = Ok family ->
     psutil_net_if_addrs pf = Ok addrs ->
     get_network_info pf
     = Ok (VList (map (fun iface =>
                         adapter_entry stats (fst iface) (addresses_of family (snd iface))
                                       (addresses_of AF_LINK (snd iface))) addrs))).
Proof.
  intros Hstats Hbefore bare.
  assert (Hbare : Forall (fun iface =>
            (let '(stats, (iface_name, iface_addrs)) := pair stats iface in
             ips ← addresses_where (psutil_AF_INET pf) iface_addrs;
             macs ← addresses_where (Ok AF_LINK) iface_addrs;
             mret (Some (adapter_entry stats iface_name (or_none ips) (or_none macs))))
            = Ok (Some (bare iface))) before).
  { eapply Forall_impl; [exact Hbefore |]. intros [name iface_addrs] Hnone.
    cbn [snd] in Hnone. subst iface_addrs. reflexivity. }
  split; [| split].
  - intros e iface_name addr others after HAF Haddrs.
    unfold get_network_info, collect_list. rewrite Haddrs, Hstats.
    cbn [mbind res_mbind res_bind mret res_ret]. rewrite map_app. cbn [map].
    rewrite (for_append_map_stops _ (pair stats) bare before _ _ e).
    + reflexivity.
    + exact Hbare.
    + rewrite HAF. reflexivity.
  - intros Haddrs. unfold get_network_info, collect_list. rewrite Haddrs, Hstats.
    cbn [mbind res_mbind res_bind mret res_ret].
    rewrite (for_append_map _ (pair stats) bare) by exact Hbare. reflexivity.
  - intros family addrs HAF Haddrs.
    unfold get_network_info, collect_list. rewrite Haddrs, Hstats, HAF.
    cbn [mbind res_mbind res_bind mret res_ret].
    rewrite (for_append_map _ (pair stats)
               (fun iface => adapter_entry stats (fst iface) (addresses_of family (snd iface))
                               (addresses_of AF_LINK (snd iface)))).
    + reflexivity.
    + apply Forall_forall. intros [name iface_addrs] _.
      cbn beta iota. rewrite !addresses_where_known. reflexivity.
Qed.

(** ** Tuples in the structured export *)

Lemma json_items_ext {A B} (f : A -> string) (g : B -> string) (h : A -> B) sep closing l :
  Forall (fun x => f x = g (h x)) l ->
  json_items f sep closing l = json_items g sep closing (map h l).
Proof.
  induction 1 as [|x l Hx Hl IH]; [reflexivity |].
  destruct l as [|y l]; cbn [json_items map] in *; rewrite Hx; [reflexivity |].
  rewrite IH. reflexivity.
Qed.

Lemma json_encode_tuples v : forall level,
  json_encode level v = json_encode level (tuples_as_lists v).
Proof.
  induction v as [| b | n | r | t | l IH | l IH | d IH] using value_rect'; intros level;
    try reflexivity.
  - destruct l as [|x l]; [reflexivity |].
    cbn [tuples_as_lists]. cbn [json_encode map].
    rewrite (json_items_ext _ (json_encode (S level)) tuples_as_lists); [reflexivity |].
    eapply Forall_impl; [exact IH |]. intros y Hy. apply Hy.
  - destruct l as [|x l]; [reflexivity |].
    cbn [tuples_as_lists]. cbn [json_encode map].
    rewrite (json_items_ext _ (json_encode (S level)) tuples_as_lists); [reflexivity |].
    eapply Forall_impl; [exact IH |]. intros y Hy. apply Hy.
  - destruct d as [|kv d]; [reflexivity |].
    cbn [tuples_as_lists]. cbn [json_encode map].
    rewrite (json_items_ext _
               (fun kv => json_string (fst kv) ++ ": " ++ json_encode (S level) (snd kv))
               (fun kv => (fst kv, tuples_as_lists (snd kv)))); [reflexivity |].
    eapply Forall_impl; [exact IH |]. intros [k v] Hv. cbn [fst snd] in *.
    rewrite <- Hv. reflexivity.
Qed.

Lemma fact_record_has_no_tuple v : fact_record v = true -> tuples_as_lists v = v.
Proof.
  induction v as [| b | n | r | t | l IH | l IH | d IH] using value_rect'; intros H;
    try reflexivity; try discriminate H.
  - cbn [tuples_as_lists]. f_equal. cbn [fact_record] in H.
    induction IH as [|x l Hx _ IHl]; [reflexivity |].
    cbn [forallb] in H. apply andb_true_iff in H as [H1 H2].
    cbn [map]. rewrite Hx, IHl by assumption. reflexivity.
  - cbn [tuples_as_lists]. f_equal. cbn [fact_record] in H.
    apply andb_true_iff in H as [_ H].
    induction IH as [|[k v] d Hv _ IHd]; [reflexivity |].
    cbn [forallb fst snd] in *. apply andb_true_iff in H as [H1 H2].
    cbn [map fst snd]. rewrite Hv, IHd by assumption. reflexivity.
Qed.

(** X21.  [json.dump] writes a tuple as it writes a list, so reading the
    structured export back gives the record with every tuple turned into
    a list.  A record without tuples comes back as it was; the record of
    [get_system_locale], whose two fields are tuples, does not. *)
Theorem tuples_come_back_as_lists (v : value) :
  fact_record (tuples_as_lists v) = true ->
  json_loads (json_dumps v) = Some (tuples_as_lists v) /\
  (fact_record v = true -> tuples_as_lists v = v) /\
  (forall pf loc, get_system_locale pf = Ok v -> locale_getdefaultlocale pf = Ok loc ->
                  tuples_as_lists v <> v).
Proof.
  intros H. split; [| split].
  - unfold json_dumps. rewrite json_encode_tuples. apply json_loads_dumps. exact H.
  - apply fact_record_has_no_tuple.
  - intros pf loc Hv Hloc. unfold get_system_locale, collect_dict in Hv. rewrite Hloc in Hv.
    cbn in Hv. injection Hv as <-. discriminate.
Qed.

(** ** The structured export is ASCII *)

Lemma ascii_text_app a b : ascii_text (a ++ b) = ascii_text a && ascii_text b.
Proof.
  induction a as [|c a IH]; [reflexivity |].
  rewrite append_cons. simpl. rewrite IH, andb_assoc. reflexivity.
Qed.

Lemma ascii_json_escape_char c : ascii_text (json_escape_char c) = true.
Proof. destruct c as [[] [] [] [] [] [] [] []]; reflexivity. Qed.

Lemma ascii_json_string s : ascii_text (json_string s) = true.
Proof.
  unfold json_string. cbn [ascii_text]. rewrite ascii_text_app.
  replace (ascii_text (json_escape s)) with true; [reflexivity |].
  induction s as [|c s IH]; [reflexivity |].
  cbn [json_escape]. rewrite ascii_text_app, ascii_json_escape_char, <- IH. reflexivity.
Qed.

Lemma ascii_string_of_uint d : ascii_text (NilEmpty.string_of_uint d) = true.
Proof. induction d; simpl; auto. Qed.

Lemma ascii_string_of_Z z : ascii_text (string_of_Z z) = true.
Proof.
  assert (H : forall d, ascii_text (NilZero.string_of_uint d) = true).
  { intros d. unfold NilZero.string_of_uint.
    destruct d; try reflexivity; apply ascii_string_of_uint. }
  unfold string_of_Z, NilZero.string_of_int.
  destruct (Z.to_int z) as [d | d]; [apply H |].
  cbn [ascii_text]. apply andb_true_intro. split; [reflexivity | apply H].
Qed.

Lemma ascii_spaces n : ascii_text (spaces n) = true.
Proof. induction n as [|n IH]; [reflexivity |]. exact IH. Qed.

Lemma ascii_newline_indent level : ascii_text (newline_indent level) = true.
Proof. unfold newline_indent. cbn [ascii_text]. apply ascii_spaces. Qed.

Lemma ascii_json_float r : ascii_text r = true -> ascii_text (json_float r) = true.
Proof.
  intros H. unfold json_float.
  repeat match goal with |- context [String.eqb r ?lit] => destruct (String.eqb r lit) end;
    auto.
Qed.

Lemma ascii_json_items {A} (encode : A -> string) sep closing l :
  ascii_text sep = true -> ascii_text closing = true ->
  Forall (fun x => ascii_text (encode x) = true) l ->
  ascii_text (json_items encode sep closing l) = true.
Proof.
  intros Hsep Hclosing. induction 1 as [|x l Hx Hl IH]; [exact Hclosing |].
  destruct l as [|y l]; cbn [json_items] in *.
  - rewrite ascii_text_app, Hx, Hclosing. reflexivity.
  - rewrite !ascii_text_app, Hx, Hsep, IH. reflexivity.
Qed.

Lemma ascii_json_encode v : forall level,
  ascii_floats v = true -> ascii_text (json_encode level v) = true.
Proof.
  assert (Hsep : forall level, ascii_text ("," ++ newline_indent level) = true).
  { intros level. cbn [ascii_text]. apply ascii_newline_indent. }
  induction v as [| b | n | r | t | l IH | l IH | d IH] using value_rect'; intros level H.
  - reflexivity.
  - destruct b; reflexivity.
  - apply ascii_string_of_Z.
  - apply ascii_json_float. exact H.
  - apply ascii_json_string.
  - destruct l as [|x l]; [reflexivity |]. cbn [json_encode].
    cbn [ascii_text append]. rewrite !ascii_text_app, ascii_newline_indent.
    rewrite ascii_json_items; auto using ascii_newline_indent.
    cbn [ascii_floats] in H. rewrite forallb_forall in H.
    rewrite List.Forall_forall in IH |- *. intros y Hy. apply IH; auto.
  - destruct l as [|x l]; [reflexivity |]. cbn [json_encode].
    cbn [ascii_text append]. rewrite !ascii_text_app, ascii_newline_indent.
    rewrite ascii_json_items; auto using ascii_newline_indent.
    cbn [ascii_floats] in H. rewrite forallb_forall in H.
    rewrite List.Forall_forall in IH |- *. intros y Hy. apply IH; auto.
  - destruct d as [|kv d]; [reflexivity |]. cbn [json_encode].
    cbn [ascii_text append]. rewrite !ascii_text_app, ascii_newline_indent.
    rewrite ascii_json_items; auto using ascii_newline_indent.
    cbn [ascii_floats] in H. rewrite forallb_forall in H.
    rewrite List.Forall_forall in IH |- *. intros [k v] Hkv.
    rewrite !ascii_text_app, ascii_json_string. cbn [ascii_text andb].
    apply (IH (k, v) Hkv). apply (H (k, v) Hkv).
Qed.

(** A structured export that succeeded left one text in the file. *)
Lemma export_json_writes_dumps data filename s s' :
  export_json data filename s = Ret ExportTrue s' ->
  files s' !! filename = Some [Chars (json_dumps data)].
Proof.
  intros H. unfold export_json, try_except in H.
  destruct (export_json_try data filename s) as [r s1 | e s1 |] eqn:Htry;
    [| discriminate H | discriminate H].
  injection H as -> ->. unfold export_json_try in Htry.
  apply bind_ret_inv in Htry as ([] & sa & Hopen & Htry).
  apply bind_ret_inv in Htry as ([] & sb & Hwrite & Htry).
  cbn in Htry. injection Htry as <-.
  unfold open_write in Hopen.
  apply bind_ret_inv in Hopen as ([] & s1 & _ & Hopen).
  apply bind_ret_inv in Hopen as ([] & s2 & Hmod & Hopen).
  cbn in Hmod, Hopen. inversion Hmod; subst. inversion Hopen; subst. clear Hmod Hopen.
  unfold file_write in Hwrite.
  apply bind_ret_inv in Hwrite as ([] & s3 & Hfp & Hwrite).
  apply bind_ret_inv in Hwrite as ([] & s4 & Hmod & Hwrite).
  cbn in Hmod, Hwrite. inversion Hmod; subst. inversion Hwrite; subst. clear Hmod Hwrite.
  apply fault_point_ret in Hfp.
  cbn. rewrite lookup_insert_eq, Hfp. cbn. rewrite lookup_insert_eq. reflexivity.
Qed.

(** X22.  The text of the structured export is ASCII whatever the strings
    of the record hold: [json.dump] escapes every character outside the
    printable ASCII range. *)
Theorem structured_export_is_ascii (data : value) (filename : string) (s s' : State) :
  ascii_floats data = true ->
  export_json data filename s = Ret ExportTrue s' ->
  exists text, files s' !! filename = Some [Chars text] /\ ascii_text text = true.
Proof.
  intros Hfloats H. exists (json_dumps data).
  split; [exact (export_json_writes_dumps _ _ _ _ H) |].
  apply ascii_json_encode. exact Hfloats.
Qed.

(** ** The record of the extended tier *)

Lemma extended_memory_benchmark_result pf s r s' :
  extended_memory_benchmark pf s = Ret r s' ->
  (exists elapsed, r = [("Extended Memory Benchmark (sum 10M floats)", VStr elapsed)]) \/
  (exists e, r = [("Error", VStr ("Failed extended memory benchmark: " ++ exn_msg e))]).
Proof.
  intros H. apply probe_ret_inv in H as (s1 & H & _).
  apply bind_ret_inv in H as ([] & s2 & _ & H).
  apply try_except_ret_inv in H as [H | (e & s3 & _ & H)].
  - ret_inv H. cbn in H. injection H as <- _. left. eexists; reflexivity.
  - cbn in H. injection H as <- _. right. eexists; reflexivity.
Qed.

(** X23.  When the extended tier runs to its end, the stored record starts
    with the CPU count and goes on with the memory field and the disk
    field, each a timing or an ["Error"]; when both are errors they share
    the key, so the record has two fields and the message is the one of
    the disk probe.  A key never occurs twice. *)
Theorem extended_merge_has_two_or_three_fields (pf : Platform) (s s' : State) :
  run_extended_benchmarks pf s = Ret tt s' ->
  exists count fields,
    current_info s' = VDict (("Extended CPU Benchmark loops", VInt count) :: fields) /\
    List.NoDup (dict_keys (("Extended CPU Benchmark loops", VInt count) :: fields)) /\
    ((exists memory disk,
        fields = [("Extended Memory Benchmark (sum 10M floats)", VStr memory);
                  ("Extended Disk Benchmark (3x 50MB write/read)", VStr disk)]) \/
     (exists memory e,
        fields = [("Extended Memory Benchmark (sum 10M floats)", VStr memory);
                  ("Error", VStr ("Failed extended disk benchmark: " ++ exn_msg e))]) \/
     (exists e disk,
        fields = [("Error", VStr ("Failed extended memory benchmark: " ++ exn_msg e));
                  ("Extended Disk Benchmark (3x 50MB write/read)", VStr disk)]) \/
     (exists e, fields = [("Error", VStr ("Failed extended disk benchmark: " ++ exn_msg e))])).
Proof.
  intros H. unfold run_extended_benchmarks in H.
  apply bind_ret_inv in H as (r1 & s1 & H1 & H).
  apply bind_ret_inv in H as (r2 & s2 & H2 & H).
  apply bind_ret_inv in H as (r3 & s3 & H3 & H).
  apply extended_cpu_benchmark_result in H1 as (count & ->).
  apply extended_memory_benchmark_result in H2 as [(memory & ->) | (e2 & ->)];
    apply extended_disk_benchmark_result in H3 as [(disk & ->) | (e3 & ->)];
    cbn in H; injection H as <-; exists count; eexists;
    (split; [reflexivity |]);
    (split; [cbn [dict_keys map fst];
             repeat (apply List.NoDup_cons; [cbn; intuition discriminate |]);
             apply List.NoDup_nil |]).
  - left. eauto.
  - right. left. eauto.
  - right. right. left. eauto.
  - right. right. right. eauto.
Qed.

(** ** Nothing to export *)

Lemma no_data_to_export s :
  current_info s = VDict [] ->
  app_export_json s
  = Ret tt (set_textbox (textbox s ++ newline ++ "No data to export!" ++ newline) s) /\
  app_export_csv s
  = Ret tt (set_textbox (textbox s ++ newline ++ "No data to export!" ++ newline) s).
Proof.
  intros H. unfold app_export_json, app_export_csv, app_export, mbind, M_bind, bind, get_state.
  rewrite H. split; reflexivity.
Qed.

(** X24.  With the empty dict as the stored record, each export button only
    appends its "No data to export!" line: no file is opened and no fault
    is met.  That is the state of a new application, and also the state
    after "CPU Info" was shown on a machine where WMI lists no
    processor. *)
Theorem empty_record_is_not_exported (pf : Platform) (s s' : State) :
  app_init s = Ret tt s' \/
  (wmi_Win32_Processor pf = Ok [] /\
   (handle pf (Select "CPU Info") ;; handle pf PressShow) s = Ret tt s') ->
  current_info s' = VDict [] /\
  app_export_json s'
  = Ret tt (set_textbox (textbox s' ++ newline ++ "No data to export!" ++ newline) s') /\
  app_export_csv s'
  = Ret tt (set_textbox (textbox s' ++ newline ++ "No data to export!" ++ newline) s').
Proof.
  intros H.
  assert (Hinfo : current_info s' = VDict []).
  { destruct H as [H | [Hwmi H]].
    - unfold app_init, assign_current_info, mbind, M_bind, bind in H.
      cbn [modify emit] in H. injection H as <-. reflexivity.
    - assert (Hshow : (handle pf (Select "CPU Info") ;; handle pf PressShow) s
                      = show (VDict []) (set_textbox EmptyString (set_combo "CPU Info" s))).
      { unfold handle, extended_show_info, show_info, mbind, M_bind, bind, get_state.
        cbn beta iota delta [textbox_delete_all modify combo set_textbox set_combo
                             String.eqb Ascii.eqb Bool.eqb].
        unfold lift, get_cpu_info, collect_first. rewrite Hwmi. reflexivity. }
      rewrite Hshow in H. apply show_in_step in H as (Hinfo & _). exact Hinfo. }
  split; [exact Hinfo |]. apply no_data_to_export. exact Hinfo.
Qed.

(** ** The flat export forgets the nesting *)

Lemma nested_field_rows filename b c v others s :
  is_list v = false ->
  write_dict filename (VDict ((b, VList [VDict [(c, v)]]) :: others)) EmptyString s
  = write_dict filename (VDict ((b, VList [VDict []]) :: ("    " ++ c, v) :: others))
      EmptyString s.
Proof.
  intros Hv. rewrite !write_dict_fields. cbn [for_each].
  set (tail := for_each (write_field filename EmptyString) others).
  unfold write_field, write_item. cbn [fst snd for_enumerate].
  rewrite !write_dict_fields. cbn [for_each].
  unfold write_field. cbn [fst snd].
  rewrite !append_nil. unfold mbind, M_bind, bind.
  destruct (writerow filename [VStr b] s) as [[] s2 | |]; try reflexivity.
  destruct (writerow filename [VStr ("  Item " ++ string_of_Z 1)] s2) as [[] s3 | |];
    try reflexivity.
  cbn [mret M_ret ret].
  destruct v; try discriminate Hv;
    match goal with
    | |- context [writerow filename ?row s3] =>
        destruct (writerow filename row s3) as [[] s4 | |]; reflexivity
    end.
Qed.

(** X25.  Two different records with the same flat export: a field of a
    dict inside a list is written as a top-level field whose name starts
    with four spaces would be.  Whatever the faults to come, both exports
    end alike. *)
Theorem flat_export_forgets_the_nesting
    (filename b c : string) (v : value) (others : pydict) (s : State) :
  is_list v = false ->
  VDict ((b, VList [VDict [(c, v)]]) :: others)
  <> VDict ((b, VList [VDict []]) :: ("    " ++ c, v) :: others) /\
  export_csv (VDict ((b, VList [VDict [(c, v)]]) :: others)) filename s
  = export_csv (VDict ((b, VList [VDict []]) :: ("    " ++ c, v) :: others)) filename s.
Proof.
  intros Hv. split.
  - intros H. injection H as H _. discriminate H.
  - unfold export_csv, try_except, export_csv_try, mbind, M_bind, bind.
    destruct (open_write filename s) as [[] s1 | e s1 |]; [| reflexivity | reflexivity].
    rewrite (nested_field_rows filename b c v others s1 Hv). reflexivity.
Qed.

(** ** Runs without a failure *)

Lemma clock_only_bind {A B} (m : M A) (k : A -> M B) :
  clock_only m -> (forall a, clock_only (k a)) -> clock_only (m ≫= k).
Proof.
  intros Hm Hk s b s' H. apply bind_ret_inv in H as (a & s1 & H1 & H2).
  destruct (Hm _ _ _ H1) as (F1 & T1 & X1). destruct (Hk a _ _ _ H2) as (F2 & T2 & X2).
  repeat split; congruence.
Qed.

Lemma clock_only_ret {A} (a : A) : clock_only (mret a).
Proof. intros s a' s' H. injection H as _ <-. auto. Qed.

Lemma clock_only_time_time : clock_only time_time.
Proof.
  intros s t s' H. unfold time_time in H. destruct (clock s); [discriminate H |].
  injection H as _ <-. auto.
Qed.

Lemma clock_only_emit ev : clock_only (emit ev).
Proof. intros s a s' H. injection H as _ <-. auto. Qed.

Lemma clock_only_lift {A} (r : res A) : clock_only (lift r).
Proof.
  intros s a s' H. unfold lift in H.
  destruct r; [injection H as _ <- | discriminate H]. auto.
Qed.

Lemma clock_only_busy_loop fuel : forall deadline count,
  clock_only (busy_loop fuel deadline count).
Proof.
  induction fuel as [|fuel IH]; intros deadline count; [intros s a s' H; discriminate H |].
  cbn [busy_loop]. apply clock_only_bind; [apply clock_only_time_time |].
  intros now. destruct (PrimFloat.ltb now deadline); [apply IH | apply clock_only_ret].
Qed.

Lemma clock_only_probe name body : clock_only body -> clock_only (probe name body).
Proof.
  intros H. unfold probe.
  apply clock_only_bind; [apply clock_only_emit | intros _].
  apply clock_only_bind; [exact H | intros r].
  apply clock_only_bind; [apply clock_only_emit | intros _]. apply clock_only_ret.
Qed.

Lemma clock_only_cpu_benchmark duration : clock_only (cpu_benchmark duration).
Proof.
  apply clock_only_probe. apply clock_only_bind; [apply clock_only_time_time | intros now].
  apply clock_only_bind; [apply clock_only_lift | intros d].
  apply clock_only_bind; [| intros count; apply clock_only_ret].
  unfold busy_until. intros s a s' H. apply bind_ret_inv in H as (st & s1 & Hget & H).
  injection Hget as <- <-. exact (clock_only_busy_loop _ _ _ _ _ _ H).
Qed.

Lemma clock_only_extended_cpu_benchmark duration : clock_only (extended_cpu_benchmark duration).
Proof.
  apply clock_only_probe. apply clock_only_bind; [apply clock_only_time_time | intros now].
  apply clock_only_bind; [apply clock_only_lift | intros d].
  apply clock_only_bind; [| intros count; apply clock_only_ret].
  unfold busy_until. intros s a s' H. apply bind_ret_inv in H as (st & s1 & Hget & H).
  injection Hget as <- <-. exact (clock_only_busy_loop _ _ _ _ _ _ H).
Qed.

(** The memory probes, when their buffer can be allocated. *)
Lemma memory_benchmark_runs pf s t1 t2 rest :
  bytearray_alloc pf = Ok tt -> clock s = t1 :: t2 :: rest ->
  exists s',
    memory_benchmark pf s
    = Ret [("Memory Benchmark (sum bytes)",
            VStr (format_4f (PrimFloat.sub t2 t1) ++ " seconds"))] s' /\
    clock s' = rest /\ faults s' = faults s /\ tmp_names s' = tmp_names s /\ files s' = files s.
Proof.
  intros Halloc Hclock. eexists. split.
  - unfold memory_benchmark, probe, mbind, M_bind, bind, time_time. cbn [emit modify].
    unfold lift. rewrite Halloc. cbn [clock add_event]. rewrite Hclock.
    cbn [clock add_event set_clock]. reflexivity.
  - repeat split; reflexivity.
Qed.

Lemma extended_memory_benchmark_runs pf s t1 t2 rest :
  import_numpy pf = Ok tt -> numpy_random_rand pf = Ok tt -> clock s = t1 :: t2 :: rest ->
  exists s',
    extended_memory_benchmark pf s
    = Ret [("Extended Memory Benchmark (sum 10M floats)",
            VStr (format_4f (PrimFloat.sub t2 t1) ++ " seconds"))] s' /\
    clock s' = rest /\ faults s' = faults s /\ tmp_names s' = tmp_names s /\ files s' = files s.
Proof.
  intros Himport Hrand Hclock. eexists. split.
  - unfold extended_memory_benchmark, probe, try_except, mbind, M_bind, bind, time_time.
    cbn [emit modify]. unfold lift. rewrite Himport, Hrand. cbn [clock add_event].
    rewrite Hclock. cbn [clock add_event set_clock]. reflexivity.
  - repeat split; reflexivity.
Qed.

Lemma fault_point_clear s : faults s = [] -> fault_point s = Ret tt s.
Proof. intros H. unfold fault_point. rewrite H. reflexivity. Qed.

Lemma open_write_clear n s :
  faults s = [] ->
  open_write n s
  = Ret tt (add_event (EvFile "open-write" n) (set_files (<[n := []]> (files s)) s)).
Proof.
  intros H. unfold open_write. rewrite (bind_ret _ _ _ _ _ (fault_point_clear s H)).
  reflexivity.
Qed.

Lemma file_write_clear n data s :
  faults s = [] ->
  file_write n data s
  = Ret tt (add_event (EvFile "write" n)
              (set_files (<[n := (default [] (files s !! n) ++ [data])%list]> (files s)) s)).
Proof.
  intros H. unfold file_write. rewrite (bind_ret _ _ _ _ _ (fault_point_clear s H)).
  reflexivity.
Qed.

Lemma open_read_clear n s content :
  faults s = [] -> files s !! n = Some content ->
  open_read n s = Ret tt (add_event (EvFile "open-read" n) s).
Proof.
  intros H Hn. unfold open_read. rewrite (bind_ret _ _ _ _ _ (fault_point_clear s H)).
  unfold mbind, M_bind, bind, get_state, file_exists. rewrite Hn. reflexivity.
Qed.

Lemma file_read_clear n s :
  faults s = [] ->
  file_read n s = Ret (default [] (files s !! n)) (add_event (EvFile "read" n) s).
Proof.
  intros H. unfold file_read. rewrite (bind_ret _ _ _ _ _ (fault_point_clear s H)).
  reflexivity.
Qed.

(** One write and read back, with no fault to come. *)
Lemma write_read_runs n data s :
  faults s = [] ->
  exists s',
    write_read n data s = Ret tt s' /\
    faults s' = [] /\ clock s' = clock s /\ files s' !! n = Some [data].
Proof.
  intros Hf. eexists. split.
  - unfold write_read.
    rewrite (bind_ret _ _ _ _ _ (open_write_clear n s Hf)).
    erewrite bind_ret by (apply file_write_clear; exact Hf).
    erewrite bind_ret
      by (eapply open_read_clear; [exact Hf | cbn; apply lookup_insert_eq]).
    erewrite bind_ret by (apply file_read_clear; exact Hf).
    reflexivity.
  - cbn [faults clock files add_event set_files]. repeat split; try assumption.
    rewrite !lookup_insert_eq. reflexivity.
Qed.

Lemma os_remove_runs n s content :
  faults s = [] -> files s !! n = Some content ->
  exists s', os_remove n s = Ret tt s' /\ faults s' = [] /\ clock s' = clock s.
Proof.
  intros Hf Hn. eexists. split.
  - unfold os_remove, mbind, M_bind, bind, fault_point, get_state. rewrite Hf.
    unfold file_exists. rewrite Hn. reflexivity.
  - cbn [faults clock add_event set_files]. split; [assumption | reflexivity].
Qed.

Lemma time_time_runs s t rest :
  clock s = t :: rest ->
  time_time s = Ret t (add_event (EvClock t) (set_clock rest s)).
Proof. intros H. unfold time_time. rewrite H. reflexivity. Qed.

(** The baseline disk probe, with no fault to come and a free temporary
    name. *)
Lemma disk_benchmark_runs s t1 t2 rest n names :
  faults s = [] -> clock s = t1 :: t2 :: rest ->
  tmp_names s = n :: names -> files s !! n = None ->
  exists s',
    disk_benchmark s
    = Ret [("Disk Benchmark (write/read 10MB)",
            VStr (format_4f (PrimFloat.sub t2 t1) ++ " seconds"))] s' /\
    clock s' = rest /\ faults s' = [].
Proof.
  intros Hf Hclock Hnames Hfree.
  pose (s0 := add_event (EvEnter "disk_benchmark") s).
  pose (s1 := add_event (EvFile "create" n)
                (set_files (<[n := []]> (files s0)) (set_tmp_names names s0))).
  assert (Htmp : named_temporary_file s0 = Ret n s1).
  { unfold named_temporary_file.
    rewrite (bind_ret _ _ _ _ _ (fault_point_clear s0 Hf)).
    unfold tempfile_mktemp, mbind, M_bind, bind, get_state.
    change (tmp_names s0) with (tmp_names s). rewrite Hnames. cbn [pick_name].
    unfold file_exists. change (files s0) with (files s). rewrite Hfree. reflexivity. }
  pose (s2 := add_event (EvClock t1) (set_clock (t2 :: rest) s1)).
  assert (Ht1 : time_time s1 = Ret t1 s2) by (apply time_time_runs; exact Hclock).
  destruct (write_read_runs n disk_payload s2 Hf) as (s3 & Hwr & Hf3 & Hc3 & Hn3).
  pose (s4 := add_event (EvClock t2) (set_clock rest s3)).
  assert (Ht2 : time_time s3 = Ret t2 s4) by (apply time_time_runs; rewrite Hc3; reflexivity).
  destruct (os_remove_runs n s4 [disk_payload] Hf3 Hn3) as (s5 & Hrm & Hf5 & Hc5).
  exists (add_event (EvLeave "disk_benchmark") s5). split.
  - unfold disk_benchmark, probe.
    unfold mbind at 1, M_bind at 1, bind at 1. cbn [emit modify]. fold s0.
    unfold mbind at 1, M_bind at 1, bind at 1. unfold try_except.
    rewrite (bind_ret _ _ _ _ _ Htmp), (bind_ret _ _ _ _ _ Ht1), (bind_ret _ _ _ _ _ Hwr),
      (bind_ret _ _ _ _ _ Ht2), (bind_ret _ _ _ _ _ Hrm).
    reflexivity.
  - cbn [clock faults add_event]. rewrite Hc5. split; [reflexivity | assumption].
Qed.

(** The extended disk probe, likewise. *)
Lemma extended_disk_benchmark_runs s t1 t2 rest n names :
  faults s = [] -> clock s = t1 :: t2 :: rest ->
  tmp_names s = n :: names -> files s !! n = None ->
  exists s',
    extended_disk_benchmark s
    = Ret [("Extended Disk Benchmark (3x 50MB write/read)",
            VStr (format_4f (PrimFloat.sub t2 t1) ++ " seconds"))] s' /\
    clock s' = rest /\ faults s' = [].
Proof.
  intros Hf Hclock Hnames Hfree.
  pose (s0 := add_event (EvEnter "extended_disk_benchmark") s).
  pose (s1 := set_tmp_names names s0).
  assert (Htmp : tempfile_mktemp s0 = Ret n s1).
  { unfold tempfile_mktemp, mbind, M_bind, bind, get_state.
    change (tmp_names s0) with (tmp_names s). rewrite Hnames. cbn [pick_name].
    unfold file_exists. change (files s0) with (files s). rewrite Hfree. reflexivity. }
  pose (s2 := add_event (EvClock t1) (set_clock (t2 :: rest) s1)).
  assert (Ht1 : time_time s1 = Ret t1 s2) by (apply time_time_runs; exact Hclock).
  destruct (write_read_runs n extended_disk_payload s2 Hf) as (sa & Hwa & Hfa & Hca & _).
  destruct (write_read_runs n extended_disk_payload sa Hfa) as (sb & Hwb & Hfb & Hcb & _).
  destruct (write_read_runs n extended_disk_payload sb Hfb) as (s3 & Hwr & Hf3 & Hc3 & Hn3).
  pose (s4 := add_event (EvClock t2) (set_clock rest s3)).
  assert (Ht2 : time_time s3 = Ret t2 s4).
  { apply time_time_runs. rewrite Hc3, Hcb, Hca. reflexivity. }
  destruct (os_remove_runs n s4 [extended_disk_payload] Hf3 Hn3) as (s5 & Hrm & Hf5 & Hc5).
  exists (add_event (EvLeave "extended_disk_benchmark") s5). split.
  - unfold extended_disk_benchmark, probe.
    unfold mbind at 1, M_bind at 1, bind at 1. cbn [emit modify]. fold s0.
    unfold mbind at 1, M_bind at 1, bind at 1. unfold try_except.
    rewrite (bind_ret _ _ _ _ _ Htmp), (bind_ret _ _ _ _ _ Ht1), (bind_ret _ _ _ _ _ Hwa),
      (bind_ret _ _ _ _ _ Hwb), (bind_ret _ _ _ _ _ Hwr),
      (bind_ret _ _ _ _ _ Ht2), (bind_ret _ _ _ _ _ Hrm).
    reflexivity.
  - cbn [clock faults add_event]. rewrite Hc5. split; [reflexivity | assumption].
Qed.

(** X26.  With no fault to come and a free temporary name, each disk probe
    returns its timing: the float difference between the reading of the
    clock taken after the last read back, before the file is removed, and
    the reading taken once the temporary name is there, printed with four
    digits after the point.  The files are then as they were, and the
    probe has read the clock exactly twice. *)
Theorem disk_probes_time_their_writes_and_reads
    (s : State) (t1 t2 : float) (rest : list float) (n : string) (names : list string) :
  faults s = [] -> clock s = t1 :: t2 :: rest ->
  tmp_names s = n :: names -> files s !! n = None ->
  (exists s',
     disk_benchmark s
     = Ret [("Disk Benchmark (write/read 10MB)",
             VStr (format_4f (PrimFloat.sub t2 t1) ++ " seconds"))] s' /\
     files s' = files s /\ clock s' = rest)
  /\
  (exists s',
     extended_disk_benchmark s
     = Ret [("Extended Disk Benchmark (3x 50MB write/read)",
             VStr (format_4f (PrimFloat.sub t2 t1) ++ " seconds"))] s' /\
     files s' = files s /\ clock s' = rest).
Proof.
  intros Hf Hclock Hnames Hfree. split.
  - destruct (disk_benchmark_runs s t1 t2 rest n names Hf Hclock Hnames Hfree)
      as (s' & H & Hc & _).
    exists s'. split; [exact H |]. split; [| exact Hc].
    exact (disk_benchmark_cleans_up _ _ _ H eq_refl).
  - destruct (extended_disk_benchmark_runs s t1 t2 rest n names Hf Hclock Hnames Hfree)
      as (s' & H & Hc & _).
    exists s'. split; [exact H |]. split; [| exact Hc].
    exact (extended_disk_benchmark_cleans_up _ _ _ H eq_refl).
Qed.

(** X27.  A tier on which nothing fails runs to its end: with no fault to
    come, a free temporary name, the buffers allocated and four readings
    of the clock after those of the CPU loop, the stored record holds the
    count of the CPU loop, that is the number of readings that compare
    below the float sum of the first reading and 3 (or 5), and the two
    timings, each the float difference of two readings printed with four
    digits; the files are as they were, and the clock was read that many
    times and no more. *)
Theorem tiers_run_to_their_end
    (pf : Platform) (s : State) (t0 t m1 m2 d1 d2 : float) (before rest : list float)
    (n : string) (names : list string) :
  faults s = [] -> tmp_names s = n :: names -> files s !! n = None ->
  clock s = t0 :: (before ++ t :: m1 :: m2 :: d1 :: d2 :: rest)%list ->
  (bytearray_alloc pf = Ok tt ->
   Forall (fun x => PrimFloat.ltb x (PrimFloat.add t0 (float_of_scaled 3 0)) = true) before ->
   PrimFloat.ltb t (PrimFloat.add t0 (float_of_scaled 3 0)) = false ->
   exists s',
     run_benchmarks pf s = Ret tt s' /\
     current_info s'
     = VDict [("CPU Benchmark (loops in 3s)", VInt (Z.of_nat (length before)));
              ("Memory Benchmark (sum bytes)",
               VStr (format_4f (PrimFloat.sub m2 m1) ++ " seconds"));
              ("Disk Benchmark (write/read 10MB)",
               VStr (format_4f (PrimFloat.sub d2 d1) ++ " seconds"))] /\
     files s' = files s /\ clock s' = rest)
  /\
  (import_numpy pf = Ok tt -> numpy_random_rand pf = Ok tt ->
   Forall (fun x => PrimFloat.ltb x (PrimFloat.add t0 (float_of_scaled 5 0)) = true) before ->
   PrimFloat.ltb t (PrimFloat.add t0 (float_of_scaled 5 0)) = false ->
   exists s',
     run_extended_benchmarks pf s = Ret tt s' /\
     current_info s'
     = VDict [("Extended CPU Benchmark loops", VInt (Z.of_nat (length before)));
              ("Extended Memory Benchmark (sum 10M floats)",
               VStr (format_4f (PrimFloat.sub m2 m1) ++ " seconds"));
              ("Extended Disk Benchmark (3x 50MB write/read)",
               VStr (format_4f (PrimFloat.sub d2 d1) ++ " seconds"))] /\
     files s' = files s /\ clock s' = rest).
Proof.
  intros Hf Hnames Hfree Hclock. split.
  - intros Halloc Hbefore Ht.
    destruct (counting_probe_runs "cpu_benchmark"
                (fun count => [("CPU Benchmark (loops in " ++ string_of_Z 3 ++ "s)", VInt count)])
                3 (float_of_scaled 3 0) t0 t before _ s eq_refl Hclock Hbefore Ht)
      as (s1 & H1 & Hc1).
    change (probe _ _) with (cpu_benchmark 3) in H1.
    destruct (clock_only_cpu_benchmark 3 _ _ _ H1) as (F1 & T1 & X1).
    destruct (memory_benchmark_runs pf s1 m1 m2 (d1 :: d2 :: rest) Halloc Hc1)
      as (s2 & H2 & Hc2 & F2 & T2 & X2).
    destruct (disk_benchmark_runs s2 d1 d2 rest n names) as (s3 & H3 & Hc3 & _);
      try congruence.
    pose proof (disk_benchmark_cleans_up _ _ _ H3 eq_refl) as X3.
    eexists. split; [| split; [| split]].
    + unfold run_benchmarks.
      rewrite (bind_ret _ _ _ _ _ H1), (bind_ret _ _ _ _ _ H2), (bind_ret _ _ _ _ _ H3).
      reflexivity.
    + reflexivity.
    + cbn [files add_event set_current_info]. congruence.
    + exact Hc3.
  - intros Himport Hrand Hbefore Ht.
    destruct (counting_probe_runs "extended_cpu_benchmark"
                (fun count => [("Extended CPU Benchmark loops", VInt count)])
                5 (float_of_scaled 5 0) t0 t before _ s eq_refl Hclock Hbefore Ht)
      as (s1 & H1 & Hc1).
    change (probe _ _) with (extended_cpu_benchmark 5) in H1.
    destruct (clock_only_extended_cpu_benchmark 5 _ _ _ H1) as (F1 & T1 & X1).
    destruct (extended_memory_benchmark_runs pf s1 m1 m2 (d1 :: d2 :: rest) Himport Hrand Hc1)
      as (s2 & H2 & Hc2 & F2 & T2 & X2).
    destruct (extended_disk_benchmark_runs s2 d1 d2 rest n names) as (s3 & H3 & Hc3 & _);
      try congruence.
    pose proof (extended_disk_benchmark_cleans_up _ _ _ H3 eq_refl) as X3.
    eexists. split; [| split; [| split]].
    + unfold run_extended_benchmarks.
      rewrite (bind_ret _ _ _ _ _ H1), (bind_ret _ _ _ _ _ H2), (bind_ret _ _ _ _ _ H3).
      reflexivity.
    + reflexivity.
    + cbn [files add_event set_current_info]. congruence.
    + exact Hc3.
Qed.

(** ** What the export buttons write *)

Lemma export_json_runs data filename s :
  faults s = [] ->
  exists s',
    export_json data filename s = Ret ExportTrue s' /\
    textbox s' = textbox s /\
    files s' !! filename = Some [Chars (json_dumps data)].
Proof.
  intros Hf. eexists. split; [| split].
  - unfold export_json, try_except, export_json_try.
    rewrite (bind_ret _ _ _ _ _ (open_write_clear filename s Hf)).
    erewrite bind_ret by (apply file_write_clear; exact Hf).
    reflexivity.
  - reflexivity.
  - cbn [files add_event set_files]. rewrite !lookup_insert_eq. reflexivity.
Qed.

Lemma rows_written_textbox filename rows : forall s,
  textbox (rows_written filename rows s) = textbox s.
Proof.
  induction rows as [|row rows IH]; intros s; [reflexivity |].
  simpl. rewrite IH. reflexivity.
Qed.

Lemma export_csv_runs fields filename s :
  faults s = [] ->
  exists s',
    export_csv (VDict fields) filename s = Ret ExportTrue s' /\
    textbox s' = textbox s /\
    files s' !! filename
    = Some (map (fun row => Chars (csv_line row)) (flat_rows EmptyString (VDict fields))).
Proof.
  intros Hf. eexists. split; [| split].
  - unfold export_csv, try_except, export_csv_try.
    rewrite (bind_ret _ _ _ _ _ (open_write_clear filename s Hf)).
    erewrite bind_ret by (apply write_dict_writes_flat_rows; exact Hf).
    reflexivity.
  - cbn beta iota. rewrite rows_written_textbox. reflexivity.
  - cbn beta iota. rewrite (rows_written_file _ _ _ []); [reflexivity |].
    cbn. apply lookup_insert_eq.
Qed.

(** X28.  With no fault to come and a record to export, each export button
    writes the stored record and says so: "Export JSON" leaves in
    [hardware_report.json] the text [json.dump] gives for the record, and
    "Export CSV" leaves in [hardware_report.csv] the lines of the flat
    rows of the record, each replacing what the file held. *)
Theorem export_buttons_write_the_stored_record (s : State) (fields : pydict) :
  faults s = [] -> current_info s = VDict fields -> fields <> [] ->
  (exists s',
     app_export_json s = Ret tt s' /\
     textbox s'
     = textbox s ++ newline ++ "Exported data to hardware_report.json" ++ newline /\
     files s' !! "hardware_report.json" = Some [Chars (json_dumps (VDict fields))])
  /\
  (exists s',
     app_export_csv s = Ret tt s' /\
     textbox s'
     = textbox s ++ newline ++ "Exported data to hardware_report.csv" ++ newline /\
     files s' !! "hardware_report.csv"
     = Some (map (fun row => Chars (csv_line row)) (flat_rows EmptyString (VDict fields)))).
Proof.
  intros Hf Hinfo Hne.
  assert (Htruthy : truthy (current_info s) = true).
  { rewrite Hinfo. destruct fields; [contradiction | reflexivity]. }
  split.
  - destruct (export_json_runs (VDict fields) "hardware_report.json" s Hf)
      as (s1 & H1 & Htext & Hfile).
    eexists. split; [| split].
    + unfold app_export_json, app_export, mbind, M_bind, bind, get_state.
      rewrite Htruthy, Hinfo, H1. reflexivity.
    + cbn [textbox set_textbox]. rewrite Htext. reflexivity.
    + exact Hfile.
  - destruct (export_csv_runs fields "hardware_report.csv" s Hf)
      as (s1 & H1 & Htext & Hfile).
    eexists. split; [| split].
    + unfold app_export_csv, app_export, mbind, M_bind, bind, get_state.
      rewrite Htruthy, Hinfo, H1. reflexivity.
    + cbn [textbox set_textbox]. rewrite Htext. reflexivity.
    + exact Hfile.
Qed.

(** ** The files a disk probe finds *)

Lemma keeps_existing_same {A} (m : M A) :
  (forall s, match m s with
             | Ret _ s' | Raise _ s' => files s' = files s
             | Stalled => True
             end) ->
  keeps_existing_files m.
Proof. intros H s. specialize (H s). destruct (m s); auto; intros k c; rewrite H; auto. Qed.

Lemma keeps_existing_bind {A B} (m : M A) (k : A -> M B) :
  keeps_existing_files m -> (forall a, keeps_existing_files (k a)) ->
  keeps_existing_files (m ≫= k).
Proof.
  intros Hm Hk s. specialize (Hm s). unfold mbind, M_bind, bind.
  destruct (m s) as [a s1 | e s1 |]; auto.
  specialize (Hk a s1). destruct (k a s1); auto.
Qed.

Lemma keeps_existing_try_except {A} (m : M A) (h : exn -> M A) :
  keeps_existing_files m -> (forall e, keeps_existing_files (h e)) ->
  keeps_existing_files (try_except m h).
Proof.
  intros Hm Hh s. specialize (Hm s). unfold try_except.
  destruct (m s) as [a s1 | e s1 |]; auto.
  specialize (Hh e s1). destruct (h e s1); auto.
Qed.

Lemma keeps_existing_ret {A} (a : A) : keeps_existing_files (mret a).
Proof. apply keeps_existing_same. intros s. reflexivity. Qed.

Lemma keeps_existing_emit ev : keeps_existing_files (emit ev).
Proof. apply keeps_existing_same. intros s. reflexivity. Qed.

Lemma keeps_existing_probe name body :
  keeps_existing_files body -> keeps_existing_files (probe name body).
Proof.
  intros H. unfold probe.
  apply keeps_existing_bind; [apply keeps_existing_emit | intros _].
  apply keeps_existing_bind; [exact H | intros r].
  apply keeps_existing_bind; [apply keeps_existing_emit | intros _].
  apply keeps_existing_ret.
Qed.

(** Once a name that no file has is chosen, what touches that file only
    leaves the files that exist alone. *)
Lemma keeps_existing_fresh {B} (pick : M string) (rest : string -> M B) :
  (forall s, match pick s with
             | Ret n s' => files s !! n = None /\
                           forall k, k <> n -> files s' !! k = files s !! k
             | Raise _ s' => files s' = files s
             | Stalled => True
             end) ->
  (forall n, keeps_other_files n (rest n)) ->
  keeps_existing_files (pick ≫= rest).
Proof.
  intros Hpick Hrest s. specialize (Hpick s). unfold mbind, M_bind, bind.
  destruct (pick s) as [n s1 | e s1 |]; auto.
  - destruct Hpick as [Hfree Hother]. specialize (Hrest n s1).
    assert (Hk : forall k content, files s !! k = Some content -> k <> n).
    { intros k content Hk ->. rewrite Hfree in Hk. discriminate Hk. }
    destruct (rest n s1); auto; intros k content Hc;
      rewrite Hrest, Hother by (eapply Hk; eauto); exact Hc.
  - intros k content. rewrite Hpick. auto.
Qed.

Lemma tempfile_mktemp_picks s :
  match tempfile_mktemp s with
  | Ret n s' => files s !! n = None /\ forall k, k <> n -> files s' !! k = files s !! k
  | Raise _ s' => files s' = files s
  | Stalled => True
  end.
Proof.
  destruct (tempfile_mktemp s) as [n s' | e s' |] eqn:H; [| | exact I].
  - apply tempfile_mktemp_ret in H as [Hfree Hsame]. split; [exact Hfree |].
    intros k _. rewrite Hsame. reflexivity.
  - unfold tempfile_mktemp, mbind, M_bind, bind, get_state in H.
    destruct (pick_name (tmp_names s) s) as [[n rest] |]; cbn in H; [discriminate H |].
    injection H as _ <-. reflexivity.
Qed.

Lemma named_temporary_file_picks s :
  match named_temporary_file s with
  | Ret n s' => files s !! n = None /\ forall k, k <> n -> files s' !! k = files s !! k
  | Raise _ s' => files s' = files s
  | Stalled => True
  end.
Proof.
  destruct (named_temporary_file s) as [n s' | e s' |] eqn:H; [| | exact I].
  - exact (named_temporary_file_ret _ _ _ H).
  - unfold named_temporary_file in H.
    apply bind_raise_inv in H as [H | ([] & s1 & Hfp & H)].
    + unfold fault_point in H. destruct (faults s) as [|[msg|] rest]; try discriminate H.
      injection H as _ <-. reflexivity.
    + apply fault_point_ret in Hfp.
      apply bind_raise_inv in H as [H | (n & s2 & _ & H)].
      * pose proof (tempfile_mktemp_picks s1) as Hp. rewrite H in Hp. congruence.
      * cbn in H. discriminate H.
Qed.

(** X29.  A disk probe never touches a file that was there before it ran:
    whether it answers its timing or its error, every file that existed
    is still there with the same content.  Only its own temporary file,
    under a name that no file had, can be left behind. *)
Theorem disk_probes_spare_existing_files (s : State) :
  match disk_benchmark s with
  | Ret _ s' | Raise _ s' =>
      forall k content, files s !! k = Some content -> files s' !! k = Some content
  | Stalled => True
  end
  /\
  match extended_disk_benchmark s with
  | Ret _ s' | Raise _ s' =>
      forall k content, files s !! k = Some content -> files s' !! k = Some content
  | Stalled => True
  end.
Proof.
  split.
  - apply (keeps_existing_probe "disk_benchmark").
    apply keeps_existing_try_except; [| intros e; apply keeps_existing_ret].
    apply keeps_existing_fresh; [apply named_temporary_file_picks |].
    intros n. pose proof (keeps_write_read n disk_payload). pose proof (keeps_os_remove n).
    keeps_tac.
  - apply (keeps_existing_probe "extended_disk_benchmark").
    apply keeps_existing_try_except; [| intros e; apply keeps_existing_ret].
    apply keeps_existing_fresh; [apply tempfile_mktemp_picks |].
    intros n. pose proof (keeps_write_read n extended_disk_payload).
    pose proof (keeps_os_remove n). keeps_tac.
Qed.

(** ** The statements at sample runs *)

Lemma unknown_category_is_data_witness :
  (exists s', fetch (show_info healthy_platform) "nonexistent-category" (start_state [] [])
              = Ret (VDict [("Error", VStr "Unknown category")]) s')
  /\
  (exists s', fetch (extended_show_info healthy_platform) "nonexistent-category"
                    (start_state [] [])
              = Ret (VDict [("Error", VStr "Unknown category")]) s').
Proof.
  destruct (unknown_category_is_data healthy_platform "nonexistent-category"
              (start_state [] [])) as [Hbase Hextended].
  split; [apply Hbase | apply Hextended]; simpl; intuition discriminate.
Defined.

Lemma system_info_failure_propagates_witness :
  fetch (show_info failing_platform) "System Info" (start_state [] [])
  = Raise (Exn "ValueError" "failed to parse CPython sys.version: '3.11.4 (custom)'")
          (set_textbox EmptyString (set_combo "System Info" (start_state [] [])))
  /\
  fetch (extended_show_info failing_platform) "System Info" (start_state [] [])
  = Raise (Exn "ValueError" "failed to parse CPython sys.version: '3.11.4 (custom)'")
          (set_textbox EmptyString (set_combo "System Info" (start_state [] []))).
Proof.
  apply (system_info_failure_propagates failing_platform (start_state [] [])). reflexivity.
Defined.

Lemma memory_failure_aborts_baseline_tier_witness :
  run_benchmarks failing_platform (start_state baseline_clock [])
  = Raise (Exn "MemoryError" EmptyString)
          (add_event (EvEnter "memory_benchmark") baseline_after_cpu) /\
  current_info (add_event (EvEnter "memory_benchmark") baseline_after_cpu)
  = current_info (start_state baseline_clock []) /\
  log (add_event (EvEnter "memory_benchmark") baseline_after_cpu)
  = (log baseline_after_cpu ++ [EvEnter "memory_benchmark"])%list.
Proof.
  apply (memory_failure_aborts_baseline_tier failing_platform (start_state baseline_clock [])
           baseline_after_cpu [("CPU Benchmark (loops in 3s)", VInt 2)]);
    reflexivity.
Defined.

Lemma disk_probes_leave_file_on_error_witness :
  (disk_benchmark (start_state [10] [None; None; disk_full])
   = Ret [("Disk Benchmark Error", VStr "[Errno 28] No space left on device")] leak_final /\
   files (start_state [10] [None; None; disk_full]) !! "tmpk3v9x" = None /\
   is_Some (files leak_final !! "tmpk3v9x"))
  /\
  (extended_disk_benchmark (start_state [10] [None; disk_full])
   = Ret [("Error", VStr ("Failed extended disk benchmark: " ++
                          "[Errno 28] No space left on device"))] extended_leak_final /\
   files (start_state [10] [None; disk_full]) !! "tmpk3v9x" = None /\
   is_Some (files extended_leak_final !! "tmpk3v9x")).
Proof.
  split; (split; [reflexivity |]).
  - apply (proj1 (disk_probes_leave_file_on_error
                    (start_state [10] [None; None; disk_full]) leak_created leak_final
                    "tmpk3v9x"
                    [("Disk Benchmark Error", VStr "[Errno 28] No space left on device")]));
      reflexivity.
  - apply (proj2 (disk_probes_leave_file_on_error
                    (start_state [10] [None; disk_full]) extended_leak_named
                    extended_leak_final "tmpk3v9x"
                    [("Error", VStr ("Failed extended disk benchmark: " ++
                                     "[Errno 28] No space left on device"))])
             (decimal 6 10) extended_leak_timed extended_leak_opened); reflexivity.
Defined.

Lemma disk_probes_clean_up_on_success_witness :
  files disk_final = files (start_state [10; 31260] [])
  /\
  files extended_disk_final = files (start_state [10; 900010] []).
Proof.
  split.
  - apply (proj1 (disk_probes_clean_up_on_success (start_state [10; 31260] []) disk_final
                    [("Disk Benchmark (write/read 10MB)", VStr "0.0312 seconds")]));
      reflexivity.
  - apply (proj2 (disk_probes_clean_up_on_success (start_state [10; 900010] [])
                    extended_disk_final
                    [("Extended Disk Benchmark (3x 50MB write/read)",
                      VStr "0.9000 seconds")]));
      reflexivity.
Defined.

Lemma flat_export_writes_described_rows_witness :
  (forall fields prefix,
     write_dict "hardware_report.csv" (VDict fields) prefix (start_state [] [])
     = Ret tt (rows_written "hardware_report.csv" (flat_rows prefix (VDict fields))
                 (start_state [] [])))
  /\
  flat_rows EmptyString flat_example
  = [[VStr "A"; VInt 1]; [VStr "B"]; [VStr "  Item 1"]; [VStr "    C"; VInt 2];
     [VStr "  Item 2"]; [VStr "    C"; VInt 3]]
  /\
  exists s',
    export_csv flat_example "hardware_report.csv" (start_state [] []) = Ret ExportTrue s' /\
    files s' !! "hardware_report.csv"
    = Some [Chars ("A,1" ++ crlf); Chars ("B" ++ crlf); Chars ("  Item 1" ++ crlf);
            Chars ("    C,2" ++ crlf); Chars ("  Item 2" ++ crlf);
            Chars ("    C,3" ++ crlf)].
Proof.
  apply (flat_export_writes_described_rows "hardware_report.csv" (start_state [] [])).
  reflexivity.
Defined.

Lemma structured_export_round_trips_witness :
  exists text,
    files export_final !! "hardware_report.json" = Some [Chars text] /\
    file_text [Chars text] = json_dumps sample_record /\
    json_loads text = Some sample_record.
Proof.
  apply (structured_export_round_trips sample_record "hardware_report.json"
           (start_state [] []) export_final); reflexivity.
Defined.

Lemma tier_is_sequential_and_stores_once_witness :
  (exists r1 r2 r3 s1 s2 s3 evs,
     cpu_benchmark 3 (start_state baseline_clock []) = Ret r1 s1 /\
     memory_benchmark healthy_platform s1 = Ret r2 s2 /\
     disk_benchmark s2 = Ret r3 s3 /\
     current_info baseline_final
     = VDict (dict_update (dict_update (dict_update [] r1) r2) r3) /\
     log baseline_final = (log (start_state baseline_clock []) ++ evs)%list /\
     tier_trace "cpu_benchmark" "memory_benchmark" "disk_benchmark"
       (current_info baseline_final) evs /\
     List.filter is_set_info evs = [EvSetInfo (current_info baseline_final)])
  /\
  (exists r1 r2 r3 s1 s2 s3 evs,
     extended_cpu_benchmark 5 (start_state extended_clock []) = Ret r1 s1 /\
     extended_memory_benchmark healthy_platform s1 = Ret r2 s2 /\
     extended_disk_benchmark s2 = Ret r3 s3 /\
     current_info extended_final
     = VDict (dict_update (dict_update (dict_update [] r1) r2) r3) /\
     log extended_final = (log (start_state extended_clock []) ++ evs)%list /\
     tier_trace "extended_cpu_benchmark" "extended_memory_benchmark" "extended_disk_benchmark"
       (current_info extended_final) evs /\
     List.filter is_set_info evs = [EvSetInfo (current_info extended_final)])
  /\
  (exists evs,
     log (add_event (EvEnter "memory_benchmark") baseline_after_cpu)
     = (log (start_state baseline_clock []) ++ evs)%list /\
     List.filter is_set_info evs = [] /\
     current_info (add_event (EvEnter "memory_benchmark") baseline_after_cpu)
     = current_info (start_state baseline_clock [])).
Proof.
  split; [| split].
  - apply (proj1 (tier_is_sequential_and_stores_once healthy_platform
                    (start_state baseline_clock []) baseline_final)). reflexivity.
  - apply (proj1 (proj2 (tier_is_sequential_and_stores_once healthy_platform
                           (start_state extended_clock []) extended_final))). reflexivity.
  - apply (proj2 (proj2 (tier_is_sequential_and_stores_once failing_platform
                           (start_state baseline_clock [])
                           (add_event (EvEnter "memory_benchmark") baseline_after_cpu)))
             (Exn "MemoryError" EmptyString)).
    left. reflexivity.
Defined.

Lemma nested_dict_field_is_one_row_witness :
  write_dict "hardware_report.csv"
    (VDict ([("A", VInt 1)] ++ ("Outer", VDict [("Inner", VInt 1)]) :: []))
    EmptyString (start_state [] [])
  = Ret tt (rows_written "hardware_report.csv"
              (flat_rows EmptyString (VDict [("A", VInt 1)])
               ++ [[VStr (EmptyString ++ "Outer"); VDict [("Inner", VInt 1)]]]
               ++ flat_rows EmptyString (VDict [])) (start_state [] []))
  /\
  csv_line [VStr (EmptyString ++ "Outer"); VDict [("Inner", VInt 1)]]
  = (csv_field (VStr (EmptyString ++ "Outer")) ++ "," ++ csv_field (VDict [("Inner", VInt 1)]))
    ++ crlf
  /\
  csv_text (VDict [("Inner", VInt 1)]) = py_repr (VDict [("Inner", VInt 1)]).
Proof.
  apply (nested_dict_field_is_one_row "hardware_report.csv" [("A", VInt 1)] [] "Outer"
           [("Inner", VInt 1)] EmptyString (start_state [] [])).
  reflexivity.
Defined.

Lemma extended_errors_share_one_key_witness :
  extended_memory_benchmark failing_platform extended_after_cpu
  = Ret [("Error",
          VStr ("Failed extended memory benchmark: "
                ++ "Unable to allocate 76.3 MiB for an array with shape (10000000,)"))]
        (add_event (EvLeave "extended_memory_benchmark")
           (add_event (EvEnter "extended_memory_benchmark") extended_after_cpu)) /\
  exists count s',
    run_extended_benchmarks failing_platform
      (start_state [0; 5000000; 5000100] [disk_full]) = Ret tt s' /\
    current_info s'
    = VDict [("Extended CPU Benchmark loops", VInt count);
             ("Error", VStr "Failed extended disk benchmark: [Errno 28] No space left on device")]
    /\
    List.filter is_set_info (skipn (length (log extended_after_disk)) (log s'))
    = [EvSetInfo (current_info s')].
Proof.
  apply (extended_errors_share_one_key failing_platform
           (start_state [0; 5000000; 5000100] [disk_full]) extended_after_cpu
           extended_after_disk [("Extended CPU Benchmark loops", VInt 0)]
           (Exn "MemoryError" "Unable to allocate 76.3 MiB for an array with shape (10000000,)")
           "Failed extended disk benchmark: [Errno 28] No space left on device");
    reflexivity.
Defined.

Lemma extended_dispatch_falls_back_witness :
  extended_show_info healthy_platform new_app = show_info healthy_platform new_app.
Proof.
  apply (extended_dispatch_falls_back healthy_platform new_app).
  vm_compute. intuition discriminate.
Defined.

Lemma benchmark_record_arrives_with_the_worker_witness :
  log benchmarks_started = (log benchmarks_picked ++ [EvStart RunBenchmarks])%list /\
  enabled (WorkerRuns RunBenchmarks) benchmarks_started /\
  current_info benchmarks_started = current_info benchmarks_picked /\
  clock benchmarks_started = clock benchmarks_picked /\
  files benchmarks_started = files benchmarks_picked /\
  textbox benchmarks_started = announcement RunBenchmarks ++ newline /\
  textbox benchmarks_done = announcement RunBenchmarks ++ newline /\
  exists r1 r2 r3 sa sb sc,
    cpu_probe_of RunBenchmarks benchmarks_started = Ret r1 sa /\
    memory_probe_of healthy_platform RunBenchmarks sa = Ret r2 sb /\
    disk_probe_of RunBenchmarks sb = Ret r3 sc /\
    current_info benchmarks_done = merge_results r1 r2 r3 /\
    enabled (CallbackRuns (merge_results r1 r2 r3)) benchmarks_done.
Proof.
  apply (benchmark_record_arrives_with_the_worker healthy_platform RunBenchmarks
           benchmarks_picked benchmarks_started benchmarks_done); reflexivity.
Defined.

Lemma guarded_categories_return_objects_witness :
  exists fields s',
    fetch (extended_show_info healthy_platform) "RAM Info" (start_state [] [])
    = Ret (VDict fields) s'.
Proof.
  apply (guarded_categories_return_objects healthy_platform (start_state [] []) "RAM Info").
  simpl. right. right. left. reflexivity.
Defined.

Lemma session_invariants_witness :
  In (combo system_info_shown) category_options /\
  is_dict (current_info system_info_shown) = true.
Proof.
  apply (session_invariants healthy_platform system_info_shown).
  apply (reach_step healthy_platform new_app PressShow system_info_shown).
  - apply (reach_init healthy_platform (start_state [] []) new_app); reflexivity.
  - exact I.
  - left. reflexivity.
Defined.

Lemma display_matches_stored_record_witness :
  display_info (current_info system_info_shown) system_info_shown = Ret tt system_info_shown.
Proof.
  apply (proj1 (display_matches_stored_record healthy_platform new_app system_info_shown
                  ltac:(vm_compute; discriminate))).
  reflexivity.
Defined.

Lemma empty_record_is_not_exported_witness :
  current_info new_app = VDict [] /\
  app_export_json new_app
  = Ret tt (set_textbox (textbox new_app ++ newline ++ "No data to export!" ++ newline) new_app)
  /\
  app_export_csv new_app
  = Ret tt (set_textbox (textbox new_app ++ newline ++ "No data to export!" ++ newline) new_app).
Proof.
  apply (empty_record_is_not_exported healthy_platform (start_state [] []) new_app).
  left. reflexivity.
Defined.

Lemma export_open_failure_keeps_report_witness :
  export_json sample_record "hardware_report.json" (start_state [] [Some permission_denied])
  = Ret (ExportFailed permission_denied)
        (set_faults [] (start_state [] [Some permission_denied])) /\
  export_csv sample_record "hardware_report.json" (start_state [] [Some permission_denied])
  = Ret (ExportFailed permission_denied)
        (set_faults [] (start_state [] [Some permission_denied])).
Proof.
  apply (export_open_failure_keeps_report sample_record "hardware_report.json"
           permission_denied [] (start_state [] [Some permission_denied])).
  reflexivity.
Defined.

Lemma export_write_failure_leaves_empty_file_witness :
  (exists s',
     export_json flat_example "hardware_report.json" (start_state [] [None; disk_full])
     = Ret (ExportFailed "[Errno 28] No space left on device") s' /\
     files s' !! "hardware_report.json" = Some []) /\
  (forall kv fields, flat_example = VDict (kv :: fields) ->
   exists s',
     export_csv flat_example "hardware_report.json" (start_state [] [None; disk_full])
     = Ret (ExportFailed "[Errno 28] No space left on device") s' /\
     files s' !! "hardware_report.json" = Some []).
Proof.
  apply (export_write_failure_leaves_empty_file flat_example "hardware_report.json"
           "[Errno 28] No space left on device" [] (start_state [] [None; disk_full])).
  reflexivity.
Defined.

Lemma export_csv_needs_a_dict_witness :
  export_csv (VList [VInt 1]) "hardware_report.csv" (start_state [] [])
  = Ret (ExportFailed ("'" ++ type_name (VList [VInt 1]) ++ "' object has no attribute 'items'"))
        opened_for_list /\
  files opened_for_list !! "hardware_report.csv" = Some [].
Proof.
  apply (export_csv_needs_a_dict (VList [VInt 1]) "hardware_report.csv" (start_state [] [])
           opened_for_list); reflexivity.
Defined.

Lemma tuples_come_back_as_lists_witness :
  json_loads (json_dumps locale_record) = Some (tuples_as_lists locale_record) /\
  (fact_record locale_record = true -> tuples_as_lists locale_record = locale_record) /\
  (forall pf loc, get_system_locale pf = Ok locale_record ->
                  locale_getdefaultlocale pf = Ok loc ->
                  tuples_as_lists locale_record <> locale_record).
Proof.
  apply (tuples_come_back_as_lists locale_record). reflexivity.
Defined.

Lemma structured_export_is_ascii_witness :
  exists text,
    files accented_final !! "hardware_report.json" = Some [Chars text] /\
    ascii_text text = true.
Proof.
  apply (structured_export_is_ascii accented_record "hardware_report.json"
           (start_state [] []) accented_final); reflexivity.
Defined.

Lemma flat_export_forgets_the_nesting_witness :
  VDict (("B", VList [VDict [("C", VInt 2)]]) :: [("D", VInt 1)])
  <> VDict (("B", VList [VDict []]) :: ("    " ++ "C", VInt 2) :: [("D", VInt 1)]) /\
  export_csv (VDict (("B", VList [VDict [("C", VInt 2)]]) :: [("D", VInt 1)]))
    "hardware_report.csv" (start_state [] [])
  = export_csv (VDict (("B", VList [VDict []]) :: ("    " ++ "C", VInt 2) :: [("D", VInt 1)]))
      "hardware_report.csv" (start_state [] []).
Proof.
  apply (flat_export_forgets_the_nesting "hardware_report.csv" "B" "C" (VInt 2)
           [("D", VInt 1)] (start_state [] [])).
  reflexivity.
Defined.

Lemma cpu_probes_count_readings_before_deadline_witness :
  (exists s',
     cpu_benchmark 3 (start_state [742523; 1742523; 3742523; 3742524; 9000000] [])
     = Ret [("CPU Benchmark (loops in " ++ string_of_Z 3 ++ "s)",
             VInt (Z.of_nat (length (microseconds [1742523; 3742523]))))] s' /\
     clock s' = microseconds [9000000])
  /\
  (exists s',
     extended_cpu_benchmark 3 (start_state [742523; 1742523; 3742523; 3742524; 9000000] [])
     = Ret [("Extended CPU Benchmark loops",
             VInt (Z.of_nat (length (microseconds [1742523; 3742523]))))] s' /\
     clock s' = microseconds [9000000]).
Proof.
  apply (cpu_probes_count_readings_before_deadline 3 (float_of_scaled 3 0)
           (decimal 6 742523) (decimal 6 3742524) (microseconds [1742523; 3742523])
           (microseconds [9000000])
           (start_state [742523; 1742523; 3742523; 3742524; 9000000] [])).
  - reflexivity.
  - reflexivity.
  - repeat constructor.
  - reflexivity.
Defined.

Lemma what_aborts_a_tier_witness :
  bytearray_alloc failing_platform = Err (Exn "MemoryError" EmptyString) /\
  import_numpy workstation = Err (Exn "ModuleNotFoundError" "No module named 'numpy'") /\
  run_extended_benchmarks workstation (start_state extended_clock [])
  = Raise (Exn "ModuleNotFoundError" "No module named 'numpy'")
          (add_event (EvEnter "extended_memory_benchmark") no_numpy_after_cpu) /\
  current_info (add_event (EvEnter "extended_memory_benchmark") no_numpy_after_cpu)
  = current_info (start_state extended_clock []).
Proof.
  split; [| split].
  - apply (proj1 (what_aborts_a_tier failing_platform (start_state baseline_clock []))
             (Exn "MemoryError" EmptyString)
             (add_event (EvEnter "memory_benchmark") baseline_after_cpu)).
    reflexivity.
  - apply (proj1 (proj2 (what_aborts_a_tier workstation (start_state extended_clock [])))
             (Exn "ModuleNotFoundError" "No module named 'numpy'")
             (add_event (EvEnter "extended_memory_benchmark") no_numpy_after_cpu)).
    reflexivity.
  - apply (proj2 (proj2 (what_aborts_a_tier workstation (start_state extended_clock [])))
             (Exn "ModuleNotFoundError" "No module named 'numpy'")
             [("Extended CPU Benchmark loops", VInt 2)] no_numpy_after_cpu);
      reflexivity.
Defined.

Lemma baseline_merge_has_three_fields_witness :
  exists count elapsed disk_key disk_text,
    current_info baseline_final
    = VDict [("CPU Benchmark (loops in 3s)", VInt count);
             ("Memory Benchmark (sum bytes)", VStr elapsed);
             (disk_key, VStr disk_text)] /\
    (disk_key = "Disk Benchmark (write/read 10MB)" \/ disk_key = "Disk Benchmark Error").
Proof.
  apply (baseline_merge_has_three_fields healthy_platform (start_state baseline_clock [])
           baseline_final).
  reflexivity.
Defined.

Lemma extended_merge_has_two_or_three_fields_witness :
  exists count fields,
    current_info extended_final
    = VDict (("Extended CPU Benchmark loops", VInt count) :: fields) /\
    List.NoDup (dict_keys (("Extended CPU Benchmark loops", VInt count) :: fields)) /\
    ((exists memory disk,
        fields = [("Extended Memory Benchmark (sum 10M floats)", VStr memory);
                  ("Extended Disk Benchmark (3x 50MB write/read)", VStr disk)]) \/
     (exists memory e,
        fields = [("Extended Memory Benchmark (sum 10M floats)", VStr memory);
                  ("Error", VStr ("Failed extended disk benchmark: " ++ exn_msg e))]) \/
     (exists e disk,
        fields = [("Error", VStr ("Failed extended memory benchmark: " ++ exn_msg e));
                  ("Extended Disk Benchmark (3x 50MB write/read)", VStr disk)]) \/
     (exists e, fields = [("Error", VStr ("Failed extended disk benchmark: " ++ exn_msg e))])).
Proof.
  apply (extended_merge_has_two_or_three_fields healthy_platform
           (start_state extended_clock []) extended_final).
  reflexivity.
Defined.

Lemma disk_info_stops_at_first_failure_witness :
  get_disk_info healthy_platform = Ok (VList [])
  /\
  get_disk_info workstation
  = Ok (VList [disk_entry {| p_device := "C:\"; p_mountpoint := "C:\"; p_fstype := "NTFS" |}
                 (workstation_usage
                    {| p_device := "C:\"; p_mountpoint := "C:\"; p_fstype := "NTFS" |});
               VDict [("Error", VStr ("Failed to get disk info: " ++ exn_msg no_medium))]]).
Proof.
  split.
  - apply (proj1 (disk_info_stops_at_first_failure healthy_platform workstation_usage [] []
                    ltac:(constructor))).
    reflexivity.
  - apply (proj2 (disk_info_stops_at_first_failure workstation workstation_usage
                    [{| p_device := "C:\"; p_mountpoint := "C:\"; p_fstype := "NTFS" |}]
                    [{| p_device := "E:\"; p_mountpoint := "E:\"; p_fstype := "NTFS" |}]
                    ltac:(repeat constructor))
             {| p_device := "D:\"; p_mountpoint := "D:\"; p_fstype := EmptyString |}
             no_medium); reflexivity.
Defined.

Lemma usb_devices_are_the_quoted_identifiers_witness :
  get_usb_devices workstation
  = Ok (VList (map (fun d => VStr (snd d)) workstation_usb)).
Proof.
  apply (proj1 (usb_devices_are_the_quoted_identifiers workstation workstation_usb
                  ltac:(repeat constructor))).
  reflexivity.
Defined.

Lemma network_info_stops_at_first_address_witness :
  get_network_info workstation
  = Ok (VList [VDict [("Error", VStr ("Failed to get network info: " ++
                                       "module 'psutil' has no attribute 'AF_INET'"))]]).
Proof.
  apply (proj1 (network_info_stops_at_first_address workstation {["Ethernet" := true]} []
                  eq_refl (@List.Forall_nil _ _))
           (Exn "AttributeError" "module 'psutil' has no attribute 'AF_INET'") "Ethernet"
           {| addr_family := AF_LINK; addr_address := "00-1B-21-3A-4F-5C" |}
           [{| addr_family := AF_INET; addr_address := "192.168.1.20" |}]
           [("Loopback Pseudo-Interface 1",
             [{| addr_family := AF_INET; addr_address := "127.0.0.1" |};
              {| addr_family := AF_INET6; addr_address := "::1" |}])]); reflexivity.
Defined.

Lemma disk_probes_time_their_writes_and_reads_witness :
  (exists s',
     disk_benchmark (start_state [10; 31260] [])
     = Ret [("Disk Benchmark (write/read 10MB)",
             VStr (format_4f (PrimFloat.sub (decimal 6 31260) (decimal 6 10)) ++ " seconds"))]
           s' /\
     files s' = files (start_state [10; 31260] []) /\ clock s' = [])
  /\
  (exists s',
     extended_disk_benchmark (start_state [10; 31260] [])
     = Ret [("Extended Disk Benchmark (3x 50MB write/read)",
             VStr (format_4f (PrimFloat.sub (decimal 6 31260) (decimal 6 10)) ++ " seconds"))]
           s' /\
     files s' = files (start_state [10; 31260] []) /\ clock s' = []).
Proof.
  apply (disk_probes_time_their_writes_and_reads (start_state [10; 31260] [])
           (decimal 6 10) (decimal 6 31260) [] "tmpk3v9x" ["tmp1a2b3c"]); reflexivity.
Defined.

Lemma tiers_run_to_their_end_witness :
  (exists s',
     run_benchmarks healthy_platform (start_state baseline_clock []) = Ret tt s' /\
     current_info s'
     = VDict [("CPU Benchmark (loops in 3s)",
               VInt (Z.of_nat (length (microseconds [1000000; 2000000]))));
              ("Memory Benchmark (sum bytes)",
               VStr (format_4f (PrimFloat.sub (decimal 6 3031350) (decimal 6 3000100))
                     ++ " seconds"));
              ("Disk Benchmark (write/read 10MB)",
               VStr (format_4f (PrimFloat.sub (decimal 6 3045400) (decimal 6 3031400))
                     ++ " seconds"))] /\
     files s' = files (start_state baseline_clock []) /\ clock s' = [])
  /\
  (exists s',
     run_extended_benchmarks healthy_platform (start_state extended_clock []) = Ret tt s' /\
     current_info s'
     = VDict [("Extended CPU Benchmark loops",
               VInt (Z.of_nat (length (microseconds [2000000; 4000000]))));
              ("Extended Memory Benchmark (sum 10M floats)",
               VStr (format_4f (PrimFloat.sub (decimal 6 5020100) (decimal 6 5000100))
                     ++ " seconds"));
              ("Extended Disk Benchmark (3x 50MB write/read)",
               VStr (format_4f (PrimFloat.sub (decimal 6 5920200) (decimal 6 5020200))
                     ++ " seconds"))] /\
     files s' = files (start_state extended_clock []) /\ clock s' = []).
Proof.
  split.
  - apply (proj1 (tiers_run_to_their_end healthy_platform (start_state baseline_clock [])
                    (decimal 6 0) (decimal 6 3000000) (decimal 6 3000100) (decimal 6 3031350)
                    (decimal 6 3031400) (decimal 6 3045400) (microseconds [1000000; 2000000]) []
                    "tmpk3v9x" ["tmp1a2b3c"] eq_refl eq_refl eq_refl eq_refl)).
    + reflexivity.
    + repeat constructor.
    + reflexivity.
  - apply (proj2 (tiers_run_to_their_end healthy_platform (start_state extended_clock [])
                    (decimal 6 0) (decimal 6 5000000) (decimal 6 5000100) (decimal 6 5020100)
                    (decimal 6 5020200) (decimal 6 5920200) (microseconds [2000000; 4000000]) []
                    "tmpk3v9x" ["tmp1a2b3c"] eq_refl eq_refl eq_refl eq_refl)).
    + reflexivity.
    + reflexivity.
    + repeat constructor.
    + reflexivity.
Defined.

Lemma export_buttons_write_the_stored_record_witness :
  (exists s',
     app_export_json system_info_shown = Ret tt s' /\
     textbox s'
     = textbox system_info_shown ++ newline ++ "Exported data to hardware_report.json"
       ++ newline /\
     files s' !! "hardware_report.json"
     = Some [Chars (json_dumps (VDict system_info_fields))])
  /\
  (exists s',
     app_export_csv system_info_shown = Ret tt s' /\
     textbox s'
     = textbox system_info_shown ++ newline ++ "Exported data to hardware_report.csv"
       ++ newline /\
     files s' !! "hardware_report.csv"
     = Some (map (fun row => Chars (csv_line row))
               (flat_rows EmptyString (VDict system_info_fields)))).
Proof.
  apply (export_buttons_write_the_stored_record system_info_shown system_info_fields).
  - reflexivity.
  - reflexivity.
  - discriminate.
Defined.
